(** * Employee management system: storage, month aggregation and salary

    A shallow embedding of [nownn.py].  Python floats are IEEE-754 binary64
    numbers and are modelled by Rocq's primitive floats; Python ints are [Z];
    a Python [str] is the sequence of its characters, each a code point
    below 256; a Python [dict] keyed by employee id is a [gmap string _];
    functions that can raise return a [result]; functions that touch the
    files on disk thread the storage state explicitly.  The storage holds,
    for each JSON file, what [json.load] makes of its text; the text itself
    and the two library functions are modelled in [Json]. *)

From Stdlib Require Import ZArith Floats Lia Ascii String List Bool.
From Stdlib Require Import DecimalString.
From Stdlib Require DecimalFacts DecimalPos DecimalZ.
From stdpp Require Import gmap strings list fin_maps.

Open Scope Z_scope.

(** ** Python values and built-ins used by the program *)

Module Py.

(** The exceptions the modelled code can raise. *)
Inductive exn : Set :=
| ValueError | TypeError | AttributeError | OverflowError | JSONDecodeError.

Inductive result (A : Type) : Type :=
| Ok (a : A)
| Raise (e : exn).
Arguments Ok {A} a.
Arguments Raise {A} e.

Definition bind {A B} (r : result A) (k : A -> result B) : result B :=
  match r with
  | Ok a => k a
  | Raise e => Raise e
  end.

Definition is_ok {A} (r : result A) : bool :=
  match r with Ok _ => true | Raise _ => false end.

(** A scalar value as [json.load] produces it: [None], a [bool], an [int],
    a [float] or a [str]. *)
Inductive pyval : Type :=
| PNone
| PBool (b : bool)
| PInt (z : Z)
| PFloat (f : float)
| PStr (s : string).

(** Truth value of an object, as [if x], [x or y] and [not x] test it. *)
Definition truthy_float (f : float) : bool := negb (f =? 0)%float.

Definition truthy (v : pyval) : bool :=
  match v with
  | PNone => false
  | PBool b => b
  | PInt z => negb (z =? 0)
  | PFloat f => truthy_float f
  | PStr s => negb (String.eqb s "")
  end.

(** [a or b] *)
Definition py_or (a b : pyval) : pyval := if truthy a then a else b.

(** [max(0.0, x)]: [max] keeps its first argument unless a later one
    compares strictly greater. *)
Definition max0 (x : float) : float := if (0 <? x)%float then x else 0%float.

(** [float(n)] for an int [n], rounded to the nearest binary64 number.
    Python raises [OverflowError] where this conversion reaches infinity
    (from 2^1024 on); [float_of_int] is used directly only on day counts. *)
Definition float_of_int (z : Z) : float :=
  SF2Prim (binary_normalize prec emax z 0 false).

Definition checked_float_of_int (z : Z) : result float :=
  let f := float_of_int z in
  if is_infinity f then Raise OverflowError else Ok f.

Section Float.
(** [float(s)] for a [str]: the decimal parser of the interpreter, with
    [None] standing for its [ValueError]. *)
Variable float_of_string : string -> option float.

(** The built-in [float(v)]. *)
Definition py_float (v : pyval) : result float :=
  match v with
  | PNone => Raise TypeError
  | PBool b => Ok (if b then 1%float else 0%float)
  | PInt z => checked_float_of_int z
  | PFloat f => Ok f
  | PStr s =>
      match float_of_string s with
      | Some f => Ok f
      | None => Raise ValueError
      end
  end.
End Float.

(** Characters: [str.upper], [str.isdigit], [str.strip] and the regular
    expression classes [\d] and [\s].  A string is the sequence of its
    characters, a character is a code point below 256; text with other
    characters is not covered.  [upper] maps the letters ["a"] to ["z"] only:
    the one test the program makes on an upper-cased string is whether it
    starts with ["P"], and no other character has an upper case that does. *)
Definition upper_ascii (c : ascii) : ascii :=
  let n := nat_of_ascii c in
  if ((97 <=? n) && (n <=? 122))%nat then ascii_of_nat (n - 32) else c.

Fixpoint upper (s : string) : string :=
  match s with
  | EmptyString => EmptyString
  | String c s' => String (upper_ascii c) (upper s')
  end.

(** [v.upper()]: only a [str] has the method. *)
Definition py_upper (v : pyval) : result string :=
  match v with
  | PStr s => Ok (upper s)
  | _ => Raise AttributeError
  end.

(** [s.startswith(p)] *)
Definition startswith (s p : string) : bool := String.prefix p s.

(** A decimal digit, as [\d] matches it and [int] and [strptime] read it:
    below 256 these are ["0"] to ["9"]. *)
Definition is_digit (c : ascii) : bool :=
  let n := nat_of_ascii c in ((48 <=? n) && (n <=? 57))%nat.

(** A character that [str.isdigit] accepts: a decimal digit or one of the
    superscripts two, three and one (U+00B2, U+00B3, U+00B9). *)
Definition is_digit_char (c : ascii) : bool :=
  let n := nat_of_ascii c in
  (is_digit c || (n =? 178) || (n =? 179) || (n =? 185))%nat.

(** White space, as [\s] matches it and [str.strip] removes it: the
    controls U+0009 to U+000D and U+001C to U+001F, the space, U+0085 and
    the no-break space U+00A0. *)
Definition is_space (c : ascii) : bool :=
  let n := nat_of_ascii c in
  (((9 <=? n) && (n <=? 13)) || ((28 <=? n) && (n <=? 32))
   || (n =? 133) || (n =? 160))%nat.

(** Every character is below 128. *)
Definition ascii_text (s : string) : bool :=
  forallb (fun c => (nat_of_ascii c <? 128)%nat) (list_ascii_of_string s).

Fixpoint all_chars (p : ascii -> bool) (s : string) : bool :=
  match s with
  | EmptyString => true
  | String c s' => p c && all_chars p s'
  end.

(** [s.isdigit()]: at least one character, all of them digits. *)
Definition isdigit (s : string) : bool :=
  negb (String.eqb s "") && all_chars is_digit_char s.

Fixpoint lstrip (s : string) : string :=
  match s with
  | EmptyString => EmptyString
  | String c s' => if is_space c then lstrip s' else s
  end.

Fixpoint rstrip (s : string) : string :=
  match s with
  | EmptyString => EmptyString
  | String c s' =>
      match rstrip s' with
      | EmptyString => if is_space c then EmptyString else String c EmptyString
      | r => String c r
      end
  end.

(** [s.strip()] *)
Definition strip (s : string) : string := rstrip (lstrip s).

End Py.
Import Py.

Notation "'let*' x ':=' e 'in' k" := (bind e (fun x => k))
  (at level 10, x name, e at level 100, k at level 200).

(** ** Calendar: [datetime.date], [calendar.monthrange], and the program's
    own date helpers *)

Module Datetime.

Record date : Set := mkdate { year : Z; month : Z; day : Z }.

(** [calendar.isleap] *)
Definition isleap (y : Z) : bool :=
  (y mod 4 =? 0) && (negb (y mod 100 =? 0) || (y mod 400 =? 0)).

(** [calendar.mdays] *)
Definition mdays (m : Z) : Z :=
  match m with
  | 1 => 31 | 2 => 28 | 3 => 31 | 4 => 30 | 5 => 31 | 6 => 30
  | 7 => 31 | 8 => 31 | 9 => 30 | 10 => 31 | 11 => 30 | 12 => 31
  | _ => 0
  end.

Definition days_in_month (y m : Z) : Z :=
  mdays m + (if (m =? 2) && isleap y then 1 else 0).

(** An int that fits the C type [int], to which [date] converts each of
    its arguments. *)
Definition c_int (z : Z) : bool := (- 2147483648 <=? z) && (z <=? 2147483647).

(** [date(y, m, d)] raises [OverflowError] for an argument that does not
    fit a C [int], and [ValueError] outside the calendar. *)
Definition new_date (y m d : Z) : result date :=
  if c_int y && c_int m && c_int d
  then
    if (1 <=? y) && (y <=? 9999) && (1 <=? m) && (m <=? 12)
       && (1 <=? d) && (d <=? days_in_month y m)
    then Ok (mkdate y m d)
    else Raise ValueError
  else Raise OverflowError.

Definition days_before_year (y : Z) : Z :=
  let y1 := y - 1 in y1 * 365 + y1 / 4 - y1 / 100 + y1 / 400.

Definition days_before_month (y m : Z) : Z :=
  match m with
  | 1 => 0 | 2 => 31 | 3 => 59 | 4 => 90 | 5 => 120 | 6 => 151
  | 7 => 181 | 8 => 212 | 9 => 243 | 10 => 273 | 11 => 304 | 12 => 334
  | _ => -1
  end + (if (2 <? m) && isleap y then 1 else 0).

(** [d.toordinal()]: 1 for 0001-01-01. *)
Definition toordinal (d : date) : Z :=
  days_before_year (year d) + days_before_month (year d) (month d) + day d.

(** [d.weekday()]: 0 is Monday, 6 is Sunday. *)
Definition weekday (d : date) : Z := (toordinal d + 6) mod 7.

(** [calendar.monthrange(y, m)]: weekday of the first day, number of days. *)
Definition monthrange (y m : Z) : result (Z * Z) :=
  if (1 <=? m) && (m <=? 12)
  then Ok (weekday (mkdate y m 1), days_in_month y m)
  else Raise ValueError.

(** [d + timedelta(days=n)] for [n >= 0], one day at a time. *)
Definition tomorrow (d : date) : date :=
  if day d <? days_in_month (year d) (month d)
  then mkdate (year d) (month d) (day d + 1)
  else if month d <? 12
       then mkdate (year d) (month d + 1) 1
       else mkdate (year d + 1) 1 1.

Definition add_days (d : date) (n : nat) : date := Nat.iter n tomorrow d.

(** Decimal digits of fixed width, as [%Y], [%m], [%d] and the format
    specs [04d], [02d] print a number that fits the width. *)
Definition digit (n : Z) : ascii := ascii_of_nat (48 + Z.to_nat (n mod 10)).

Definition fmt2 (n : Z) : string :=
  String (digit (n / 10)) (String (digit n) EmptyString).

Definition fmt4 (n : Z) : string :=
  String (digit (n / 1000)) (String (digit (n / 100)) (fmt2 n)).

Definition dash : ascii := "-"%char.

(** [%Y] as the C library of Linux prints the year of a date: its decimal
    digits with no zero in front.  (Other C libraries fill the year with
    zeros to four digits; from the year 1000 on the two agree.) *)
Definition fmtY (y : Z) : string :=
  if y <? 10 then String (digit y) EmptyString
  else if y <? 100 then fmt2 y
  else if y <? 1000 then String (digit (y / 100)) (fmt2 y)
  else fmt4 y.

(** [d.strftime("%Y-%m-%d")] *)
Definition strftime (d : date) : string :=
  (fmtY (year d) ++ String dash (fmt2 (month d) ++ String dash (fmt2 (day d))))%string.

Definition digit_val (c : ascii) : Z := Z.of_nat (nat_of_ascii c) - 48.

Definition num2 (a b : ascii) : Z := 10 * digit_val a + digit_val b.

Definition num4 (a b c d : ascii) : Z := 100 * num2 a b + num2 c d.

(** [DATE_RE.match(s)], for [^\d{4}-\d{2}-\d{2}$]; the [$] also matches
    before one final newline. *)
Definition DATE_RE (s : string) : bool :=
  match s with
  | String y1 (String y2 (String y3 (String y4 (String h1
      (String m1 (String m2 (String h2 (String d1 (String d2 rest))))))))) =>
      is_digit y1 && is_digit y2 && is_digit y3 && is_digit y4
      && Ascii.eqb h1 dash && is_digit m1 && is_digit m2
      && Ascii.eqb h2 dash && is_digit d1 && is_digit d2
      && (String.eqb rest "" || String.eqb rest (String "010"%char EmptyString))
  | _ => false
  end.

(** [datetime.strptime(s, "%Y-%m-%d").date()] on what [valid_date] (behind
    [DATE_RE]) and [business_days_in_month] (behind [strftime]) hand to it:
    the shape [dddd-dd-dd], alone or with a final newline, which is left
    unconverted, and the prints of the years before 1000, in which [%Y]
    does not find its four digits. *)
Definition strptime (s : string) : result date :=
  match s with
  | String y1 (String y2 (String y3 (String y4 (String h1
      (String m1 (String m2 (String h2 (String d1 (String d2 EmptyString))))))))) =>
      if is_digit y1 && is_digit y2 && is_digit y3 && is_digit y4
         && Ascii.eqb h1 dash && is_digit m1 && is_digit m2
         && Ascii.eqb h2 dash && is_digit d1 && is_digit d2
      then new_date (num4 y1 y2 y3 y4) (num2 m1 m2) (num2 d1 d2)
      else Raise ValueError
  | _ => Raise ValueError
  end.

End Datetime.
Import Datetime.

(** [valid_date(s)] *)
Definition valid_date (s : string) : bool :=
  if DATE_RE s then is_ok (strptime s) else false.

(** [month_days_iter(year, month)]: the generator, as the list it yields. *)
Definition month_days_iter (y m : Z) : result (list string) :=
  let* d1 := new_date y m 1 in
  let* wl := monthrange y m in
  Ok (map (fun i => strftime (add_days d1 i)) (seq 0 (Z.to_nat (snd wl)))).

(** The loop of [business_days_in_month] over the remaining day strings. *)
Fixpoint count_business_days (days : list string) (cnt : Z) : result Z :=
  match days with
  | [] => Ok cnt
  | d :: rest =>
      let* dt := strptime d in
      count_business_days rest (if weekday dt <? 5 then cnt + 1 else cnt)
  end.

(** [business_days_in_month(year, month)] *)
Definition business_days_in_month (y m : Z) : result Z :=
  let* days := month_days_iter y m in
  count_business_days days 0.

(** [MONTH_RE.match(s)], for [^\d{4}-\d{2}$]. *)
Definition MONTH_RE (s : string) : bool :=
  match s with
  | String y1 (String y2 (String y3 (String y4 (String h1
      (String m1 (String m2 rest)))))) =>
      is_digit y1 && is_digit y2 && is_digit y3 && is_digit y4
      && Ascii.eqb h1 dash && is_digit m1 && is_digit m2
      && (String.eqb rest "" || String.eqb rest (String "010"%char EmptyString))
  | _ => false
  end.

(** [valid_month(s)].  On a string that [MONTH_RE] accepts, [s.split("-")]
    gives the two groups of digits (the second with the final newline, if
    there is one, which [int] ignores). *)
Definition valid_month (s : string) : bool :=
  if MONTH_RE s
  then
    match s with
    | String y1 (String y2 (String y3 (String y4 (String _
        (String m1 (String m2 _)))))) =>
        let y := num4 y1 y2 y3 y4 in
        let m := num2 m1 m2 in
        (1 <=? m) && (m <=? 12) && (1900 <=? y) && (y <=? 3000)
    | _ => false
    end
  else false.

(** ** Calendar picker *)

Module CalendarPicker.

(** The month on display: [self.year] and [self.month]. *)
Record picker : Set := mk_picker { year : Z; month : Z }.

(** [format(n, "0<width>d")]: the decimal digits, filled with zeros after
    the sign up to the width. *)
Definition format_0d (width : nat) (n : Z) : string :=
  let digits := NilZero.string_of_uint (N.to_uint (Z.abs_N n)) in
  let sign := if n <? 0 then "-"%string else ""%string in
  let fill := (width - String.length sign - String.length digits)%nat in
  (sign ++ string_of_list_ascii (repeat "0"%char fill) ++ digits)%string.

(** [_prev_month()], [_next_month()], [_prev_year()], [_next_year()]: the
    new month on display (the redraw of the grid is left out). *)
Definition _prev_month (p : picker) : picker :=
  let m := month p - 1 in
  if m <? 1 then mk_picker (year p - 1) 12 else mk_picker (year p) m.

Definition _next_month (p : picker) : picker :=
  let m := month p + 1 in
  if 12 <? m then mk_picker (year p + 1) 1 else mk_picker (year p) m.

Definition _prev_year (p : picker) : picker := mk_picker (year p - 1) (month p).

Definition _next_year (p : picker) : picker := mk_picker (year p + 1) (month p).

(** [_select(day)]: the string handed to the variable of the entry. *)
Definition _select (p : picker) (day : Z) : string :=
  (format_0d 4 (year p) ++ String dash (format_0d 2 (month p)
     ++ String dash (format_0d 2 day)))%string.

(** The four arrow buttons. *)
Inductive button : Set := PrevYear | PrevMonth | NextMonth | NextYear.

Definition press (p : picker) (b : button) : picker :=
  match b with
  | PrevYear => _prev_year p
  | PrevMonth => _prev_month p
  | NextMonth => _next_month p
  | NextYear => _next_year p
  end.

End CalendarPicker.

(** ** Records of the two JSON files *)

(** One entry of [employees.json], as [on_save_new] and [on_update] write it:
    seven strings and [base_salary] normalised to a float. *)
Module Employee.
Record t : Set := mk {
  emp_id : string;
  name : string;
  department : string;
  role : string;
  base_salary : float;
  join_date : string;
  phone : string;
  email : string
}.
End Employee.

(** One entry of a day's attendance file.  [emp_id] and [name] are strings;
    the three fields the program reads through [.get(key, default)] hold any
    scalar, or are missing ([None] of the option). *)
Module Attendance.
Record row : Type := mk {
  emp_id : string;
  name : string;
  status : option pyval;
  ip : option pyval;
  overtime : option pyval
}.
End Attendance.

(** ** Storage helpers *)

(** What [json.load] makes of a file: it raises on [Malformed] text and
    returns the list of records otherwise.  A file written by [json.dump]
    holds the records that were dumped ([Records.file_of_text] gives the
    file that a text stands for). *)
Inductive file (A : Type) : Type :=
| Malformed
| Content (records : list A).
Arguments Malformed {A}.
Arguments Content {A} records.

(** The [data] directory: [employees.json], if it exists, and the files of
    [data/attendance], by day string. *)
Record storage : Type := mk_storage {
  emp_file : option (file Employee.t);
  att_files : gmap string (file Attendance.row)
}.

(** [ensure_dirs()]: an absent [employees.json] is created holding []. *)
Definition ensure_dirs (s : storage) : storage :=
  match emp_file s with
  | Some _ => s
  | None => mk_storage (Some (Content [])) (att_files s)
  end.

(** [load_employees()]: every exception of [json.load] is caught. *)
Definition load_employees (s : storage) : list Employee.t * storage :=
  let s1 := ensure_dirs s in
  match emp_file s1 with
  | Some (Content l) => (l, s1)
  | Some Malformed => ([], s1)
  | None => ([], s1)
  end.

(** [save_employees(records)] *)
Definition save_employees (records : list Employee.t) (s : storage) : storage :=
  let s1 := ensure_dirs s in
  mk_storage (Some (Content records)) (att_files s1).

(** [load_attendance(day_str)]: [json.load] runs outside any [try]. *)
Definition load_attendance (day_str : string) (s : storage)
  : result (list Attendance.row) * storage :=
  let s1 := ensure_dirs s in
  match att_files s1 !! day_str with
  | Some (Content l) => (Ok l, s1)
  | Some Malformed => (Raise JSONDecodeError, s1)
  | None => (Ok [], s1)
  end.

(** [save_attendance(day_str, rows)].  The day string names the file
    [data/attendance/<day_str>.json]: it is a string without a path
    separator, as [valid_date] accepts and [month_days_iter] prints them,
    which are all the program passes here and to [load_attendance]; two
    such strings name two files, neither of them the roster. *)
Definition save_attendance (day_str : string) (rows : list Attendance.row)
  (s : storage) : storage :=
  let s1 := ensure_dirs s in
  mk_storage (emp_file s1) (<[day_str := Content rows]> (att_files s1)).

(** ** Salary tab: month aggregation and salary computation *)

Module SalaryTab.

(** A value of the dict built by [_gather_month_attendance]:
    [{"present": _, "absent": _, "ot": _}]. *)
Record stats : Set := mk_stats { present : Z; absent : Z; ot : float }.

(** [{"present":0, "absent":0, "ot":0.0}] *)
Definition no_stats : stats := mk_stats 0 0 0%float.

(** A row of the result table. *)
Record salary_row : Set := mk_row {
  Emp_Id : string;
  Name : string;
  Month : string;
  Base_Salary : float;
  Working_Days : Z;
  Present : Z;
  Absent : Z;
  Overtime_Hours : float;
  Net_Pay : float
}.

(** The four local variables of the salary model in [on_calculate]. *)
Record pay : Set := mk_pay {
  per_hour : float;
  prorated : float;
  ot_pay : float;
  net : float
}.

(** The salary model: [per_hour = base / 176.0 if base else 0.0],
    [prorated = base * (present / float(working_days) if working_days > 0
    else 0.0)], [ot_pay = per_hour * ot_hours],
    [net = max(0.0, prorated + ot_pay)]. *)
Definition salary_model (base : float) (working_days present : Z)
  (ot_hours : float) : pay :=
  let per_hour := if truthy_float base then (base / 176)%float else 0%float in
  let prorated :=
    (base * (if (0 <? working_days)%Z
             then float_of_int present / float_of_int working_days
             else 0))%float in
  let ot_pay := (per_hour * ot_hours)%float in
  let net := max0 (prorated + ot_pay)%float in
  mk_pay per_hour prorated ot_pay net.

(** [att.get(emp_id, {"present":0,"absent":0,"ot":0.0})] *)
Definition stats_of (att : gmap string stats) (emp_id : string) : stats :=
  default no_stats (att !! emp_id).

(** The body of the loop over the roster in [on_calculate]. *)
Definition salary_row_of (month_str : string) (working_days : Z)
  (att : gmap string stats) (e : Employee.t) : salary_row :=
  let emp_id := Employee.emp_id e in
  let base := Employee.base_salary e in
  let st := stats_of att emp_id in
  mk_row emp_id (Employee.name e) month_str base working_days
    (present st) (absent st) (ot st)
    (net (salary_model base working_days (present st) (ot st))).

(** [emp_filter and emp_id != emp_filter] sends the loop to [continue]. *)
Definition selected (emp_filter : string) (e : Employee.t) : bool :=
  negb (negb (String.eqb emp_filter "")
        && negb (String.eqb (Employee.emp_id e) emp_filter)).

Section Aggregation.
Variable float_of_string : string -> option float.

(** The body of the loop over the records of one day. *)
Definition count_row (d : gmap string stats) (r : Attendance.row)
  : result (gmap string stats) :=
  let emp := Attendance.emp_id r in
  let st := default no_stats (d !! emp) in
  let* status :=
    py_upper (py_or (default (PStr "A") (Attendance.status r)) (PStr "A")) in
  let st1 :=
    if startswith status "P"
    then mk_stats (present st + 1) (absent st) (ot st)
    else mk_stats (present st) (absent st + 1) (ot st) in
  let st2 :=
    match py_float float_of_string
            (default (PFloat 0) (Attendance.overtime r)) with
    | Ok x => mk_stats (present st1) (absent st1) (ot st1 + x)
    | Raise _ => st1
    end in
  Ok (<[emp := st2]> d).

Fixpoint count_rows (rows : list Attendance.row) (d : gmap string stats)
  : result (gmap string stats) :=
  match rows with
  | [] => Ok d
  | r :: rest => let* d1 := count_row d r in count_rows rest d1
  end.

(** The loop over the days of the month. *)
Fixpoint gather_days (days : list string) (d : gmap string stats)
  (s : storage) : result (gmap string stats) * storage :=
  match days with
  | [] => (Ok d, s)
  | day :: rest =>
      match load_attendance day s with
      | (Raise e, s1) => (Raise e, s1)
      | (Ok [], s1) => gather_days rest d s1
      | (Ok rows, s1) =>
          match count_rows rows d with
          | Ok d1 => gather_days rest d1 s1
          | Raise e => (Raise e, s1)
          end
      end
  end.

(** [_gather_month_attendance(year, month)] *)
Definition _gather_month_attendance (y m : Z) (s : storage)
  : result (gmap string stats) * storage :=
  match month_days_iter y m with
  | Ok days => gather_days days ∅ s
  | Raise e => (Raise e, s)
  end.

(** [on_calculate], from the year and the month index read off the
    widgets and the text of the employee filter. *)
Definition on_calculate (y m : Z) (emp_var : string) (s : storage)
  : result (list salary_row) * storage :=
  let month_str := (fmt4 y ++ String dash (fmt2 m))%string in
  match business_days_in_month y m with
  | Raise e => (Raise e, s)
  | Ok working_days =>
      match _gather_month_attendance y m s with
      | (Raise e, s1) => (Raise e, s1)
      | (Ok att, s1) =>
          let (emps, s2) := load_employees s1 in
          let emp_filter := strip emp_var in
          (Ok (map (salary_row_of month_str working_days att)
                 (List.filter (selected emp_filter) emps)), s2)
      end
  end.
End Aggregation.

End SalaryTab.

(** ** Dialogs and the host address *)

(** What a button callback shows: [messagebox.showerror(title, text)] or
    [messagebox.showinfo(title, text)].  A callback that lets an exception
    escape yields [Raise] instead. *)
Inductive message : Set :=
| showerror (title text : string)
| showinfo (title text : string).

Definition is_error (m : result message) : bool :=
  match m with
  | Ok (showerror _ _) => true
  | _ => false
  end.

(** [get_host_ip()], from the outcome of the resolver call
    [socket.gethostbyname(socket.gethostname())], [None] when it raises. *)
Definition get_host_ip (gethostbyname : option string) : string :=
  default "127.0.0.1"%string gethostbyname.

(** ** Employees tab *)

Module EmployeesTab.

(** The text of the eight entry widgets; after [_read_form] the same
    shape holds the stripped strings of the dict [rec]. *)
Record form : Set := mk_form {
  emp_id : string;
  name : string;
  dept : string;
  role : string;
  base : string;
  join_date : string;
  phone : string;
  email : string
}.

(** The class [[^@\s]] of [EMAIL_RE]. *)
Definition email_char (c : ascii) : bool :=
  negb (Ascii.eqb c "@"%char) && negb (is_space c).

(** The longest prefix of [s] in the class [p], and what follows it. *)
Fixpoint span (p : ascii -> bool) (s : string) : string * string :=
  match s with
  | EmptyString => (EmptyString, EmptyString)
  | String c tl =>
      if p c
      then let (a, b) := span p tl in (String c a, b)
      else (EmptyString, s)
  end.

(** Some ["."] of [s] has a character after it. *)
Fixpoint dot_before_end (s : string) : bool :=
  match s with
  | String c ((String _ _) as tl) => Ascii.eqb c "."%char || dot_before_end tl
  | _ => false
  end.

Definition newline : string := String "010"%char EmptyString.

(** [EMAIL_RE.match(s)], for [^[^@\s]+@[^@\s]+\.[^@\s]+$]: a non-empty run
    of the class, an ["@"], then a run of the class that reaches the end
    (or one final newline) and has a ["."] strictly inside it. *)
Definition EMAIL_RE (s : string) : bool :=
  let (loc, r) := span email_char s in
  negb (String.eqb loc "") &&
  match r with
  | String c d =>
      Ascii.eqb c "@"%char &&
      let (dom, tail) := span email_char d in
      (String.eqb tail "" || String.eqb tail newline) &&
      match dom with
      | String _ tl => dot_before_end tl
      | EmptyString => false
      end
  | EmptyString => false
  end.

Section Form.
Variable float_of_string : string -> option float.

(** [_read_form()]: the stripped fields, or the text of the
    [ValueError] it raises. *)
Definition _read_form (f : form) : string + form :=
  let rec := mk_form (strip (emp_id f)) (strip (name f)) (strip (dept f))
               (strip (role f)) (strip (base f)) (strip (join_date f))
               (strip (phone f)) (strip (email f)) in
  if String.eqb (emp_id rec) "" then inl "Employee ID is required."%string
  else if negb (isdigit (emp_id rec)) then inl "Employee ID must be numeric."%string
  else if String.eqb (name rec) "" then inl "Name is required."%string
  else if match float_of_string (base rec) with
          | Some bs => (bs <? 0)%float
          | None => true
          end
       then inl "Base Salary must be a positive number."%string
  else if negb (String.eqb (join_date rec) "") && negb (valid_date (join_date rec))
       then inl "Join Date must be YYYY-MM-DD."%string
  else if negb (String.eqb (email rec) "") && negb (EMAIL_RE (email rec))
       then inl "Email format is invalid."%string
  else if negb (String.eqb (phone rec) "") && negb (isdigit (phone rec))
       then inl "Phone must contain digits only."%string
  else inr rec.

(** [any(r["emp_id"] == rec["emp_id"] for r in self.records)] *)
Definition id_taken (records : list Employee.t) (rec : form) : bool :=
  existsb (fun r => String.eqb (Employee.emp_id r) (emp_id rec)) records.

(** [on_save_new()], on the form, the in-memory roster [self.records]
    and the files. *)
Definition on_save_new (f : form) (records : list Employee.t) (s : storage)
  : result message * list Employee.t * storage :=
  match _read_form f with
  | inl e => (Ok (showerror "Validation" e), records, s)
  | inr rec =>
      if id_taken records rec
      then (Ok (showerror "Duplicate" "Employee ID already exists."), records, s)
      else
        match float_of_string (base rec) with
        | None => (Raise ValueError, records, s)
        | Some b =>
            let records1 :=
              records ++ [Employee.mk (emp_id rec) (name rec) (dept rec)
                            (role rec) b (join_date rec) (phone rec)
                            (email rec)] in
            (Ok (showinfo "Saved" "Employee saved."), records1,
             save_employees records1 s)
        end
  end.

(** The index at which the loop of [on_update] breaks: the first record
    with the id. *)
Fixpoint first_index (records : list Employee.t) (id : string) : option nat :=
  match records with
  | [] => None
  | r :: rest =>
      if String.eqb (Employee.emp_id r) id then Some 0%nat
      else option_map S (first_index rest id)
  end.

(** [on_update()] *)
Definition on_update (f : form) (records : list Employee.t) (s : storage)
  : result message * list Employee.t * storage :=
  match _read_form f with
  | inl e => (Ok (showerror "Validation" e), records, s)
  | inr rec =>
      match first_index records (emp_id rec) with
      | None =>
          (Ok (showerror "Not Found"
                 "Employee ID not found. Use Save New to add."), records, s)
      | Some idx =>
          match float_of_string (base rec) with
          | None => (Raise ValueError, records, s)
          | Some b =>
              let records1 :=
                <[idx := Employee.mk (emp_id rec) (name rec) (dept rec)
                           (role rec) b (join_date rec) (phone rec)
                           (email rec)]> records in
              (Ok (showinfo "Updated" "Employee updated."), records1,
               save_employees records1 s)
          end
      end
  end.
End Form.

(** [_vc_digits(P)]: the text the id entry may hold after a key stroke. *)
Definition _vc_digits (P : string) : bool := isdigit P || String.eqb P "".

(** [_vc_phone(P)], the key validator of the phone entry. *)
Definition _vc_phone (P : string) : bool := isdigit P || String.eqb P "".

(** The first cell of every selected table row that has cells. *)
Definition selected_ids (sel : list (list string)) : list string :=
  flat_map (fun vals => match vals with [] => [] | v :: _ => [v] end) sel.

(** [r.get("emp_id") not in ids] *)
Definition kept (ids : list string) (r : Employee.t) : bool :=
  negb (existsb (String.eqb (Employee.emp_id r)) ids).

(** [on_delete_selected()], on the cells of the selected table rows and the
    answer to the confirmation dialog; it shows a dialog of its own only
    for an empty selection. *)
Definition on_delete_selected (sel : list (list string)) (confirmed : bool)
  (records : list Employee.t) (s : storage)
  : option message * list Employee.t * storage :=
  match sel with
  | [] =>
      (Some (showinfo "Delete" "Select at least one row in the table."),
       records, s)
  | _ =>
      let ids := selected_ids sel in
      match ids with
      | [] => (None, records, s)
      | _ =>
          if confirmed
          then let records1 := List.filter (kept ids) records in
               (None, records1, save_employees records1 s)
          else (None, records, s)
      end
  end.

End EmployeesTab.

(** ** Attendance tab *)

Module AttendanceTab.

(** A row of the table: [Emp_Id], [Name], [Status (P/A)], [IP],
    [Overtime Hours]. *)
Record view_row : Type := mk_row {
  Emp_Id : string;
  Name : string;
  Status : pyval;
  IP : pyval;
  Overtime_Hours : pyval
}.

(** [{r["emp_id"]: r for r in saved}]: a later record replaces an earlier
    one of the same id. *)
Definition existing_of (saved : list Attendance.row)
  : gmap string Attendance.row :=
  fold_left (fun m r => <[Attendance.emp_id r := r]> m) saved ∅.

(** [existing.get(emp_id, {}).get(key, dflt)] *)
Definition carried (existing : gmap string Attendance.row) (emp_id : string)
  (field : Attendance.row -> option pyval) (dflt : pyval) : pyval :=
  match existing !! emp_id with
  | Some r => default dflt (field r)
  | None => dflt
  end.

Section Load.
Variable gethostbyname : option string.

(** The body of the loop over the roster in [on_load]. *)
Definition merged_row (existing : gmap string Attendance.row)
  (e : Employee.t) : view_row :=
  let emp_id := Employee.emp_id e in
  mk_row emp_id (Employee.name e)
    (carried existing emp_id Attendance.status (PStr "A"))
    (carried existing emp_id Attendance.ip (PStr (get_host_ip gethostbyname)))
    (carried existing emp_id Attendance.overtime (PInt 0)).

(** [on_load()], on the text of the date entry, the rows in memory
    [self.rows] and the files. *)
Definition on_load (date_str : string) (rows : list view_row) (s : storage)
  : result message * list view_row * storage :=
  let day := strip date_str in
  if negb (valid_date day)
  then (Ok (showerror "Date" "Please enter a valid date in YYYY-MM-DD."), rows, s)
  else
    match load_attendance day s with
    | (Raise e, s1) => (Raise e, rows, s1)
    | (Ok saved, s1) =>
        let existing := existing_of saved in
        let (emps, s2) := load_employees s1 in
        (Ok (showinfo "Loaded" ("Attendance loaded for " ++ day ++ ".")),
         map (merged_row existing) emps, s2)
    end.
End Load.

(** [mark_all(status)] *)
Definition mark_all (status : string) (rows : list view_row) : list view_row :=
  map (fun r => mk_row (Emp_Id r) (Name r) (PStr status) (IP r)
                  (Overtime_Hours r)) rows.

(** [str(v).strip() != ""] fails only for a string of white space. *)
Definition blank (v : pyval) : bool :=
  match v with
  | PStr t => String.eqb (strip t) ""
  | _ => false
  end.

Section Save.
Variable float_of_string : string -> option float.

(** [float(r["Overtime Hours"]) if str(r["Overtime Hours"]).strip() != ""
    else 0.0] *)
Definition overtime_to_save (r : view_row) : result float :=
  if blank (Overtime_Hours r) then Ok 0%float
  else py_float float_of_string (Overtime_Hours r).

(** The dict appended to [persist] for one row. *)
Definition persisted_row (r : view_row) : result Attendance.row :=
  let* h := overtime_to_save r in
  Ok (Attendance.mk (Emp_Id r) (Name r) (Some (Status r)) (Some (IP r))
        (Some (PFloat h))).

Fixpoint persist (rows : list view_row) : result (list Attendance.row) :=
  match rows with
  | [] => Ok []
  | r :: rest =>
      let* a := persisted_row r in
      let* l := persist rest in
      Ok (a :: l)
  end.

(** [on_save_all()], on the text of the date entry, the rows in memory and
    the files. *)
Definition on_save_all (date_str : string) (rows : list view_row) (s : storage)
  : result message * storage :=
  let day := strip date_str in
  if negb (valid_date day)
  then (Ok (showerror "Date" "Please enter a valid date in YYYY-MM-DD."), s)
  else
    match persist rows with
    | Raise e => (Raise e, s)
    | Ok p =>
        (Ok (showinfo "Saved" ("Attendance saved for " ++ day ++ ".")),
         save_attendance day p s)
    end.
End Save.

End AttendanceTab.

(** ** The JSON files: [json.dump] and [json.load] *)

Module Json.

#[local] Unset Elimination Schemes.

(** A value as [json.load] returns it and [json.dump] prints it: a scalar,
    a [list] or a [dict] with strings as keys, in the order of insertion. *)
Inductive value : Type :=
| Scalar (v : pyval)
| Arr (items : list value)
| Obj (members : list (string * value)).
#[local] Set Elimination Schemes.

Definition quote : ascii := "034"%char.
Definition backslash : ascii := "092"%char.

(** *** [json.dump(obj, f, indent=2)] *)

(** A hexadecimal digit, in lower case. *)
Definition hex_digit (n : nat) : ascii :=
  if (n <? 10)%nat then ascii_of_nat (48 + n) else ascii_of_nat (87 + n).

(** What [ensure_ascii] makes of a character of a string: the seven short
    escapes, the printable ASCII characters as they are, [\u00XX] for the
    rest. *)
Definition escape (c : ascii) : string :=
  let n := nat_of_ascii c in
  let short e := String backslash (String e EmptyString) in
  if Ascii.eqb c quote then short quote
  else if Ascii.eqb c backslash then short backslash
  else if (n =? 10)%nat then short "n"%char
  else if (n =? 13)%nat then short "r"%char
  else if (n =? 9)%nat then short "t"%char
  else if (n =? 8)%nat then short "b"%char
  else if (n =? 12)%nat then short "f"%char
  else if ((32 <=? n) && (n <=? 126))%nat then String c EmptyString
  else String backslash (String "u" (String "0" (String "0"
         (String (hex_digit (n / 16)) (String (hex_digit (n mod 16))
            EmptyString))))).

Fixpoint escape_all (s : string) : string :=
  match s with
  | EmptyString => EmptyString
  | String c t => (escape c ++ escape_all t)%string
  end.

Definition encode_str (s : string) : string :=
  String quote (escape_all s ++ String quote EmptyString).

(** [int.__repr__]: the decimal digits, after a minus sign for a negative
    number. *)
Definition int_repr (z : Z) : string := NilZero.string_of_int (Z.to_int z).

(** The most digits that the interpreter converts between [int] and
    [str]; beyond, both directions raise [ValueError]. *)
Definition max_str_digits : nat := 4300.

Definition int_fits (z : Z) : bool :=
  (String.length (int_repr (Z.abs z)) <=? max_str_digits)%nat.

Section Encode.
(** [float.__repr__] of a finite float. *)
Variable float_repr : float -> string.

Definition encode_float (f : float) : string :=
  if negb (f =? f)%float then "NaN"
  else if (f =? infinity)%float then "Infinity"
  else if (f =? neg_infinity)%float then "-Infinity"
  else float_repr f.

Definition encode_scalar (v : pyval) : string :=
  match v with
  | PNone => "null"
  | PBool true => "true"
  | PBool false => "false"
  | PInt z => int_repr z
  | PFloat f => encode_float f
  | PStr s => encode_str s
  end.

(** A new line and the indentation of a nesting level, two spaces each. *)
Fixpoint spaces (n : nat) : string :=
  match n with
  | O => EmptyString
  | S k => String " " (String " " (spaces k))
  end.

Definition newline_indent (level : nat) : string :=
  String "010"%char (spaces level).

(** [sep.join(items)] *)
Fixpoint join (sep : string) (items : list string) : string :=
  match items with
  | [] => EmptyString
  | [x] => x
  | x :: rest => (x ++ sep ++ join sep rest)%string
  end.

(** A list or a dict at a nesting level, from the texts of its items:
    the brackets alone when it is empty, one item a line otherwise. *)
Definition block (opening closing : ascii) (level : nat) (items : list string)
  : string :=
  match items with
  | [] => String opening (String closing EmptyString)
  | _ =>
      String opening
        (newline_indent (S level)
         ++ join (String "," (newline_indent (S level))) items
         ++ newline_indent level ++ String closing EmptyString)
  end.

Fixpoint encode (level : nat) (v : value) : string :=
  match v with
  | Scalar x => encode_scalar x
  | Arr items => block "[" "]" level (map (encode (S level)) items)
  | Obj members =>
      block "{" "}" level
        (map (fun kv => (encode_str (fst kv) ++ ": " ++ encode (S level) (snd kv))%string)
           members)
  end.

(** Every int of the value is short enough to be printed. *)
Fixpoint ints_fit (v : value) : bool :=
  match v with
  | Scalar (PInt z) => int_fits z
  | Scalar _ => true
  | Arr items => forallb ints_fit items
  | Obj members => forallb (fun kv => ints_fit (snd kv)) members
  end.

(** The text that [json.dump(v, f, indent=2)] writes; [ValueError] is what
    the conversion of an int that is too long raises. *)
Definition dump (v : value) : result string :=
  if ints_fit v then Ok (encode 0 v) else Raise ValueError.

End Encode.

(** *** [json.load(f)] *)

(** The outcome of a scanner: a value and the text after it, an exception,
    or [Beyond] for text that this model does not cover. *)
Inductive parsed (A : Type) : Type :=
| Got (a : A) (rest : string)
| Bad (e : exn)
| Beyond.
Arguments Got {A} a rest.
Arguments Bad {A} e.
Arguments Beyond {A}.

Definition and_then {A B} (p : parsed A) (k : A -> string -> parsed B)
  : parsed B :=
  match p with
  | Got a rest => k a rest
  | Bad e => Bad e
  | Beyond => Beyond
  end.

Definition is_ws (c : ascii) : bool :=
  let n := nat_of_ascii c in
  ((n =? 32) || (n =? 9) || (n =? 10) || (n =? 13))%nat.

Fixpoint skip_ws (s : string) : string :=
  match s with
  | String c t => if is_ws c then skip_ws t else s
  | EmptyString => EmptyString
  end.

Definition hex_val (c : ascii) : option nat :=
  let n := nat_of_ascii c in
  if ((48 <=? n) && (n <=? 57))%nat then Some (n - 48)%nat
  else if ((97 <=? n) && (n <=? 102))%nat then Some (n - 87)%nat
  else if ((65 <=? n) && (n <=? 70))%nat then Some (n - 55)%nat
  else None.

Definition hex4 (a b c d : ascii) : option nat :=
  match hex_val a, hex_val b, hex_val c, hex_val d with
  | Some x, Some y, Some z, Some w => Some (((x * 16 + y) * 16 + z) * 16 + w)%nat
  | _, _, _, _ => None
  end.

(** The character of a short escape. *)
Definition unescape (e : ascii) : option ascii :=
  if Ascii.eqb e quote then Some quote
  else if Ascii.eqb e backslash then Some backslash
  else if Ascii.eqb e "/" then Some "/"%char
  else if Ascii.eqb e "b" then Some "008"%char
  else if Ascii.eqb e "f" then Some "012"%char
  else if Ascii.eqb e "n" then Some "010"%char
  else if Ascii.eqb e "r" then Some "013"%char
  else if Ascii.eqb e "t" then Some "009"%char
  else None.

Definition push (c : ascii) (p : parsed string) : parsed string :=
  and_then p (fun s rest => Got (String c s) rest).

(** [scanstring], strict, from the character after the opening quote.
    An escape [\uXXXX] of a character from U+0100 on is beyond the model. *)
Fixpoint scanstring (s : string) : parsed string :=
  match s with
  | EmptyString => Bad JSONDecodeError
  | String c t =>
      if Ascii.eqb c quote then Got EmptyString t
      else if Ascii.eqb c backslash then
        match t with
        | EmptyString => Bad JSONDecodeError
        | String e t1 =>
            match unescape e with
            | Some c' => push c' (scanstring t1)
            | None =>
                if Ascii.eqb e "u" then
                  match t1 with
                  | String h1 (String h2 (String h3 (String h4 t2))) =>
                      match hex4 h1 h2 h3 h4 with
                      | Some n =>
                          if (n <? 256)%nat
                          then push (ascii_of_nat n) (scanstring t2)
                          else Beyond
                      | None => Bad JSONDecodeError
                      end
                  | _ => Bad JSONDecodeError
                  end
                else Bad JSONDecodeError
            end
        end
      else if (nat_of_ascii c <? 32)%nat then Bad JSONDecodeError
      else push c (scanstring t)
  end.

Definition digits (s : string) : string * string := EmployeesTab.span is_digit s.

(** The integer part of a number after its sign: a zero alone, or a digit
    from 1 to 9 and the digits that follow it. *)
Definition unsigned_part (sign : string) (c : ascii) (t : string)
  : option (string * string) :=
  if Ascii.eqb c "0" then Some ((sign ++ "0")%string, t)
  else if is_digit c
       then let (ds, rest) := digits t in
            Some ((sign ++ String c ds)%string, rest)
       else None.

(** The integer part of a number, with its minus sign if it has one, and
    the text after it. *)
Definition match_integer (s : string) : option (string * string) :=
  match s with
  | EmptyString => None
  | String x s' =>
      if Ascii.eqb x "-"
      then match s' with
           | EmptyString => None
           | String c t => unsigned_part "-" c t
           end
      else unsigned_part EmptyString x s'
  end.

(** The fraction [(\.\d+)?]. *)
Definition match_frac (s : string) : string * string :=
  match s with
  | String c (String d t) =>
      if Ascii.eqb c "." && is_digit d
      then let (ds, rest) := digits t in (String c (String d ds), rest)
      else (EmptyString, s)
  | _ => (EmptyString, s)
  end.

(** The exponent [([eE][-+]?\d+)?]. *)
Definition match_exp (s : string) : string * string :=
  match s with
  | String e t =>
      if Ascii.eqb e "e" || Ascii.eqb e "E" then
        let (sign, t1) :=
          match t with
          | String c t' =>
              if Ascii.eqb c "+" || Ascii.eqb c "-"
              then (String c EmptyString, t') else (EmptyString, t)
          | EmptyString => (EmptyString, t)
          end in
        match t1 with
        | String d t2 =>
            if is_digit d
            then let (ds, rest) := digits t2 in
                 (String e (sign ++ String d ds), rest)
            else (EmptyString, s)
        | EmptyString => (EmptyString, s)
        end
      else (EmptyString, s)
  | EmptyString => (EmptyString, s)
  end.

(** [NUMBER_RE.match]: the integer part, the fraction with the exponent,
    and the text after the number. *)
Definition match_number (s : string) : option (string * string * string) :=
  match match_integer s with
  | None => None
  | Some (integer, s1) =>
      let (frac, s2) := match_frac s1 in
      let (exp, s3) := match_exp s2 in
      Some (integer, (frac ++ exp)%string, s3)
  end.

(** [int(text)] on an integer part. *)
Definition parse_int (text : string) : result Z :=
  let ds := match text with
            | String c t => if Ascii.eqb c "-" then t else text
            | EmptyString => text
            end in
  if (max_str_digits <? String.length ds)%nat then Raise ValueError
  else match NilZero.int_of_string text with
       | Some d => Ok (Z.of_int d)
       | None => Raise ValueError
       end.

(** [s[n:]] *)
Fixpoint drop (n : nat) (s : string) : string :=
  match n, s with
  | S k, String _ t => drop k t
  | _, _ => s
  end.

Section Decode.
(** [float(text)] *)
Variable float_of_string : string -> option float.

Definition constant {A} (name : string) (v : A) (s : string) (otherwise : parsed A)
  : parsed A :=
  if String.prefix name s then Got v (drop (String.length name) s) else otherwise.

(** The number or the constant at the head of [s]. *)
Definition scan_number (s : string) : parsed pyval :=
  match match_number s with
  | Some (integer, frac_exp, rest) =>
      if String.eqb frac_exp ""
      then match parse_int integer with
           | Ok z => Got (PInt z) rest
           | Raise e => Bad e
           end
      else match float_of_string (integer ++ frac_exp) with
           | Some f => Got (PFloat f) rest
           | None => Bad ValueError
           end
  | None =>
      constant "NaN" (PFloat nan) s
        (constant "Infinity" (PFloat infinity) s
           (constant "-Infinity" (PFloat neg_infinity) s
              (Bad JSONDecodeError)))
  end.

(** The loop of [parse_array] from the first item on.  The fuel is the
    length of the text, which the loop cannot use up: every round reads
    at least one character. *)
Fixpoint items (item : string -> parsed value) (fuel : nat) (s : string)
  : parsed (list value) :=
  match fuel with
  | O => Beyond
  | S f =>
      and_then (item s) (fun v r =>
        match skip_ws r with
        | String c r1 =>
            if Ascii.eqb c "]" then Got [v] r1
            else if Ascii.eqb c ","
                 then and_then (items item f (skip_ws r1))
                        (fun vs r2 => Got (v :: vs) r2)
                 else Bad JSONDecodeError
        | EmptyString => Bad JSONDecodeError
        end)
  end.

(** The loop of [parse_object] from the first key on. *)
Fixpoint members (item : string -> parsed value) (fuel : nat) (s : string)
  : parsed (list (string * value)) :=
  match fuel with
  | O => Beyond
  | S f =>
      match s with
      | String q t =>
          if Ascii.eqb q quote then
            and_then (scanstring t) (fun k r =>
              match skip_ws r with
              | String c r1 =>
                  if Ascii.eqb c ":" then
                    and_then (item (skip_ws r1)) (fun v r2 =>
                      match skip_ws r2 with
                      | String c' r3 =>
                          if Ascii.eqb c' "}" then Got [(k, v)] r3
                          else if Ascii.eqb c' ","
                               then and_then (members item f (skip_ws r3))
                                      (fun kvs r4 => Got ((k, v) :: kvs) r4)
                               else Bad JSONDecodeError
                      | EmptyString => Bad JSONDecodeError
                      end)
                  else Bad JSONDecodeError
              | EmptyString => Bad JSONDecodeError
              end)
          else Bad JSONDecodeError
      | EmptyString => Bad JSONDecodeError
      end
  end.

(** [d[k] = v] on the pairs of a dict: the value of a key that is there is
    replaced in place, a new key goes to the end. *)
Fixpoint set_item (k : string) (v : value) (d : list (string * value))
  : list (string * value) :=
  match d with
  | [] => [(k, v)]
  | (k', v') :: rest =>
      if String.eqb k' k then (k, v) :: rest else (k', v') :: set_item k v rest
  end.

(** [dict(pairs)] *)
Definition dict_of (pairs : list (string * value)) : list (string * value) :=
  fold_left (fun d kv => set_item (fst kv) (snd kv) d) pairs [].

(** [scan_once] at the head of [s]; [depth] bounds the nesting. *)
Fixpoint scan_once (depth : nat) (s : string) : parsed value :=
  match depth with
  | O => Beyond
  | S d =>
      match s with
      | EmptyString => Bad JSONDecodeError
      | String c t =>
          if Ascii.eqb c quote
          then and_then (scanstring t) (fun k r => Got (Scalar (PStr k)) r)
          else if Ascii.eqb c "{" then
            match skip_ws t with
            | String c1 r =>
                if Ascii.eqb c1 "}" then Got (Obj []) r
                else and_then
                       (members (scan_once d) (String.length t) (skip_ws t))
                       (fun kvs r1 => Got (Obj (dict_of kvs)) r1)
            | EmptyString => Bad JSONDecodeError
            end
          else if Ascii.eqb c "[" then
            match skip_ws t with
            | String c1 r =>
                if Ascii.eqb c1 "]" then Got (Arr []) r
                else and_then
                       (items (scan_once d) (String.length t) (skip_ws t))
                       (fun vs r1 => Got (Arr vs) r1)
            | EmptyString => Bad JSONDecodeError
            end
          else
            constant "null" (Scalar PNone) s
              (constant "true" (Scalar (PBool true)) s
                 (constant "false" (Scalar (PBool false)) s
                    (and_then (scan_number s) (fun v r => Got (Scalar v) r))))
      end
  end.

(** The nesting that the model covers.  (The interpreter ends with
    [RecursionError] at a depth that depends on its stack.) *)
Definition depth_limit : nat := 64.

(** [json.load(f)] on the text of the file: [Got v ""] for the value it
    returns. *)
Definition load (text : string) : parsed value :=
  and_then (scan_once depth_limit (skip_ws text)) (fun v r =>
    match skip_ws r with
    | EmptyString => Got v EmptyString
    | _ => Bad JSONDecodeError
    end).

End Decode.

End Json.

(** ** The records of the two files as JSON values *)

Module Records.
Import Json.

Definition field (k : string) (v : option pyval) : list (string * value) :=
  match v with
  | Some x => [(k, Scalar x)]
  | None => []
  end.

(** A record of a day's file: the keys in the order in which [on_save_all]
    writes them; a field that is missing has no key. *)
Definition of_row (r : Attendance.row) : value :=
  Obj ([("emp_id"%string, Scalar (PStr (Attendance.emp_id r)));
        ("name"%string, Scalar (PStr (Attendance.name r)))]
       ++ field "status" (Attendance.status r)
       ++ field "ip" (Attendance.ip r)
       ++ field "overtime" (Attendance.overtime r)).

Definition of_rows (rows : list Attendance.row) : value :=
  Arr (map of_row rows).

(** A roster entry, with the keys in the order of [_read_form]. *)
Definition of_employee (e : Employee.t) : value :=
  Obj [("emp_id"%string, Scalar (PStr (Employee.emp_id e)));
       ("name"%string, Scalar (PStr (Employee.name e)));
       ("department"%string, Scalar (PStr (Employee.department e)));
       ("role"%string, Scalar (PStr (Employee.role e)));
       ("base_salary"%string, Scalar (PFloat (Employee.base_salary e)));
       ("join_date"%string, Scalar (PStr (Employee.join_date e)));
       ("phone"%string, Scalar (PStr (Employee.phone e)));
       ("email"%string, Scalar (PStr (Employee.email e)))].

Definition of_employees (records : list Employee.t) : value :=
  Arr (map of_employee records).

(** [d.get(k)] *)
Definition get (k : string) (d : list (string * value)) : option value :=
  option_map snd (List.find (fun kv => String.eqb (fst kv) k) d).

Definition str_at (k : string) (d : list (string * value)) : option string :=
  match get k d with
  | Some (Scalar (PStr s)) => Some s
  | _ => None
  end.

Definition float_at (k : string) (d : list (string * value)) : option float :=
  match get k d with
  | Some (Scalar (PFloat f)) => Some f
  | _ => None
  end.

(** A scalar under the key, [Some None] when the key is missing. *)
Definition scalar_at (k : string) (d : list (string * value))
  : option (option pyval) :=
  match get k d with
  | Some (Scalar x) => Some (Some x)
  | Some _ => None
  | None => Some None
  end.

(** The record that a dict of a day's file stands for; [None] for a value
    that is no such record. *)
Definition to_row (v : value) : option Attendance.row :=
  match v with
  | Obj d =>
      match str_at "emp_id" d, str_at "name" d,
            scalar_at "status" d, scalar_at "ip" d, scalar_at "overtime" d with
      | Some e, Some n, Some st, Some i, Some o => Some (Attendance.mk e n st i o)
      | _, _, _, _, _ => None
      end
  | _ => None
  end.

Definition to_employee (v : value) : option Employee.t :=
  match v with
  | Obj d =>
      match str_at "emp_id" d, str_at "name" d, str_at "department" d,
            str_at "role" d, float_at "base_salary" d, str_at "join_date" d,
            str_at "phone" d, str_at "email" d with
      | Some e, Some n, Some dp, Some r, Some b, Some j, Some p, Some m =>
          Some (Employee.mk e n dp r b j p m)
      | _, _, _, _, _, _, _, _ => None
      end
  | _ => None
  end.

Fixpoint all_some {A} (l : list (option A)) : option (list A) :=
  match l with
  | [] => Some []
  | Some a :: rest => option_map (cons a) (all_some rest)
  | None :: _ => None
  end.

Definition to_list {A} (f : value -> option A) (v : value) : option (list A) :=
  match v with
  | Arr items => all_some (map f items)
  | _ => None
  end.

Section Files.
Variable float_of_string : string -> option float.

(** What the storage holds for a file with the given text: [Malformed]
    when [json.load] raises its decoding error, the records when it returns
    a list of records; [None] for any other text. *)
Definition file_of_text {A} (f : value -> option A) (text : string)
  : option (file A) :=
  match load float_of_string text with
  | Got v _ => option_map Content (to_list f v)
  | Bad JSONDecodeError => Some Malformed
  | _ => None
  end.
End Files.

End Records.

(** ** Vocabulary of the statements *)

(** A zero of either sign or a NaN: all that a product with a zero, or a
    quotient of a zero, can be. *)
Definition zero_or_nan (x : float) : Prop :=
  match Prim2SF x with
  | S754_zero _ | S754_nan => True
  | _ => False
  end.

(** The first character is ["P"] or ["p"]. *)
Definition starts_with_P_or_p (s : string) : bool :=
  match s with
  | String c _ => Ascii.eqb c "P"%char || Ascii.eqb c "p"%char
  | EmptyString => false
  end.

(** The status of the record is a string that starts with ["P"] or
    ["p"]. *)
Definition status_starts_with_P (r : Attendance.row) : bool :=
  match Attendance.status r with
  | Some (PStr t) => starts_with_P_or_p t
  | _ => false
  end.

(** The status of a record as the aggregation reads it:
    [(r.get("status","A") or "A").upper()]. *)
Definition status_text (r : Attendance.row) : result string :=
  py_upper (py_or (default (PStr "A") (Attendance.status r)) (PStr "A")).

(** The record counts as a day present. *)
Definition marked_present (r : Attendance.row) : bool :=
  match status_text r with
  | Ok t => startswith t "P"
  | Raise _ => false
  end.

(** The overtime of a record as the aggregation reads it:
    [float(r.get("overtime", 0.0))]. *)
Definition overtime_value (float_of_string : string -> option float)
  (r : Attendance.row) : result float :=
  py_float float_of_string (default (PFloat 0) (Attendance.overtime r)).

(** What one record does to the statistics of its employee, its status
    read as [u]. *)
Definition counted (float_of_string : string -> option float)
  (st : SalaryTab.stats) (r : Attendance.row) (u : string) : SalaryTab.stats :=
  SalaryTab.mk_stats
    (if startswith u "P" then SalaryTab.present st + 1 else SalaryTab.present st)
    (if startswith u "P" then SalaryTab.absent st else SalaryTab.absent st + 1)
    (match overtime_value float_of_string r with
     | Ok x => (SalaryTab.ot st + x)%float
     | Raise _ => SalaryTab.ot st
     end).

(** The records of a day's snapshot, none when the day has no file. *)
Definition snapshot (s : storage) (day : string) : list Attendance.row :=
  match att_files s !! day with
  | Some (Content l) => l
  | _ => []
  end.

(** All the records of the given days, in order. *)
Definition month_records (s : storage) (days : list string)
  : list Attendance.row :=
  flat_map (snapshot s) days.

(** No file of the given days is malformed. *)
Definition readable (s : storage) (days : list string) : Prop :=
  forall day, In day days -> att_files s !! day <> Some Malformed.

(** Number of days of the month that fall on Monday to Friday. *)
Definition weekdays_in_month (y m : Z) : Z :=
  Z.of_nat (List.length
    (List.filter (fun k => weekday (mkdate y m (Z.of_nat k)) <? 5)
       (seq 1 (Z.to_nat (days_in_month y m))))).

(** The saved record of an employee id: the last one, when several share
    the id. *)
Definition last_saved (saved : list Attendance.row) (emp_id : string)
  : option Attendance.row :=
  List.find (fun r => String.eqb (Attendance.emp_id r) emp_id) (rev saved).

(** The salary model in the words of its description: the hourly rate is
    [b / 176] for [b > 0] and 0 otherwise, the prorated salary is
    [b * (p / w)] for [w > 0] and 0 otherwise. *)
Definition described_pay (b : float) (w p : Z) (h : float) : SalaryTab.pay :=
  let per_hour_rate := if (0 <? b)%float then (b / 176)%float else 0%float in
  let prorated :=
    if 0 <? w then (b * (float_of_int p / float_of_int w))%float else 0%float in
  let overtime_pay := (per_hour_rate * h)%float in
  SalaryTab.mk_pay per_hour_rate prorated overtime_pay
    (max0 (prorated + overtime_pay)%float).

(** The text [YYYY-MM-DD] of a day: four digits, two and two. *)
Definition date_text (y m d : Z) : string :=
  (fmt4 y ++ String dash (fmt2 m ++ String dash (fmt2 d)))%string.

(** The text of a month, as [on_calculate] prints it and [valid_month]
    reads it. *)
Definition month_text (y m : Z) : string :=
  (fmt4 y ++ String dash (fmt2 m))%string.

(** How many of the records belong to the employee and satisfy [p]. *)
Definition records_of (e : string) (p : Attendance.row -> bool)
  (rows : list Attendance.row) : Z :=
  Z.of_nat (List.length
    (List.filter (fun r => String.eqb (Attendance.emp_id r) e && p r) rows)).

(** The overtime of the employee's records added to [h], record after
    record; a record whose overtime [float] refuses adds nothing. *)
Definition overtime_from (float_of_string : string -> option float)
  (e : string) (rows : list Attendance.row) (h : float) : float :=
  fold_left
    (fun h r =>
       if String.eqb (Attendance.emp_id r) e
       then match overtime_value float_of_string r with
            | Ok x => (h + x)%float
            | Raise _ => h
            end
       else h)
    rows h.

(** All the records of the snapshots of a month, in order. *)
Definition records_of_month (s : storage) (y m : Z) : list Attendance.row :=
  match month_days_iter y m with
  | Ok days => month_records s days
  | Raise _ => []
  end.

(** No snapshot of the given days holds two records of one employee. *)
Definition one_record_a_day (s : storage) (days : list string) : Prop :=
  forall day, In day days -> NoDup (map Attendance.emp_id (snapshot s day)).

(** The ids of a roster. *)
Definition roster_ids (records : list Employee.t) : list string :=
  map Employee.emp_id records.

(** What the data model asks of a roster entry: an id of digits, a name, a
    base salary that is not negative. *)
Definition well_formed_employee (e : Employee.t) : Prop :=
  isdigit (Employee.emp_id e) = true
  /\ Employee.name e <> EmptyString
  /\ (Employee.base_salary e <? 0)%float = false.

(** A row of the attendance table as it comes back after [on_save_all]
    and [on_load]: the overtime has become a float. *)
Definition reloaded (float_of_string : string -> option float)
  (r : AttendanceTab.view_row) : AttendanceTab.view_row :=
  AttendanceTab.mk_row (AttendanceTab.Emp_Id r) (AttendanceTab.Name r)
    (AttendanceTab.Status r) (AttendanceTab.IP r)
    (PFloat match AttendanceTab.overtime_to_save float_of_string r with
            | Ok h => h
            | Raise _ => 0%float
            end).

(** The strings of [^[^@\s]+@[^@\s]+\.[^@\s]+$]: a local part, an ["@"],
    two parts around a ["."], each of them a non-empty run of characters
    that are neither ["@"] nor white space, and at most one final newline. *)
Definition email_shape (s : string) : Prop :=
  exists loc b c tail,
    s = (loc ++ String "@"%char (b ++ String "."%char (c ++ tail)))%string
    /\ loc <> EmptyString /\ b <> EmptyString /\ c <> EmptyString
    /\ all_chars EmployeesTab.email_char loc = true
    /\ all_chars EmployeesTab.email_char b = true
    /\ all_chars EmployeesTab.email_char c = true
    /\ (tail = EmptyString \/ tail = EmployeesTab.newline).

(** The float is a number: neither a NaN nor an infinity. *)
Definition is_number (f : float) : bool :=
  ((f =? f) && negb (f =? infinity) && negb (f =? neg_infinity))%float.

(** The text is a JSON number with a fraction or an exponent. *)
Definition float_text (t : string) : bool :=
  match Json.match_number t with
  | Some (_, frac_exp, EmptyString) => negb (String.eqb frac_exp "")
  | _ => false
  end.

(** The scalar can be printed and read back: the [repr] of a float that is
    a number is a JSON number with a fraction or an exponent, which
    [float] reads as the same float; an int has no more digits than the
    interpreter converts. *)
Definition prints_back (float_repr : float -> string)
  (float_of_string : string -> option float) (v : pyval) : Prop :=
  match v with
  | PFloat f =>
      is_number f = true ->
      float_text (float_repr f) = true
      /\ float_of_string (float_repr f) = Some f
  | PInt z => Json.int_fits z = true
  | _ => True
  end.

(** Every scalar of the record can be printed and read back. *)
Definition row_prints_back (float_repr : float -> string)
  (float_of_string : string -> option float) (r : Attendance.row) : Prop :=
  forall v,
    In (Some v) [Attendance.status r; Attendance.ip r; Attendance.overtime r] ->
    prints_back float_repr float_of_string v.

(** The text after a scalar of a list or of a dict: a comma, or the new
    line before the closing bracket. *)
Definition closes (rest : string) : Prop :=
  exists c t, rest = String c t /\ (c = ","%char \/ c = "010"%char).

(** A dict of scalars, and a list of such dicts. *)
Definition flat (ms : list (string * pyval)) : Json.value :=
  Json.Obj (map (fun kv => (fst kv, Json.Scalar (snd kv))) ms).

Definition table (t : list (list (string * pyval))) : Json.value :=
  Json.Arr (map flat t).

(** The line of a key and its scalar in a printed dict. *)
Definition member_text (float_repr : float -> string) (kv : string * pyval)
  : string :=
  (Json.encode_str (fst kv) ++ ": "
   ++ Json.encode_scalar float_repr (snd kv))%string.

(** The scalars of the dict can be printed and read back, and no key
    occurs twice. *)
Definition dict_prints_back (float_repr : float -> string)
  (float_of_string : string -> option float) (ms : list (string * pyval))
  : Prop :=
  (forall kv, In kv ms -> prints_back float_repr float_of_string (snd kv))
  /\ List.NoDup (map fst ms).

Definition optional (k : string) (v : option pyval) : list (string * pyval) :=
  match v with
  | Some x => [(k, x)]
  | None => []
  end.

(** The keys and scalars of a record of a day's file, and of a roster
    entry. *)
Definition row_members (r : Attendance.row) : list (string * pyval) :=
  [("emp_id"%string, PStr (Attendance.emp_id r));
   ("name"%string, PStr (Attendance.name r))]
  ++ optional "status" (Attendance.status r)
  ++ optional "ip" (Attendance.ip r)
  ++ optional "overtime" (Attendance.overtime r).

Definition employee_members (e : Employee.t) : list (string * pyval) :=
  [("emp_id"%string, PStr (Employee.emp_id e));
   ("name"%string, PStr (Employee.name e));
   ("department"%string, PStr (Employee.department e));
   ("role"%string, PStr (Employee.role e));
   ("base_salary"%string, PFloat (Employee.base_salary e));
   ("join_date"%string, PStr (Employee.join_date e));
   ("phone"%string, PStr (Employee.phone e));
   ("email"%string, PStr (Employee.email e))].

(** ** Sample data *)

(** A parser that knows the two numerals of the samples. *)
Definition sample_float_of_string (s : string) : option float :=
  if String.eqb s "17600" then Some 17600%float
  else if String.eqb s "2.5" then Some 2.5%float
  else None.

(** The [repr] of the floats of the samples, and a parser that reads
    them. *)
Definition sample_float_repr (f : float) : string :=
  if (f =? 10)%float then "10.0"
  else if (f =? 17600)%float then "17600.0"
  else if (f =? 8800)%float then "8800.0"
  else "2.5".

Definition sample_float (s : string) : option float :=
  if String.eqb s "10.0" then Some 10%float
  else if String.eqb s "17600.0" then Some 17600%float
  else if String.eqb s "8800.0" then Some 8800%float
  else if String.eqb s "2.5" then Some 2.5%float
  else None.

Definition ann : Employee.t :=
  Employee.mk "1" "Ann" "Sales" "Clerk" 17600 "2025-08-19" "" "".

Definition bob : Employee.t :=
  Employee.mk "2" "Bob" "" "" 8800 "" "" "".

(** Ann absent with ten overtime hours. *)
Definition ann_monday : Attendance.row :=
  Attendance.mk "1" "Ann" (Some (PStr "A")) (Some (PStr "10.0.0.7"))
    (Some (PFloat 10)).

(** A record of a former employee. *)
Definition zed_monday : Attendance.row :=
  Attendance.mk "9" "Zed" (Some (PStr "present")) None (Some (PStr "2.5")).

Definition monday_rows : list Attendance.row := [ann_monday; zed_monday].

Definition sample_storage : storage :=
  mk_storage (Some (Content [ann; bob]))
    (<["2025-09-01"%string := Content monday_rows]> ∅).

(** The same files with the snapshot of 2025-09-02 damaged. *)
Definition damaged_storage : storage :=
  mk_storage (Some (Content [ann; bob]))
    (<["2025-09-02"%string := Malformed]> (att_files sample_storage)).

(** The rows of the salary table of September 2025 for Ann and for Bob. *)
Definition ann_row : SalaryTab.salary_row :=
  SalaryTab.mk_row "1" "Ann" "2025-09" 17600 22 0 1 10 1000.

Definition bob_row : SalaryTab.salary_row :=
  SalaryTab.mk_row "2" "Bob" "2025-09" 8800 22 0 0 0 0.

(** A form that asks for the id of Ann again. *)
Definition sample_form : EmployeesTab.form :=
  EmployeesTab.mk_form " 1 " "Ann B" "" "" "17600" "" "" "".

(** A record without a status, and one whose status is the number 1. *)
Definition no_status_row : Attendance.row :=
  Attendance.mk "3" "Cy" None None None.

Definition number_status_row : Attendance.row :=
  Attendance.mk "3" "Cy" (Some (PInt 1)) None None.

(** A form for a new employee, and one that changes the name of Bob. *)
Definition new_form : EmployeesTab.form :=
  EmployeesTab.mk_form "7" " Eve " "Lab" "" "2.5" "2024-02-29" "" "eve@example.org".

Definition bob_form : EmployeesTab.form :=
  EmployeesTab.mk_form "2" "Robert" "" "" "17600" "" "" "".

(** The roster entries that the two forms make. *)
Definition eve : Employee.t :=
  Employee.mk "7" "Eve" "Lab" "" 2.5 "2024-02-29" "" "eve@example.org".

Definition robert : Employee.t :=
  Employee.mk "2" "Robert" "" "" 17600 "" "" "".

(** The attendance table of the sample roster, Ann with a blank overtime
    cell. *)
Definition sample_view : list AttendanceTab.view_row :=
  [ AttendanceTab.mk_row "1" "Ann" (PStr "P") (PStr "10.0.0.7") (PStr " ");
    AttendanceTab.mk_row "2" "Bob" (PStr "A") (PStr "10.0.0.8") (PStr "2.5") ].

(** ** Floating-point facts *)

Lemma Prim2SF_zero : Prim2SF 0%float = S754_zero false.
Proof. reflexivity. Qed.

Lemma zero_or_nan_zero : zero_or_nan 0%float.
Proof. unfold zero_or_nan. rewrite Prim2SF_zero. exact I. Qed.

Lemma zero_or_nan_mul_r (x y : float) : zero_or_nan y -> zero_or_nan (x * y)%float.
Proof.
  unfold zero_or_nan. rewrite FloatAxioms.mul_spec. unfold SF64mul.
  destruct (Prim2SF x), (Prim2SF y); simpl; tauto.
Qed.

Lemma zero_or_nan_mul_l (x y : float) : zero_or_nan x -> zero_or_nan (x * y)%float.
Proof.
  unfold zero_or_nan. rewrite FloatAxioms.mul_spec. unfold SF64mul.
  destruct (Prim2SF x), (Prim2SF y); simpl; tauto.
Qed.

Lemma zero_or_nan_add (x y : float) :
  zero_or_nan x -> zero_or_nan y -> zero_or_nan (x + y)%float.
Proof.
  unfold zero_or_nan. rewrite FloatAxioms.add_spec. unfold SF64add.
  destruct (Prim2SF x) as [[]| | |], (Prim2SF y) as [[]| | |]; simpl; tauto.
Qed.

Lemma zero_or_nan_div (x y : float) : zero_or_nan x -> zero_or_nan (x / y)%float.
Proof.
  unfold zero_or_nan. rewrite FloatAxioms.div_spec. unfold SF64div.
  destruct (Prim2SF x), (Prim2SF y); simpl; tauto.
Qed.

Lemma zero_or_nan_eqb (x : float) : (x =? 0)%float = true -> zero_or_nan x.
Proof.
  unfold zero_or_nan. rewrite FloatAxioms.eqb_spec, Prim2SF_zero.
  destruct (Prim2SF x) as [| [] | | []]; simpl; intros; try exact I; discriminate.
Qed.

Lemma max0_zero_or_nan (x : float) : zero_or_nan x -> max0 x = 0%float.
Proof.
  unfold zero_or_nan, max0. rewrite FloatAxioms.ltb_spec, Prim2SF_zero.
  destruct (Prim2SF x); simpl; tauto.
Qed.

Lemma positive_truthy (b : float) : (0 <? b)%float = true -> truthy_float b = true.
Proof.
  unfold truthy_float. rewrite FloatAxioms.ltb_spec, FloatAxioms.eqb_spec, Prim2SF_zero.
  destruct (Prim2SF b) as [| [] | | []]; simpl; intros; try reflexivity; discriminate.
Qed.

Lemma nonnegative_truthy (b : float) :
  (0 <=? b)%float = true -> truthy_float b = (0 <? b)%float.
Proof.
  unfold truthy_float.
  rewrite FloatAxioms.leb_spec, FloatAxioms.ltb_spec, FloatAxioms.eqb_spec, Prim2SF_zero.
  destruct (Prim2SF b) as [| [] | | []]; cbn; intros; try reflexivity; discriminate.
Qed.

Lemma finite_times_zero (b : float) :
  is_finite b = true -> (b * 0 =? 0)%float = true.
Proof.
  unfold is_finite, is_nan, is_infinity.
  rewrite !FloatAxioms.eqb_spec, abs_spec, FloatAxioms.mul_spec, Prim2SF_zero.
  change (Prim2SF infinity) with (S754_infinity false).
  destruct (Prim2SF b) as [| [] | |]; cbn; intros; try reflexivity; discriminate.
Qed.

(** Two floats that differ on a test are different. *)
Lemma float_neq (x y z : float) :
  (x =? z)%float = false -> (y =? z)%float = true -> x <> y.
Proof. intros Hx Hy E. rewrite E, Hy in Hx. discriminate. Qed.

(** ** The salary model *)

Section SalaryModel.
Import SalaryTab.

(** Without a working day the prorated salary of a finite base salary is
    zero. *)
Lemma prorated_without_working_days (b : float) (w p : Z) (h : float) :
  w <= 0 -> is_finite b = true ->
  (prorated (salary_model b w p h) =? 0)%float = true.
Proof.
  intros Hw Hb. unfold salary_model; cbn [prorated].
  destruct (Z.ltb_spec 0 w); [lia |]. now apply finite_times_zero.
Qed.

(** C1: for a base salary [b] that is a number and not negative, as the
    roster holds it, and [w > 0] working days, the hourly rate is [b / 176]
    when [b > 0] and 0 otherwise, the prorated salary is [b * (p / w)], the
    overtime pay is the hourly rate times the overtime hours and the net
    pay is [max(0, prorated + overtime pay)]: the four values of the code
    are those of the description, and the net pay is the one of the row of
    the salary table. *)
Theorem salary_model_as_described (b : float) (w p : Z) (h : float) :
  (0 <=? b)%float = true ->
  0 < w ->
  let r := salary_model b w p h in
  per_hour r = (if (0 <? b)%float then b / 176 else 0)%float
  /\ prorated r = (b * (float_of_int p / float_of_int w))%float
  /\ ot_pay r = (per_hour r * h)%float
  /\ net r = max0 (prorated r + ot_pay r)%float
  /\ r = described_pay b w p h
  /\ (forall month_str att e,
        Employee.base_salary e = b ->
        present (stats_of att (Employee.emp_id e)) = p ->
        ot (stats_of att (Employee.emp_id e)) = h ->
        Net_Pay (salary_row_of month_str w att e) = net r).
Proof.
  intros Hb Hw. cbn zeta.
  assert (E : salary_model b w p h = described_pay b w p h).
  { unfold salary_model, described_pay.
    rewrite (nonnegative_truthy b Hb).
    destruct (Z.ltb_spec 0 w); [reflexivity | lia]. }
  split; [| split; [| split; [| split; [| split]]]].
  - rewrite E. reflexivity.
  - rewrite E. unfold described_pay; cbn [prorated].
    destruct (Z.ltb_spec 0 w); [reflexivity | lia].
  - reflexivity.
  - reflexivity.
  - exact E.
  - intros month_str att e <- <- <-. reflexivity.
Qed.

Lemma salary_model_as_described_witness :
  (0 <=? 17600)%float = true /\ 0 < 22
  /\ salary_model 17600 22 11 10 = described_pay 17600 22 11 10.
Proof.
  split; [reflexivity | split; [lia |]].
  apply (salary_model_as_described 17600 22 11 10); [reflexivity | lia].
Defined.

(** C2, counterexample: the net pay of the scenario is not 18000. *)
Lemma overtime_scenario_net_not_18000 :
  net (salary_model 17600 22 22 10) <> 18000%float.
Proof. apply (float_neq _ _ 18000%float); reflexivity. Qed.

(** C2, as amended: for base salary 17600, 22 working days, 22 days
    present and 10 overtime hours the hourly rate is 100, the prorated
    salary 17600, the overtime pay 1000 and the net pay 18600. *)
Theorem overtime_scenario :
  salary_model 17600 22 22 10 = mk_pay 100 17600 1000 18600.
Proof. reflexivity. Qed.

End SalaryModel.

(** ** Storage helpers *)

Lemma ensure_dirs_att_files (s : storage) : att_files (ensure_dirs s) = att_files s.
Proof. unfold ensure_dirs. now destruct (emp_file s). Qed.

Lemma ensure_dirs_emp_file (s : storage) :
  emp_file (ensure_dirs s) = Some (default (Content []) (emp_file s)).
Proof. unfold ensure_dirs. destruct (emp_file s) eqn:E; cbn; congruence. Qed.

Lemma ensure_dirs_idem (s : storage) : ensure_dirs (ensure_dirs s) = ensure_dirs s.
Proof. unfold ensure_dirs. destruct (emp_file s) eqn:E; cbn; now rewrite ?E. Qed.

Lemma ensure_dirs_exists (s : storage) f : emp_file s = Some f -> ensure_dirs s = s.
Proof. unfold ensure_dirs. now intros ->. Qed.

(** The roster loads as the empty list when [employees.json] is absent or
    malformed. *)
Lemma load_employees_lenient (s : storage) :
  emp_file s = None \/ emp_file s = Some Malformed ->
  fst (load_employees s) = [].
Proof.
  unfold load_employees. rewrite ensure_dirs_emp_file.
  now intros [-> | ->].
Qed.

(** A day without a file loads as the empty list. *)
Lemma load_attendance_missing (s : storage) (day : string) :
  att_files s !! day = None -> load_attendance day s = (Ok [], ensure_dirs s).
Proof.
  intros H. unfold load_attendance. now rewrite ensure_dirs_att_files, H.
Qed.

Lemma load_attendance_content (s : storage) (day : string) l :
  att_files s !! day = Some (Content l) ->
  load_attendance day s = (Ok l, ensure_dirs s).
Proof.
  intros H. unfold load_attendance. now rewrite ensure_dirs_att_files, H.
Qed.

Lemma load_attendance_snapshot (s : storage) (day : string) :
  att_files s !! day <> Some Malformed ->
  load_attendance day s = (Ok (snapshot s day), ensure_dirs s).
Proof.
  intros H. unfold load_attendance, snapshot. rewrite ensure_dirs_att_files.
  destruct (att_files s !! day) as [[|l]|]; congruence.
Qed.

Lemma load_attendance_malformed_state (s : storage) (day : string) :
  att_files s !! day = Some Malformed ->
  load_attendance day s = (Raise JSONDecodeError, ensure_dirs s).
Proof.
  intros H. unfold load_attendance. now rewrite ensure_dirs_att_files, H.
Qed.

Lemma load_attendance_decode_error (s : storage) (day : string) :
  att_files s !! day = Some Malformed ->
  fst (load_attendance day s) = Raise JSONDecodeError.
Proof.
  intros H. unfold load_attendance. now rewrite ensure_dirs_att_files, H.
Qed.

(** C7: a day whose file does not parse makes [load_attendance] raise the
    decoder's exception; it does not return the empty list, as the loader
    of the roster does in [load_employees_lenient]. *)
Theorem load_attendance_malformed (s : storage) (day : string) :
  att_files s !! day = Some Malformed ->
  load_attendance day s = (Raise JSONDecodeError, ensure_dirs s).
Proof.
  intros H. unfold load_attendance. now rewrite ensure_dirs_att_files, H.
Qed.

Lemma load_attendance_malformed_witness :
  att_files damaged_storage !! "2025-09-02"%string = Some Malformed
  /\ load_attendance "2025-09-02" damaged_storage
     = (Raise JSONDecodeError, ensure_dirs damaged_storage).
Proof.
  split; [reflexivity | apply load_attendance_malformed; reflexivity].
Defined.

(** ** Employees tab *)

Section EmployeesTabFacts.
Import EmployeesTab.
Variable float_of_string : string -> option float.

Lemma id_taken_In (records : list Employee.t) (rec : form) r :
  In r records -> Employee.emp_id r = emp_id rec ->
  id_taken records rec = true.
Proof.
  intros Hin He. unfold id_taken. apply existsb_exists.
  exists r. split; [assumption |]. now apply String.eqb_eq.
Qed.

Lemma _read_form_emp_id (f rec : form) :
  _read_form float_of_string f = inr rec -> emp_id rec = strip (emp_id f).
Proof.
  unfold _read_form.
  repeat match goal with
         | |- context [if ?c then _ else _] => destruct c
         end; intros H; inversion H; reflexivity.
Qed.

(** C8: when the id of the form (stripped, as [_read_form] reads it) is the
    id of an employee of the roster, [on_save_new] ends with an error
    dialog and leaves the roster in memory and the files as they were. *)
Theorem on_save_new_duplicate (f : form) (records : list Employee.t)
  (s : storage) (r : Employee.t) :
  In r records ->
  Employee.emp_id r = strip (emp_id f) ->
  exists title text,
    on_save_new float_of_string f records s
    = (Ok (showerror title text), records, s).
Proof.
  intros Hin He. unfold on_save_new.
  destruct (_read_form float_of_string f) as [e | rec] eqn:Hf.
  - now exists "Validation"%string, e.
  - apply _read_form_emp_id in Hf.
    rewrite (id_taken_In records rec r Hin) by congruence.
    now exists "Duplicate"%string, "Employee ID already exists."%string.
Qed.

End EmployeesTabFacts.

Lemma on_save_new_duplicate_witness :
  In ann [ann; bob]
  /\ Employee.emp_id ann = strip (EmployeesTab.emp_id sample_form)
  /\ exists title text,
       EmployeesTab.on_save_new sample_float_of_string sample_form [ann; bob]
         sample_storage
       = (Ok (showerror title text), [ann; bob], sample_storage).
Proof.
  split; [now left | split; [reflexivity |]].
  apply (on_save_new_duplicate sample_float_of_string sample_form [ann; bob]
           sample_storage ann); [now left | reflexivity].
Defined.

(** ** Calendar *)

Section Calendar.

Lemma digit_char (k : nat) :
  (k < 10)%nat ->
  is_digit (ascii_of_nat (48 + k)) = true
  /\ digit_val (ascii_of_nat (48 + k)) = Z.of_nat k.
Proof.
  intros H.
  do 10 (destruct k as [| k]; [split; reflexivity |]).
  lia.
Qed.

Lemma digit_is_digit (n : Z) : is_digit (digit n) = true.
Proof.
  unfold digit. apply digit_char.
  pose proof (Z.mod_pos_bound n 10). lia.
Qed.

Lemma digit_val_digit (n : Z) : digit_val (digit n) = n mod 10.
Proof.
  unfold digit.
  pose proof (Z.mod_pos_bound n 10).
  destruct (digit_char (Z.to_nat (n mod 10))) as [_ ->]; lia.
Qed.

Lemma num2_fmt (n : Z) : 0 <= n < 100 -> num2 (digit (n / 10)) (digit n) = n.
Proof.
  intros H. unfold num2. rewrite !digit_val_digit.
  Z.div_mod_to_equations. lia.
Qed.

Lemma num4_fmt (n : Z) :
  0 <= n < 10000 ->
  num4 (digit (n / 1000)) (digit (n / 100)) (digit (n / 10)) (digit n) = n.
Proof.
  intros H. unfold num4, num2. rewrite !digit_val_digit.
  Z.div_mod_to_equations. lia.
Qed.

(** From the year 1000 on a date prints as four digits, two and two. *)
Lemma strftime_date_text (y m d : Z) :
  1000 <= y -> strftime (mkdate y m d) = date_text y m d.
Proof.
  intros Hy. unfold strftime, date_text, fmtY. cbn [year month day].
  destruct (Z.ltb_spec y 10); [lia |].
  destruct (Z.ltb_spec y 100); [lia |].
  destruct (Z.ltb_spec y 1000); [lia | reflexivity].
Qed.

(** Parsing the text of a day gives the date back. *)
Lemma strptime_date_text (y m d : Z) :
  0 <= y < 10000 -> 0 <= m < 100 -> 0 <= d < 100 ->
  strptime (date_text y m d) = new_date y m d.
Proof.
  intros Hy Hm Hd. unfold date_text, fmt4, fmt2.
  unfold strptime. cbv beta iota fix delta [String.append].
  rewrite !digit_is_digit, Ascii.eqb_refl. cbn [andb].
  now rewrite num4_fmt, !num2_fmt.
Qed.

(** Parsing a printed date gives the date back. *)
Lemma strptime_strftime (y m d : Z) :
  1000 <= y < 10000 -> 0 <= m < 100 -> 0 <= d < 100 ->
  strptime (strftime (mkdate y m d)) = new_date y m d.
Proof.
  intros Hy Hm Hd. rewrite strftime_date_text by lia.
  apply strptime_date_text; lia.
Qed.

Lemma days_in_month_bound (y m : Z) :
  1 <= m <= 12 -> 28 <= days_in_month y m <= 31.
Proof.
  intros H. unfold days_in_month.
  assert (C : m = 1 \/ m = 2 \/ m = 3 \/ m = 4 \/ m = 5 \/ m = 6 \/ m = 7
              \/ m = 8 \/ m = 9 \/ m = 10 \/ m = 11 \/ m = 12) by lia.
  repeat destruct C as [-> | C]; try subst m; cbn;
    try destruct (isleap y); lia.
Qed.

Lemma new_date_ok (y m d : Z) :
  1 <= y <= 9999 -> 1 <= m <= 12 -> 1 <= d <= days_in_month y m ->
  new_date y m d = Ok (mkdate y m d).
Proof.
  intros Hy Hm Hd. pose proof (days_in_month_bound y m Hm) as Hb.
  unfold new_date, c_int.
  replace ((-2147483648 <=? y) && (y <=? 2147483647)
           && ((-2147483648 <=? m) && (m <=? 2147483647))
           && ((-2147483648 <=? d) && (d <=? 2147483647))) with true
    by (symmetry; repeat (apply andb_true_intro; split); lia).
  replace ((1 <=? y) && (y <=? 9999) && (1 <=? m) && (m <=? 12)
           && (1 <=? d) && (d <=? days_in_month y m)) with true; [reflexivity |].
  symmetry. repeat (apply andb_true_intro; split); lia.
Qed.

Lemma add_days_S (d : date) (n : nat) :
  add_days d (S n) = tomorrow (add_days d n).
Proof. reflexivity. Qed.

(** Adding days to the first of a month stays in the month. *)
Lemma add_days_in_month (y m : Z) (i : nat) :
  Z.of_nat i < days_in_month y m ->
  add_days (mkdate y m 1) i = mkdate y m (1 + Z.of_nat i).
Proof.
  induction i as [| i IH]; intros H; [reflexivity |].
  rewrite add_days_S, IH by lia.
  unfold tomorrow. cbn [year month day].
  destruct (Z.ltb_spec (1 + Z.of_nat i) (days_in_month y m)); [| lia].
  f_equal. lia.
Qed.

(** The days of a month, as the day numbers 1 to the last. *)
Lemma month_days_iter_days (y m : Z) :
  1 <= y <= 9999 -> 1 <= m <= 12 ->
  month_days_iter y m
  = Ok (map (fun k => strftime (mkdate y m (Z.of_nat k)))
          (seq 1 (Z.to_nat (days_in_month y m)))).
Proof.
  intros Hy Hm. pose proof (days_in_month_bound y m Hm) as Hb.
  unfold month_days_iter, monthrange.
  rewrite new_date_ok by lia. cbn [bind].
  replace ((1 <=? m) && (m <=? 12)) with true
    by (symmetry; apply andb_true_intro; split; lia).
  cbn [bind snd]. f_equal.
  rewrite <- seq_shift, map_map.
  apply map_ext_in. intros i Hi. apply in_seq in Hi.
  rewrite add_days_in_month by lia. do 2 f_equal. lia.
Qed.

Lemma count_business_days_days (y m : Z) (ks : list nat) (cnt : Z) :
  1000 <= y <= 9999 -> 1 <= m <= 12 ->
  (forall k, In k ks -> 1 <= Z.of_nat k <= days_in_month y m) ->
  count_business_days
    (map (fun k => strftime (mkdate y m (Z.of_nat k))) ks) cnt
  = Ok (cnt + Z.of_nat (List.length
          (List.filter (fun k => weekday (mkdate y m (Z.of_nat k)) <? 5) ks))).
Proof.
  intros Hy Hm. pose proof (days_in_month_bound y m Hm) as Hb.
  revert cnt. induction ks as [| k ks IH]; intros cnt Hks.
  - cbn. f_equal. lia.
  - assert (Hk : 1 <= Z.of_nat k <= days_in_month y m) by (apply Hks; now left).
    cbn [map count_business_days List.filter].
    rewrite strptime_strftime, new_date_ok by lia. cbn [bind].
    rewrite IH by (intros; apply Hks; now right).
    destruct (weekday (mkdate y m (Z.of_nat k)) <? 5); cbn [List.length];
      f_equal; lia.
Qed.

Lemma business_days_in_month_count (y m : Z) :
  1000 <= y <= 9999 -> 1 <= m <= 12 ->
  business_days_in_month y m = Ok (weekdays_in_month y m).
Proof.
  intros Hy Hm. unfold business_days_in_month, weekdays_in_month.
  rewrite month_days_iter_days by lia. cbn [bind].
  rewrite (count_business_days_days y m) by
    (try assumption; intros k Hk; apply in_seq in Hk; lia).
  reflexivity.
Qed.

End Calendar.

(** ** Month aggregation *)

Section Aggregation.
Import SalaryTab.
Variable float_of_string : string -> option float.

Abbreviation count_row := (count_row float_of_string).
Abbreviation count_rows := (count_rows float_of_string).
Abbreviation gather_days := (gather_days float_of_string).

Lemma upper_ascii_P (c : ascii) :
  Ascii.eqb "P"%char (upper_ascii c)
  = Ascii.eqb c "P"%char || Ascii.eqb c "p"%char.
Proof. destruct c as [[] [] [] [] [] [] [] []]; reflexivity. Qed.

Lemma prefix_empty (t : string) : String.prefix "" t = true.
Proof. now destruct t. Qed.

(** The status test of the loop, on a string. *)
Lemma status_text_string (r : Attendance.row) (t : string) :
  Attendance.status r = Some (PStr t) ->
  exists u, status_text r = Ok u /\ startswith u "P" = starts_with_P_or_p t.
Proof.
  intros H. unfold status_text. rewrite H. cbn [default].
  destruct t as [| c t].
  - exists "A"%string. split; reflexivity.
  - exists (upper (String c t)). split; [reflexivity |].
    cbn [upper]. unfold startswith, starts_with_P_or_p. cbn [String.prefix].
    rewrite <- upper_ascii_P.
    destruct (ascii_dec "P" (upper_ascii c)) as [E | E].
    + rewrite prefix_empty. symmetry. now apply Ascii.eqb_eq.
    + symmetry. now apply Ascii.eqb_neq.
Qed.

Lemma stats_of_insert (d : gmap string stats) (e : string) (st : stats) :
  stats_of (<[e := st]> d) e = st.
Proof. unfold stats_of. now rewrite lookup_insert_eq. Qed.

Lemma stats_of_insert_ne (d : gmap string stats) (e e' : string) (st : stats) :
  e <> e' -> stats_of (<[e := st]> d) e' = stats_of d e'.
Proof. intros H. unfold stats_of. now rewrite lookup_insert_ne. Qed.

Lemma count_row_status (d : gmap string stats) (r : Attendance.row) (u : string) :
  status_text r = Ok u ->
  count_row d r
  = Ok (<[Attendance.emp_id r := counted float_of_string (stats_of d (Attendance.emp_id r)) r u]> d).
Proof.
  intros H. unfold count_row. fold (status_text r). rewrite H. cbn [bind].
  unfold counted, stats_of, overtime_value.
  do 2 f_equal.
  destruct (startswith u "P"), (py_float _ _); reflexivity.
Qed.

Lemma count_row_inv (d d1 : gmap string stats) (r : Attendance.row) :
  count_row d r = Ok d1 ->
  exists u, status_text r = Ok u
    /\ d1 = <[Attendance.emp_id r := counted float_of_string (stats_of d (Attendance.emp_id r)) r u]> d.
Proof.
  intros H. destruct (status_text r) as [u | e] eqn:Hu.
  - exists u. split; [reflexivity |].
    rewrite (count_row_status d r u Hu) in H. now inversion H.
  - unfold count_row in H. fold (status_text r) in H. rewrite Hu in H.
    discriminate.
Qed.

Lemma count_row_other (d d1 : gmap string stats) (r : Attendance.row) (e : string) :
  count_row d r = Ok d1 -> Attendance.emp_id r <> e -> d1 !! e = d !! e.
Proof.
  intros H Hne. destruct (count_row_inv d d1 r H) as (u & _ & ->).
  now apply lookup_insert_ne.
Qed.

Lemma count_rows_app (l1 l2 : list Attendance.row) (d : gmap string stats) :
  count_rows (l1 ++ l2) d = let* d1 := count_rows l1 d in count_rows l2 d1.
Proof.
  revert d. induction l1 as [| r l1 IH]; intros d; [reflexivity |].
  cbn [app SalaryTab.count_rows]. destruct (count_row d r); cbn [bind]; auto.
Qed.

(** A property of the dictionary that every counted record preserves
    holds when the loop over the days ends. *)
Lemma count_rows_invariant (P : gmap string stats -> Prop)
  (rows : list Attendance.row) :
  forall d d1,
    (forall r d0 d2, In r rows -> P d0 -> count_row d0 r = Ok d2 -> P d2) ->
    P d -> count_rows rows d = Ok d1 -> P d1.
Proof.
  induction rows as [| r rows IH]; intros d d1 Hstep Hd H.
  - cbn in H. now inversion H; subst.
  - cbn [SalaryTab.count_rows] in H.
    destruct (count_row d r) as [d2 | e] eqn:Hr; [| discriminate].
    cbn [bind] in H.
    apply (IH d2 d1); [| | assumption].
    + intros r0 d0 d3 Hin. apply Hstep. now right.
    + apply (Hstep r d d2); [now left | assumption | assumption].
Qed.

Lemma gather_days_invariant (P : gmap string stats -> Prop)
  (days : list string) :
  forall d s d1 s1,
    (forall day l r d0 d2,
        In day days -> att_files s !! day = Some (Content l) -> In r l ->
        P d0 -> count_row d0 r = Ok d2 -> P d2) ->
    P d -> gather_days days d s = (Ok d1, s1) -> P d1.
Proof.
  induction days as [| day days IH]; intros d s d1 s1 Hstep Hd H.
  - cbn in H. now inversion H; subst.
  - cbn [SalaryTab.gather_days] in H.
    assert (Hnext : forall d', P d' ->
              gather_days days d' (ensure_dirs s) = (Ok d1, s1) -> P d1).
    { intros d' Hd'. apply IH; [| assumption].
      intros day0 l r d0 d2 Hin. rewrite ensure_dirs_att_files.
      apply Hstep. now right. }
    destruct (att_files s !! day) as [[| l] |] eqn:Hday.
    + rewrite (load_attendance_malformed_state s day Hday) in H. discriminate.
    + rewrite (load_attendance_content s day l Hday) in H.
      destruct l as [| r l]; [now apply (Hnext d) |].
      destruct (count_rows (r :: l) d) as [d2 | e] eqn:Hl; [| discriminate].
      apply (Hnext d2); [| assumption].
      apply (count_rows_invariant P (r :: l) d d2); [| assumption | assumption].
      intros r0 d0 d3 Hin. apply (Hstep day (r :: l)); [now left | assumption | assumption].
    + rewrite (load_attendance_missing s day Hday) in H. now apply (Hnext d).
Qed.

Lemma snapshot_ensure_dirs (s : storage) (day : string) :
  snapshot (ensure_dirs s) day = snapshot s day.
Proof. unfold snapshot. now rewrite ensure_dirs_att_files. Qed.

Lemma month_records_ensure_dirs (s : storage) (days : list string) :
  month_records (ensure_dirs s) days = month_records s days.
Proof.
  unfold month_records. induction days as [| day days IH]; [reflexivity |].
  cbn [flat_map]. now rewrite snapshot_ensure_dirs, IH.
Qed.

(** The loop over the days counts every record of every snapshot, in the
    order of the days and of the records in each file. *)
Lemma gather_days_records (days : list string) :
  forall d s,
    readable s days ->
    fst (gather_days days d s) = count_rows (month_records s days) d.
Proof.
  induction days as [| day days IH]; intros d s Hr; [reflexivity |].
  assert (Hr' : readable (ensure_dirs s) days).
  { intros day0 Hin. rewrite ensure_dirs_att_files. apply Hr. now right. }
  cbn [SalaryTab.gather_days month_records flat_map].
  rewrite load_attendance_snapshot by (apply Hr; now left).
  rewrite count_rows_app. fold (month_records s days).
  destruct (snapshot s day) as [| r l] eqn:Hs.
  - cbn [SalaryTab.count_rows bind].
    now rewrite IH, month_records_ensure_dirs.
  - destruct (count_rows (r :: l) d) as [d1 | e]; cbn [bind]; [| reflexivity].
    now rewrite IH, month_records_ensure_dirs.
Qed.

(** The rows of the salary table come from the business-day count, the
    month's statistics and the roster. *)
Lemma on_calculate_rows (y m : Z) (ev : string) (s s2 : storage)
  (rows : list salary_row) :
  on_calculate float_of_string y m ev s = (Ok rows, s2) ->
  exists wd att s1 month_str,
    business_days_in_month y m = Ok wd
    /\ _gather_month_attendance float_of_string y m s = (Ok att, s1)
    /\ rows = map (salary_row_of month_str wd att)
                (List.filter (selected (strip ev)) (fst (load_employees s1))).
Proof.
  unfold on_calculate. intros H.
  destruct (business_days_in_month y m) as [wd | e]; [| discriminate].
  destruct (_gather_month_attendance float_of_string y m s) as [[att | e] s1];
    [| discriminate].
  destruct (load_employees s1) as [emps s3] eqn:E. inversion H; subst.
  exists wd, att, s1. eexists. rewrite E. repeat split; reflexivity.
Qed.

Lemma gather_month_days (y m : Z) (s s1 : storage) (att : gmap string stats) :
  _gather_month_attendance float_of_string y m s = (Ok att, s1) ->
  exists days, month_days_iter y m = Ok days
               /\ gather_days days ∅ s = (Ok att, s1).
Proof.
  unfold _gather_month_attendance.
  destruct (month_days_iter y m) as [days | e]; [| discriminate].
  intros H. now exists days.
Qed.

End Aggregation.

(** ** The salary table *)

Section SalaryTable.
Import SalaryTab.
Variable float_of_string : string -> option float.

Abbreviation gather_days := (gather_days float_of_string).
Abbreviation on_calculate := (on_calculate float_of_string).

(** An id that no counted record carries keeps its entry of the dictionary. *)
Lemma gather_days_other (days : list string) (d d1 : gmap string stats)
  (s s1 : storage) (e : string) :
  (forall day l r,
      In day days -> att_files s !! day = Some (Content l) -> In r l ->
      Attendance.emp_id r <> e) ->
  gather_days days d s = (Ok d1, s1) ->
  d1 !! e = d !! e.
Proof.
  intros Hno H.
  apply (gather_days_invariant float_of_string (fun d' => d' !! e = d !! e)
           days d s d1 s1); [| reflexivity | assumption].
  intros day l r d0 d2 Hday Hl Hr Hd0 Hc.
  rewrite <- Hd0. apply (count_row_other float_of_string d0 d2 r e Hc).
  now apply (Hno day l r).
Qed.

(** Records that are not marked present leave the days present at zero. *)
Lemma gather_days_not_present (days : list string) (d1 : gmap string stats)
  (s s1 : storage) (e : string) :
  (forall day l r,
      In day days -> att_files s !! day = Some (Content l) -> In r l ->
      Attendance.emp_id r = e -> marked_present r = false) ->
  gather_days days ∅ s = (Ok d1, s1) ->
  present (stats_of d1 e) = 0.
Proof.
  intros Hno H.
  apply (gather_days_invariant float_of_string
           (fun d' => present (stats_of d' e) = 0) days ∅ s d1 s1);
    [| reflexivity | assumption].
  intros day l r d0 d2 Hday Hl Hr Hd0 Hc.
  destruct (count_row_inv float_of_string d0 d2 r Hc) as (u & Hu & ->).
  destruct (decide (Attendance.emp_id r = e)) as [He | He].
  - subst e. rewrite stats_of_insert. unfold counted. cbn [present].
    specialize (Hno day l r Hday Hl Hr eq_refl).
    unfold marked_present in Hno. rewrite Hu in Hno. now rewrite Hno.
  - now rewrite stats_of_insert_ne.
Qed.

(** Without a day present and without overtime the net pay is zero, for
    every base salary and every count of working days. *)
Lemma net_without_presence (base : float) (wd : Z) (h : float) :
  zero_or_nan h -> net (salary_model base wd 0 h) = 0%float.
Proof.
  intros Hh. unfold salary_model. cbn [net].
  apply max0_zero_or_nan, zero_or_nan_add.
  - apply zero_or_nan_mul_r. destruct (0 <? wd).
    + apply zero_or_nan_div. exact zero_or_nan_zero.
    + exact zero_or_nan_zero.
  - now apply zero_or_nan_mul_r.
Qed.

(** C4: a day without a snapshot file hands the dictionary unchanged to the
    remaining days; and an employee id that no record of the month's
    snapshots carries has the statistics 0, 0 and 0.0, which is what its row
    of the salary table shows. *)
Theorem day_without_snapshot_skipped (y m : Z) (s s1 : storage)
  (att : gmap string stats) (e : string) :
  _gather_month_attendance float_of_string y m s = (Ok att, s1) ->
  (forall days, month_days_iter y m = Ok days ->
    forall day l r,
      In day days -> att_files s !! day = Some (Content l) -> In r l ->
      Attendance.emp_id r <> e) ->
  (forall day rest d s0,
      att_files s0 !! day = None ->
      gather_days (day :: rest) d s0 = gather_days rest d (ensure_dirs s0))
  /\ stats_of att e = no_stats
  /\ forall month_str wd emp,
       Employee.emp_id emp = e ->
       let row := salary_row_of month_str wd att emp in
       Present row = 0 /\ Absent row = 0 /\ Overtime_Hours row = 0%float.
Proof.
  intros Hg Hno.
  assert (Hst : stats_of att e = no_stats).
  { destruct (gather_month_days float_of_string y m s s1 att Hg) as (days & Hd & Hgd).
    unfold stats_of.
    rewrite (gather_days_other days ∅ att s s1 e (Hno days Hd) Hgd).
    now rewrite lookup_empty. }
  split; [| split; [assumption |]].
  - intros day rest d s0 Hday. cbn [SalaryTab.gather_days].
    now rewrite (load_attendance_missing s0 day Hday).
  - intros month_str wd emp <-. cbn zeta. unfold salary_row_of.
    cbn [Present Absent Overtime_Hours]. rewrite Hst. now repeat split.
Qed.

(** C5, as amended: an employee whose records of the month are all not
    marked present has 0 days present, and a net pay of 0 when the overtime
    total is zero as well; an employee without any record in the month has
    a net pay of 0. *)
Theorem absent_employee_net_pay (y m : Z) (ev : string) (s s2 : storage)
  (rows : list salary_row) (row : salary_row) :
  on_calculate y m ev s = (Ok rows, s2) ->
  In row rows ->
  (forall days, month_days_iter y m = Ok days ->
    forall day l r,
      In day days -> att_files s !! day = Some (Content l) -> In r l ->
      Attendance.emp_id r = Emp_Id row -> marked_present r = false) ->
  Present row = 0
  /\ ((Overtime_Hours row =? 0)%float = true -> Net_Pay row = 0%float)
  /\ ((forall days, month_days_iter y m = Ok days ->
        forall day l r,
          In day days -> att_files s !! day = Some (Content l) -> In r l ->
          Attendance.emp_id r <> Emp_Id row) ->
      Net_Pay row = 0%float).
Proof.
  intros Hc Hin Hno.
  destruct (on_calculate_rows float_of_string y m ev s s2 rows Hc)
    as (wd & att & s1 & month_str & Hwd & Hg & ->).
  apply in_map_iff in Hin. destruct Hin as (emp & <- & _).
  destruct (gather_month_days float_of_string y m s s1 att Hg) as (days & Hd & Hgd).
  cbn [salary_row_of Emp_Id Present Overtime_Hours Net_Pay] in *.
  assert (Hp : present (stats_of att (Employee.emp_id emp)) = 0)
    by apply (gather_days_not_present days att s s1 _ (Hno days Hd) Hgd).
  split; [assumption | split].
  - intros Hot. unfold salary_row_of. cbn [Net_Pay]. rewrite Hp.
    now apply net_without_presence, zero_or_nan_eqb.
  - intros Hnone. unfold salary_row_of. cbn [Net_Pay]. rewrite Hp.
    apply net_without_presence. unfold stats_of.
    rewrite (gather_days_other days ∅ att s s1 _ (Hnone days Hd) Hgd).
    rewrite lookup_empty. exact zero_or_nan_zero.
Qed.

(** C6: for a year of four digits and a month from 1 to 12 the count of
    working days is the number of days of that month whose weekday is Monday
    to Friday; it is 21 for August 2025; and every row of the salary table
    carries that count, whatever the files hold. *)
Theorem working_days_are_weekdays (y m : Z) :
  1000 <= y <= 9999 -> 1 <= m <= 12 ->
  business_days_in_month y m = Ok (weekdays_in_month y m)
  /\ business_days_in_month 2025 8 = Ok 21
  /\ forall ev s s2 rows row,
       on_calculate y m ev s = (Ok rows, s2) -> In row rows ->
       Working_Days row = weekdays_in_month y m.
Proof.
  intros Hy Hm.
  assert (Hb : business_days_in_month y m = Ok (weekdays_in_month y m))
    by (apply business_days_in_month_count; lia).
  split; [assumption | split; [reflexivity |]].
  intros ev s s2 rows row Hc Hin.
  destruct (on_calculate_rows float_of_string y m ev s s2 rows Hc)
    as (wd & att & s1 & month_str & Hwd & Hg & ->).
  apply in_map_iff in Hin. destruct Hin as (emp & <- & _).
  cbn [salary_row_of Working_Days]. congruence.
Qed.

End SalaryTable.

(** ** Attendance tab *)

Section AttendanceTabFacts.
Import AttendanceTab.
Variable gethostbyname : option string.

Lemma load_employees_ensure_dirs (s : storage) :
  load_employees (ensure_dirs s) = load_employees s.
Proof. unfold load_employees. now rewrite ensure_dirs_idem. Qed.

(** The dict of the saved records answers with the last record of an id. *)
Lemma existing_of_last_saved (saved : list Attendance.row) (emp_id : string) :
  existing_of saved !! emp_id = last_saved saved emp_id.
Proof.
  unfold existing_of, last_saved.
  induction saved as [| r saved IH] using rev_ind; [apply lookup_empty |].
  rewrite fold_left_app, rev_app_distr. cbn [fold_left rev app List.find].
  rewrite lookup_insert. destruct (String.eqb_spec (Attendance.emp_id r) emp_id).
  - now rewrite decide_True.
  - now rewrite decide_False.
Qed.

Lemma carried_last_saved (saved : list Attendance.row) (emp_id : string)
  (field : Attendance.row -> option pyval) (dflt : pyval) :
  carried (existing_of saved) emp_id field dflt
  = match last_saved saved emp_id with
    | Some r => default dflt (field r)
    | None => dflt
    end.
Proof. unfold carried. now rewrite existing_of_last_saved. Qed.

(** C10: loading the view of a day whose date is valid and whose file is
    readable gives one row per employee of the roster, in the order of the
    roster, with the id and the name of the employee; the row takes status,
    address and overtime from the saved record of that id where there is one
    (the default where the record lacks the field) and is ["A"], the host
    address and 0 where there is none; and no row carries the id of a saved
    record that is not in the roster. *)
Theorem on_load_merge (date_str : string) (rows0 : list view_row) (s : storage) :
  valid_date (strip date_str) = true ->
  att_files s !! strip date_str <> Some Malformed ->
  let saved := snapshot s (strip date_str) in
  let roster := fst (load_employees s) in
  let host := PStr (get_host_ip gethostbyname) in
  exists text rows s1,
    on_load gethostbyname date_str rows0 s = (Ok (showinfo "Loaded" text), rows, s1)
    /\ List.length rows = List.length roster
    /\ (forall i e,
          nth_error roster i = Some e ->
          exists vr,
            nth_error rows i = Some vr
            /\ Emp_Id vr = Employee.emp_id e
            /\ Name vr = Employee.name e
            /\ match last_saved saved (Employee.emp_id e) with
               | Some r =>
                   Status vr = default (PStr "A") (Attendance.status r)
                   /\ IP vr = default host (Attendance.ip r)
                   /\ Overtime_Hours vr = default (PInt 0) (Attendance.overtime r)
               | None =>
                   Status vr = PStr "A" /\ IP vr = host
                   /\ Overtime_Hours vr = PInt 0
               end)
    /\ (forall r,
          In r saved ->
          (forall e, In e roster -> Employee.emp_id e <> Attendance.emp_id r) ->
          forall vr, In vr rows -> Emp_Id vr <> Attendance.emp_id r).
Proof.
  intros Hv Hr. cbn zeta. unfold on_load. rewrite Hv. cbn [negb].
  rewrite (load_attendance_snapshot s _ Hr), load_employees_ensure_dirs.
  destruct (load_employees s) as [emps s2]. cbn [fst].
  eexists _, _, _. split; [reflexivity |]. split; [apply length_map |]. split.
  - intros i e Hi. eexists. split; [apply (map_nth_error _ _ _ Hi) |].
    unfold merged_row. cbn [Emp_Id Name Status IP Overtime_Hours].
    rewrite !carried_last_saved.
    destruct (last_saved _ _); repeat split; reflexivity.
  - intros r _ Hout vr Hin. apply in_map_iff in Hin.
    destruct Hin as (e & <- & He). cbn [merged_row Emp_Id]. now apply Hout.
Qed.

End AttendanceTabFacts.

(** ** The statements at the sample data *)

(** The records of the sample files belong to the ids 1 and 9. *)
Lemma sample_storage_ids (day : string) (l : list Attendance.row)
  (r : Attendance.row) :
  att_files sample_storage !! day = Some (Content l) -> In r l ->
  Attendance.emp_id r = "1"%string \/ Attendance.emp_id r = "9"%string.
Proof.
  unfold sample_storage. cbn [att_files]. rewrite lookup_insert.
  case_decide.
  - intros [= <-] [<- | [<- | []]]; [now left | now right].
  - rewrite lookup_empty. discriminate.
Qed.

Lemma sample_calculate :
  SalaryTab.on_calculate sample_float_of_string 2025 9 "" sample_storage
  = (Ok [ann_row; bob_row], sample_storage).
Proof. vm_compute. reflexivity. Qed.

(** C5, counterexample: Ann's only record of September 2025 marks her absent
    and carries ten overtime hours; her row has no day present and a net pay
    of 1000. *)
Lemma absent_with_overtime_is_paid :
  snapshot sample_storage "2025-09-01" = [ann_monday; zed_monday]
  /\ marked_present ann_monday = false
  /\ SalaryTab.on_calculate sample_float_of_string 2025 9 "1" sample_storage
     = (Ok [ann_row], sample_storage)
  /\ SalaryTab.Present ann_row = 0
  /\ SalaryTab.Net_Pay ann_row = 1000%float
  /\ (SalaryTab.Net_Pay ann_row =? 0)%float = false.
Proof. repeat split; vm_compute; reflexivity. Qed.

Lemma day_without_snapshot_skipped_witness :
  exists att s1,
    SalaryTab._gather_month_attendance sample_float_of_string 2025 9 sample_storage
    = (Ok att, s1)
    /\ SalaryTab.stats_of att "2" = SalaryTab.no_stats.
Proof.
  destruct (SalaryTab._gather_month_attendance sample_float_of_string 2025 9
              sample_storage) as [[att | e] s1] eqn:Hg.
  - exists att, s1. split; [reflexivity |].
    apply (day_without_snapshot_skipped sample_float_of_string 2025 9
             sample_storage s1 att "2" Hg).
    intros days _ day l r _ Hl Hr.
    destruct (sample_storage_ids day l r Hl Hr) as [-> | ->]; discriminate.
  - vm_compute in Hg. discriminate.
Defined.

Lemma absent_employee_net_pay_witness :
  SalaryTab.on_calculate sample_float_of_string 2025 9 "2" sample_storage
  = (Ok [bob_row], sample_storage)
  /\ In bob_row [bob_row]
  /\ SalaryTab.Net_Pay bob_row = 0%float.
Proof.
  assert (Hc : SalaryTab.on_calculate sample_float_of_string 2025 9 "2"
                 sample_storage = (Ok [bob_row], sample_storage))
    by (vm_compute; reflexivity).
  split; [exact Hc | split; [now left |]].
  apply (absent_employee_net_pay sample_float_of_string 2025 9 "2"
           sample_storage sample_storage [bob_row] bob_row Hc (or_introl eq_refl)).
  - intros days _ day l r _ Hl Hr.
    destruct (sample_storage_ids day l r Hl Hr) as [-> | ->]; discriminate.
  - intros days _ day l r _ Hl Hr.
    destruct (sample_storage_ids day l r Hl Hr) as [-> | ->]; discriminate.
Defined.

Lemma working_days_are_weekdays_witness :
  1000 <= 2025 <= 9999 /\ 1 <= 8 <= 12
  /\ business_days_in_month 2025 8 = Ok (weekdays_in_month 2025 8).
Proof.
  split; [lia | split; [lia |]].
  apply (working_days_are_weekdays sample_float_of_string 2025 8); lia.
Defined.

Lemma on_load_merge_witness :
  valid_date (strip " 2025-09-01 ") = true
  /\ att_files sample_storage !! strip " 2025-09-01 " <> Some Malformed
  /\ exists text rows s1,
       AttendanceTab.on_load None " 2025-09-01 " [] sample_storage
       = (Ok (showinfo "Loaded" text), rows, s1)
       /\ List.length rows = 2%nat.
Proof.
  assert (Hr : att_files sample_storage !! strip " 2025-09-01 " <> Some Malformed)
    by (vm_compute; discriminate).
  split; [reflexivity | split; [exact Hr |]].
  destruct (on_load_merge None " 2025-09-01 " [] sample_storage eq_refl Hr)
    as (text & rows & s1 & Hl & Hn & _).
  exists text, rows, s1. split; [exact Hl | exact Hn].
Defined.

(** * Further properties of the program *)

(** ** Storage *)

(** The files after [save_attendance]. *)
Lemma save_attendance_files (day : string) (rows : list Attendance.row)
  (s : storage) :
  save_attendance day rows s
  = mk_storage (Some (default (Content []) (emp_file s)))
      (<[day := Content rows]> (att_files s)).
Proof.
  unfold save_attendance.
  now rewrite ensure_dirs_emp_file, ensure_dirs_att_files.
Qed.

(** X2: for two different dates that [valid_date] accepts, saving the
    attendance of the one leaves the attendance of the other and the roster
    as they load, and a second save of the same day replaces the first. *)
Theorem save_attendance_frame (day day' : string)
  (rows rows' : list Attendance.row) (s : storage) :
  valid_date day = true ->
  valid_date day' = true ->
  day <> day' ->
  fst (load_attendance day' (save_attendance day rows s))
  = fst (load_attendance day' s)
  /\ fst (load_employees (save_attendance day rows s)) = fst (load_employees s)
  /\ save_attendance day rows' (save_attendance day rows s)
     = save_attendance day rows' s.
Proof.
  intros _ _ Hne. rewrite !save_attendance_files. cbn [emp_file att_files default].
  split; [| split].
  - unfold load_attendance. rewrite !ensure_dirs_att_files. cbn [att_files].
    rewrite lookup_insert_ne by assumption.
    now destruct (att_files s !! day') as [[| l] |].
  - unfold load_employees. rewrite !ensure_dirs_emp_file. cbn [emp_file default].
    now destruct (emp_file s) as [[| l] |].
  - now rewrite insert_insert_eq.
Qed.

Lemma save_attendance_frame_witness :
  valid_date "2025-09-03" = true
  /\ valid_date "2025-09-01" = true
  /\ "2025-09-03"%string <> "2025-09-01"%string
  /\ fst (load_attendance "2025-09-01"
            (save_attendance "2025-09-03" [zed_monday] sample_storage))
     = Ok monday_rows.
Proof.
  assert (Hne : "2025-09-03"%string <> "2025-09-01"%string) by discriminate.
  split; [reflexivity | split; [reflexivity | split; [exact Hne |]]].
  destruct (save_attendance_frame "2025-09-03" "2025-09-01" [zed_monday] []
              sample_storage eq_refl eq_refl Hne) as (H & _).
  rewrite H. reflexivity.
Defined.

(** ** Validators *)

Section Validators.

Ltac split_andb H :=
  rewrite !andb_true_iff in H;
  repeat match goal with
         | Hc : _ /\ _ |- _ => destruct Hc
         end.

Lemma is_digit_val (c : ascii) :
  is_digit c = true ->
  0 <= digit_val c <= 9 /\ nat_of_ascii c = (48 + Z.to_nat (digit_val c))%nat.
Proof.
  unfold is_digit, digit_val. intros H.
  apply andb_prop in H. destruct H as [H1 H2].
  apply Nat.leb_le in H1. apply Nat.leb_le in H2. lia.
Qed.

(** The digit of a number is its last decimal digit. *)
Lemma digit_of_val (c : ascii) (k : Z) :
  is_digit c = true -> digit (10 * k + digit_val c) = c.
Proof.
  intros H. destruct (is_digit_val c H) as [Hr Hn]. unfold digit.
  replace ((10 * k + digit_val c) mod 10) with (digit_val c)
    by (Z.div_mod_to_equations; lia).
  rewrite <- Hn. apply ascii_nat_embedding.
Qed.

Lemma fmt2_num2 (a b : ascii) :
  is_digit a = true -> is_digit b = true ->
  fmt2 (num2 a b) = String a (String b EmptyString).
Proof.
  intros Ha Hb. destruct (is_digit_val a Ha) as [Hra _].
  destruct (is_digit_val b Hb) as [Hrb _]. unfold fmt2, num2.
  replace ((10 * digit_val a + digit_val b) / 10) with (10 * 0 + digit_val a)
    by (Z.div_mod_to_equations; lia).
  now rewrite !digit_of_val.
Qed.

Lemma fmt4_num4 (a b c d : ascii) :
  is_digit a = true -> is_digit b = true -> is_digit c = true ->
  is_digit d = true ->
  fmt4 (num4 a b c d) = String a (String b (String c (String d EmptyString))).
Proof.
  intros Ha Hb Hc Hd.
  destruct (is_digit_val a Ha) as [Hra _]. destruct (is_digit_val b Hb) as [Hrb _].
  destruct (is_digit_val c Hc) as [Hrc _]. destruct (is_digit_val d Hd) as [Hrd _].
  unfold fmt4, fmt2, num4, num2.
  set (va := digit_val a) in *. set (vb := digit_val b) in *.
  set (vc := digit_val c) in *. set (vd := digit_val d) in *.
  replace ((100 * (10 * va + vb) + (10 * vc + vd)) / 1000) with (10 * 0 + va)
    by (Z.div_mod_to_equations; lia).
  replace ((100 * (10 * va + vb) + (10 * vc + vd)) / 100) with (10 * va + vb)
    by (Z.div_mod_to_equations; lia).
  replace ((100 * (10 * va + vb) + (10 * vc + vd)) / 10)
    with (10 * (10 * va + vb) + vc) by (Z.div_mod_to_equations; lia).
  replace (100 * (10 * va + vb) + (10 * vc + vd))
    with (10 * (100 * va + 10 * vb + vc) + vd) by lia.
  unfold va, vb, vc, vd. now rewrite !digit_of_val.
Qed.

Lemma new_date_inv (y m d : Z) (dt : date) :
  new_date y m d = Ok dt ->
  dt = mkdate y m d
  /\ 1 <= y <= 9999 /\ 1 <= m <= 12 /\ 1 <= d <= days_in_month y m.
Proof.
  unfold new_date.
  destruct (c_int y && c_int m && c_int d); [| discriminate].
  destruct ((1 <=? y) && (y <=? 9999) && (1 <=? m) && (m <=? 12)
            && (1 <=? d) && (d <=? days_in_month y m)) eqn:E; [| discriminate].
  intros [= <-].
  repeat (apply andb_prop in E; destruct E as [E ?]). split; [reflexivity | lia].
Qed.

(** A string that parses is the text of the date it parses to. *)
Lemma strptime_inv (s : string) (dt : date) :
  strptime s = Ok dt ->
  s = date_text (year dt) (month dt) (day dt)
  /\ 1 <= year dt <= 9999 /\ 1 <= month dt <= 12
  /\ 1 <= day dt <= days_in_month (year dt) (month dt).
Proof.
  unfold strptime. intros H.
  do 10 (destruct s as [| ? s]; [discriminate |]).
  destruct s; [| discriminate].
  match type of H with
  | (if ?c then _ else _) = _ => destruct c eqn:E; [| discriminate]
  end.
  split_andb E.
  apply new_date_inv in H. destruct H as (-> & Hy & Hm & Hd).
  cbn [year month day]. split; [| now repeat split].
  repeat match goal with
         | Hq : Ascii.eqb _ dash = true |- _ => apply Ascii.eqb_eq in Hq; subst
         end.
  unfold date_text. cbn [year month day].
  rewrite fmt4_num4, !fmt2_num2 by assumption. reflexivity.
Qed.

Lemma DATE_RE_date_text (y m d : Z) : DATE_RE (date_text y m d) = true.
Proof.
  unfold date_text, fmt4, fmt2, DATE_RE.
  cbv beta iota fix delta [String.append].
  now rewrite !digit_is_digit, Ascii.eqb_refl.
Qed.

Lemma valid_date_date_text (y m d : Z) :
  1 <= y <= 9999 -> 1 <= m <= 12 -> 1 <= d <= days_in_month y m ->
  valid_date (date_text y m d) = true.
Proof.
  intros Hy Hm Hd. pose proof (days_in_month_bound y m Hm).
  unfold valid_date.
  rewrite DATE_RE_date_text, strptime_date_text, new_date_ok by lia.
  reflexivity.
Qed.

Lemma valid_date_strftime (y m d : Z) :
  1000 <= y <= 9999 -> 1 <= m <= 12 -> 1 <= d <= days_in_month y m ->
  valid_date (strftime (mkdate y m d)) = true.
Proof.
  intros Hy Hm Hd. rewrite strftime_date_text by lia.
  apply valid_date_date_text; lia.
Qed.

(** X3: among the strings of ASCII characters, [valid_date] accepts
    exactly the texts [YYYY-MM-DD] (four digits, two and two) of the days of
    the calendar: a year from 1 to 9999, a month from 1 to 12 and a day that
    the month has in that year. *)
Theorem valid_date_iff (s : string) :
  ascii_text s = true ->
  valid_date s = true
  <-> exists y m d,
        1 <= y <= 9999 /\ 1 <= m <= 12 /\ 1 <= d <= days_in_month y m
        /\ s = date_text y m d.
Proof.
  intros _. unfold valid_date. split.
  - destruct (DATE_RE s); [| discriminate].
    destruct (strptime s) as [dt | e] eqn:Hp; [| discriminate]. intros _.
    destruct (strptime_inv s dt Hp) as (Hs & Hy & Hm & Hd).
    now exists (year dt), (month dt), (day dt).
  - intros (y & m & d & Hy & Hm & Hd & ->).
    fold (valid_date (date_text y m d)).
    now apply valid_date_date_text.
Qed.

(** [valid_month] on the text of a month, possibly followed by a newline. *)
Lemma valid_month_text (y m : Z) (rest : string) :
  0 <= y < 10000 -> 0 <= m < 100 ->
  rest = EmptyString \/ rest = String "010"%char EmptyString ->
  valid_month (month_text y m ++ rest)
  = (1 <=? m) && (m <=? 12) && (1900 <=? y) && (y <=? 3000).
Proof.
  intros Hy Hm Hr. unfold valid_month, MONTH_RE, month_text, fmt4, fmt2.
  cbv beta iota fix delta [String.append].
  rewrite !digit_is_digit, Ascii.eqb_refl. cbn [andb].
  rewrite num4_fmt, num2_fmt by assumption.
  now destruct Hr as [-> | ->].
Qed.

(** X4: among the strings of ASCII characters, [valid_month] accepts
    exactly the texts [YYYY-MM] of the months 1 to 12 of the years 1900 to
    3000, with or without one final newline. *)
Theorem valid_month_iff (s : string) :
  ascii_text s = true ->
  valid_month s = true
  <-> exists y m rest,
        1900 <= y <= 3000 /\ 1 <= m <= 12
        /\ (rest = EmptyString \/ rest = String "010"%char EmptyString)
        /\ s = (month_text y m ++ rest)%string.
Proof.
  intros _. split.
  - unfold valid_month. destruct (MONTH_RE s) eqn:E; [| discriminate].
    unfold MONTH_RE in E.
    do 7 (destruct s as [| ? s]; [discriminate |]).
    split_andb E.
    match goal with
    | Hq : Ascii.eqb _ dash = true |- _ => apply Ascii.eqb_eq in Hq; subst
    end.
    intros Hr. split_andb Hr.
    exists (num4 a a0 a1 a2), (num2 a4 a5), s.
    split; [lia | split; [lia | split]].
    + match goal with
      | Ho : _ || _ = true |- _ =>
          apply orb_prop in Ho; destruct Ho as [Ho | Ho];
          apply String.eqb_eq in Ho; auto
      end.
    + unfold month_text. rewrite fmt4_num4, fmt2_num2 by assumption.
      reflexivity.
  - intros (y & m & rest & Hy & Hm & Hr & ->).
    rewrite valid_month_text by (assumption || lia).
    repeat (apply andb_true_intro; split); lia.
Qed.

End Validators.

Lemma valid_date_iff_witness :
  ascii_text "2024-02-29" = true
  /\ exists y m d,
       1 <= y <= 9999 /\ 1 <= m <= 12 /\ 1 <= d <= days_in_month y m
       /\ "2024-02-29"%string = date_text y m d.
Proof.
  split; [reflexivity |].
  destruct (valid_date_iff "2024-02-29" eq_refl) as [H _].
  apply H. reflexivity.
Defined.

Lemma valid_month_iff_witness :
  ascii_text "2025-08" = true /\ valid_month "2025-08" = true.
Proof.
  split; [reflexivity |].
  destruct (valid_month_iff "2025-08" eq_refl) as [_ H].
  apply H. exists 2025, 8, EmptyString.
  split; [lia | split; [lia | split; [now left | reflexivity]]].
Defined.

(** ** Days and working days of a month *)

Section MonthDays.

Lemma NoDup_map_in {A B : Type} (f : A -> B) (l : list A) :
  (forall x y, In x l -> In y l -> f x = f y -> x = y) ->
  NoDup l -> NoDup (map f l).
Proof.
  intros Hinj Hl. induction Hl as [| a l Ha Hl IH]; [constructor |].
  cbn [map]. constructor.
  - rewrite list_elem_of_In. intros Hin.
    apply in_map_iff in Hin. destruct Hin as (b & Hb & Hin).
    assert (b = a) by (apply Hinj; [now right | now left | assumption]).
    subst. apply Ha. now apply list_elem_of_In.
  - apply IH. intros x y Hx Hy. apply Hinj; now right.
Qed.

(** Weekdays repeat with period seven from the first of the month on. *)
Lemma weekday_in_month (y m k : Z) :
  weekday (mkdate y m k)
  = ((days_before_year y + days_before_month y m + 6) mod 7 + k) mod 7.
Proof.
  unfold weekday, toordinal. cbn [year month day].
  rewrite Zplus_mod_idemp_l. f_equal. lia.
Qed.

(** Days from Monday to Friday among [n] days in a row, the day before the
    first being the weekday [c]. *)
Lemma weekdays_among (c : Z) (n : nat) :
  0 <= c < 7 -> (28 <= n <= 31)%nat ->
  20 <= Z.of_nat (List.length
          (List.filter (fun k => (c + Z.of_nat k) mod 7 <? 5) (seq 1 n))) <= 23.
Proof.
  intros Hc Hn.
  assert (C : c = 0 \/ c = 1 \/ c = 2 \/ c = 3 \/ c = 4 \/ c = 5 \/ c = 6) by lia.
  assert (N : (n = 28 \/ n = 29 \/ n = 30 \/ n = 31)%nat) by lia.
  repeat destruct C as [-> | C]; try subst c;
    repeat destruct N as [-> | N]; try subst n; vm_compute; split; discriminate.
Qed.

Lemma weekdays_in_month_bounds (y m : Z) :
  1 <= m <= 12 -> 20 <= weekdays_in_month y m <= 23.
Proof.
  intros Hm. pose proof (days_in_month_bound y m Hm) as Hb.
  unfold weekdays_in_month.
  rewrite (filter_ext _
             (fun k => ((days_before_year y + days_before_month y m + 6) mod 7
                        + Z.of_nat k) mod 7 <? 5))
    by (intros k; now rewrite weekday_in_month).
  apply weekdays_among; [apply Z.mod_pos_bound | ]; lia.
Qed.

(** X5: a month of a four-digit year has between 20 and 23 working days. *)
Theorem working_days_between_20_and_23 (y m : Z) :
  1000 <= y <= 9999 -> 1 <= m <= 12 ->
  exists n, business_days_in_month y m = Ok n /\ 20 <= n <= 23.
Proof.
  intros Hy Hm. exists (weekdays_in_month y m). split.
  - apply business_days_in_month_count; lia.
  - now apply weekdays_in_month_bounds.
Qed.

Lemma new_date_out_of_range (y m : Z) :
  y < 1 \/ 9999 < y \/ m < 1 \/ 12 < m ->
  new_date y m 1
  = Raise (if c_int y && c_int m then ValueError else OverflowError).
Proof.
  intros H. unfold new_date.
  change (c_int 1) with true. rewrite andb_true_r.
  destruct (c_int y && c_int m); [| reflexivity].
  destruct (Z.leb_spec 1 y); [| reflexivity].
  destruct (Z.leb_spec y 9999); [| reflexivity].
  destruct (Z.leb_spec 1 m); [| reflexivity].
  destruct (Z.leb_spec m 12); [| reflexivity]. lia.
Qed.

(** X6: for a year outside 1..9999 or a month outside 1..12 (the index 0 of
    an empty month box included) the days of the month, the count of working
    days, the aggregation and the salary computation all raise the exception
    of [date]: [OverflowError] when the year or the month does not fit a C
    [int], [ValueError] otherwise; and the files stay as they are. *)
Theorem month_out_of_range (y m : Z) :
  y < 1 \/ 9999 < y \/ m < 1 \/ 12 < m ->
  let e := if c_int y && c_int m then ValueError else OverflowError in
  month_days_iter y m = Raise e
  /\ business_days_in_month y m = Raise e
  /\ forall float_of_string ev s,
       SalaryTab._gather_month_attendance float_of_string y m s
       = (Raise e, s)
       /\ SalaryTab.on_calculate float_of_string y m ev s
          = (Raise e, s).
Proof.
  intros H e.
  assert (Hd : month_days_iter y m = Raise e).
  { unfold month_days_iter. now rewrite new_date_out_of_range. }
  assert (Hb : business_days_in_month y m = Raise e).
  { unfold business_days_in_month. now rewrite Hd. }
  split; [assumption | split; [assumption |]].
  intros fos ev s. unfold SalaryTab.on_calculate, SalaryTab._gather_month_attendance.
  now rewrite Hd, Hb.
Qed.

Lemma month_out_of_range_witness :
  (2025 < 1 \/ 9999 < 2025 \/ 0 < 1 \/ 12 < 0)
  /\ SalaryTab.on_calculate sample_float_of_string 2025 0 "" sample_storage
     = (Raise ValueError, sample_storage)
  /\ SalaryTab.on_calculate sample_float_of_string (2 ^ 31) 1 "" sample_storage
     = (Raise OverflowError, sample_storage).
Proof.
  assert (H : 2025 < 1 \/ 9999 < 2025 \/ 0 < 1 \/ 12 < 0) by lia.
  split; [exact H | split].
  - apply (month_out_of_range 2025 0 H).
  - apply (month_out_of_range (2 ^ 31) 1). right. left. reflexivity.
Defined.

Lemma working_days_between_20_and_23_witness :
  1000 <= 2024 <= 9999 /\ 1 <= 2 <= 12
  /\ exists n, business_days_in_month 2024 2 = Ok n /\ 20 <= n <= 23.
Proof.
  split; [lia | split; [lia |]].
  apply working_days_between_20_and_23; lia.
Defined.

(** X7: for a four-digit year and a month from 1 to 12 [month_days_iter]
    yields as many strings as the month has days, each of them a date that
    [valid_date] accepts, and no two of them equal. *)
Theorem month_days_iter_valid (y m : Z) :
  1000 <= y <= 9999 -> 1 <= m <= 12 ->
  exists days,
    month_days_iter y m = Ok days
    /\ Z.of_nat (List.length days) = days_in_month y m
    /\ (forall day, In day days -> valid_date day = true)
    /\ NoDup days.
Proof.
  intros Hy Hm. pose proof (days_in_month_bound y m Hm) as Hb.
  eexists. split; [apply month_days_iter_days; lia |].
  split; [| split].
  - rewrite length_map, length_seq. lia.
  - intros day Hin. apply in_map_iff in Hin. destruct Hin as (k & <- & Hk).
    apply in_seq in Hk. apply valid_date_strftime; lia.
  - apply NoDup_map_in; [| apply NoDup_seq].
    intros k1 k2 H1 H2 He. apply in_seq in H1. apply in_seq in H2.
    apply (f_equal strptime) in He.
    rewrite !strptime_strftime, !new_date_ok in He by lia.
    inversion He. lia.
Qed.

Lemma month_days_iter_valid_witness :
  1000 <= 2025 <= 9999 /\ 1 <= 9 <= 12
  /\ exists days,
       month_days_iter 2025 9 = Ok days /\ Z.of_nat (List.length days) = 30.
Proof.
  split; [lia | split; [lia |]].
  destruct (month_days_iter_valid 2025 9) as (days & Hd & Hl & _); [lia | lia |].
  exists days. split; [exact Hd | exact Hl].
Defined.

End MonthDays.

(** ** Totals of the month aggregation *)

Section AggregationTotals.
Import SalaryTab.
Variable float_of_string : string -> option float.

Abbreviation count_row := (count_row float_of_string).
Abbreviation count_rows := (count_rows float_of_string).
Abbreviation gather_days := (gather_days float_of_string).

Lemma marked_present_status (r : Attendance.row) (u : string) :
  status_text r = Ok u -> marked_present r = startswith u "P".
Proof. intros H. unfold marked_present. now rewrite H. Qed.

Lemma records_of_cons (e : string) (p : Attendance.row -> bool)
  (r : Attendance.row) (rows : list Attendance.row) :
  records_of e p (r :: rows)
  = (if String.eqb (Attendance.emp_id r) e && p r then 1 else 0)
    + records_of e p rows.
Proof.
  unfold records_of. cbn [List.filter].
  destruct (String.eqb (Attendance.emp_id r) e && p r); cbn [List.length]; lia.
Qed.

(** What the loop over the records adds to the statistics of an employee. *)
Lemma count_rows_totals (e : string) (rows : list Attendance.row) :
  forall d d1,
    count_rows rows d = Ok d1 ->
    present (stats_of d1 e)
    = present (stats_of d e) + records_of e marked_present rows
    /\ absent (stats_of d1 e)
       = absent (stats_of d e)
         + records_of e (fun r => negb (marked_present r)) rows
    /\ ot (stats_of d1 e)
       = overtime_from float_of_string e rows (ot (stats_of d e)).
Proof.
  induction rows as [| r rows IH]; intros d d1 H.
  - cbn in H. inversion H; subst. unfold records_of. cbn. repeat split; lia.
  - cbn [SalaryTab.count_rows] in H.
    destruct (count_row d r) as [d2 | x] eqn:Hr; [| discriminate].
    cbn [bind] in H. destruct (IH d2 d1 H) as (Hp & Ha & Ho).
    destruct (count_row_inv float_of_string d d2 r Hr) as (u & Hu & ->).
    rewrite Hp, Ha, Ho, !records_of_cons. unfold overtime_from at 2.
    cbn [fold_left]. fold (overtime_from float_of_string e rows).
    rewrite (marked_present_status r u Hu).
    destruct (String.eqb_spec (Attendance.emp_id r) e) as [He | He].
    + subst e. rewrite stats_of_insert. unfold counted. cbn [present absent ot andb].
      destruct (startswith u "P"); cbn [negb]; repeat split; lia.
    + rewrite stats_of_insert_ne by assumption. cbn [andb]. repeat split; lia.
Qed.

(** A loop over the days that ends without an exception met no malformed
    file. *)
Lemma gather_days_ok_readable (days : list string) :
  forall d s d1 s1, gather_days days d s = (Ok d1, s1) -> readable s days.
Proof.
  induction days as [| day days IH]; intros d s d1 s1 H day0 Hin.
  - destruct Hin.
  - cbn [SalaryTab.gather_days] in H.
    destruct (att_files s !! day) as [[| l] |] eqn:Hday.
    + pose proof (load_attendance_decode_error s day Hday) as He.
      destruct (load_attendance day s) as [[l | e] s0]; cbn [fst] in He;
        discriminate.
    + rewrite (load_attendance_content s day l Hday) in H.
      assert (Hrest : readable (ensure_dirs s) days).
      { destruct l as [| r l]; [now apply (IH d _ d1 s1) |].
        destruct (count_rows (r :: l) d) as [d2 | e]; [| discriminate].
        now apply (IH d2 _ d1 s1). }
      destruct Hin as [<- | Hin]; [congruence |].
      rewrite <- (ensure_dirs_att_files s). now apply Hrest.
    + rewrite (load_attendance_missing s day Hday) in H.
      destruct Hin as [<- | Hin]; [congruence |].
      rewrite <- (ensure_dirs_att_files s). now apply (IH d _ d1 s1).
Qed.

(** The dictionary of a month that was aggregated is the count of its
    records. *)
Lemma gather_month_counted (y m : Z) (s s1 : storage) (att : gmap string stats) :
  _gather_month_attendance float_of_string y m s = (Ok att, s1) ->
  count_rows (records_of_month s y m) ∅ = Ok att.
Proof.
  intros Hg.
  destruct (gather_month_days float_of_string y m s s1 att Hg) as (days & Hd & Hgd).
  unfold records_of_month. rewrite Hd.
  rewrite <- (gather_days_records float_of_string days ∅ s)
    by apply (gather_days_ok_readable days ∅ s att s1 Hgd).
  now rewrite Hgd.
Qed.

(** X8: when the aggregation of a month returns, the statistics of every
    employee id are the totals of the month's records with that id: the
    days present count the records marked present, the days absent count
    the others, and the overtime is the sum, in the order of the files, of
    the overtime values that [float] accepts. *)
Theorem gather_month_totals (y m : Z) (s s1 : storage)
  (att : gmap string stats) (e : string) :
  _gather_month_attendance float_of_string y m s = (Ok att, s1) ->
  present (stats_of att e)
  = records_of e marked_present (records_of_month s y m)
  /\ absent (stats_of att e)
     = records_of e (fun r => negb (marked_present r)) (records_of_month s y m)
  /\ ot (stats_of att e)
     = overtime_from float_of_string e (records_of_month s y m) 0.
Proof.
  intros Hg.
  destruct (count_rows_totals e _ ∅ att (gather_month_counted y m s s1 att Hg))
    as (Hp & Ha & Ho).
  unfold stats_of at 2 in Hp. unfold stats_of at 2 in Ha.
  unfold stats_of at 2 in Ho. rewrite lookup_empty in Hp, Ha, Ho.
  cbn [default no_stats present absent ot] in Hp, Ha, Ho.
  rewrite Hp, Ha, Ho. repeat split; lia.
Qed.

(** The loop over records whose status is a string ends without an
    exception. *)
Lemma count_rows_strings (rows : list Attendance.row) :
  (forall r, In r rows -> exists t, Attendance.status r = Some (PStr t)) ->
  forall d, exists d1, count_rows rows d = Ok d1.
Proof.
  induction rows as [| r rows IH]; intros Hs d; [now exists d |].
  destruct (Hs r (or_introl eq_refl)) as (t & Ht).
  destruct (status_text_string r t Ht) as (u & Hu & _).
  cbn [SalaryTab.count_rows].
  rewrite (count_row_status float_of_string d r u Hu). cbn [bind].
  apply IH. intros r0 Hin. apply Hs. now right.
Qed.

Lemma marked_present_string (r : Attendance.row) (t : string) :
  Attendance.status r = Some (PStr t) ->
  marked_present r = status_starts_with_P r.
Proof.
  intros Ht. destruct (status_text_string r t Ht) as (u & Hu & Hp).
  rewrite (marked_present_status r u Hu), Hp.
  unfold status_starts_with_P. now rewrite Ht.
Qed.

Lemma records_of_ext (e : string) (p q : Attendance.row -> bool)
  (rows : list Attendance.row) :
  (forall r, In r rows -> p r = q r) ->
  records_of e p rows = records_of e q rows.
Proof.
  intros H. induction rows as [| r rows IH]; [reflexivity |].
  rewrite !records_of_cons, IH by (intros r0 Hin; apply H; now right).
  now rewrite (H r (or_introl eq_refl)).
Qed.

(** C3: for a month whose files are readable and whose records all have a
    string as status, the aggregation returns, and for every employee the
    days present are the number of the employee's records in the snapshots
    of the month whose status starts with P or p, the days absent are the
    number of the employee's other records, and the overtime hours are the
    sum, record after record, of the employee's overtime values, a value
    that [float] refuses adding nothing. *)
Theorem month_aggregation_counts (y m : Z) (s : storage) (days : list string) :
  month_days_iter y m = Ok days ->
  readable s days ->
  (forall r, In r (month_records s days) ->
             exists t, Attendance.status r = Some (PStr t)) ->
  exists att s1,
    _gather_month_attendance float_of_string y m s = (Ok att, s1)
    /\ forall e,
         present (stats_of att e)
         = records_of e status_starts_with_P (month_records s days)
         /\ absent (stats_of att e)
            = records_of e (fun r => negb (status_starts_with_P r))
                (month_records s days)
         /\ ot (stats_of att e)
            = overtime_from float_of_string e (month_records s days) 0.
Proof.
  intros Hd Hr Hs.
  pose proof (gather_days_records float_of_string days ∅ s Hr) as Hg.
  destruct (count_rows_strings _ Hs ∅) as (att & Hc).
  unfold _gather_month_attendance. rewrite Hd.
  destruct (gather_days days ∅ s) as [g s1]. cbn [fst] in Hg.
  rewrite Hc in Hg. subst g.
  exists att, s1. split; [reflexivity |]. intros e.
  destruct (count_rows_totals e _ ∅ att Hc) as (Hp & Ha & Ho).
  unfold stats_of at 2 in Hp. unfold stats_of at 2 in Ha.
  unfold stats_of at 2 in Ho. rewrite lookup_empty in Hp, Ha, Ho.
  cbn [default no_stats present absent ot] in Hp, Ha, Ho.
  rewrite Hp, Ha, Ho.
  rewrite (records_of_ext e marked_present status_starts_with_P),
    (records_of_ext e (fun r => negb (marked_present r))
       (fun r => negb (status_starts_with_P r))).
  - repeat split; lia.
  - intros r Hin. destruct (Hs r Hin) as (t & Ht).
    now rewrite (marked_present_string r t Ht).
  - intros r Hin. destruct (Hs r Hin) as (t & Ht).
    exact (marked_present_string r t Ht).
Qed.

End AggregationTotals.

(** The files of the sample are readable and their records are those of
    Ann and Zed. *)
Lemma sample_storage_records (days : list string) :
  readable sample_storage days
  /\ forall r, In r (month_records sample_storage days) ->
               r = ann_monday \/ r = zed_monday.
Proof.
  split.
  - intros day _. unfold sample_storage. cbn [att_files].
    rewrite lookup_insert. case_decide; [discriminate |].
    rewrite lookup_empty. discriminate.
  - intros r Hin. unfold month_records in Hin. apply in_flat_map in Hin.
    destruct Hin as (day & _ & Hin). unfold snapshot, sample_storage in Hin.
    cbn [att_files] in Hin. rewrite lookup_insert in Hin.
    case_decide.
    + destruct Hin as [<- | [<- | []]]; [now left | now right].
    + rewrite lookup_empty in Hin. destruct Hin.
Qed.

Lemma month_aggregation_counts_witness :
  exists att s1,
    SalaryTab._gather_month_attendance sample_float_of_string 2025 9 sample_storage
    = (Ok att, s1)
    /\ SalaryTab.present (SalaryTab.stats_of att "9") = 1
    /\ SalaryTab.absent (SalaryTab.stats_of att "1") = 1
    /\ SalaryTab.ot (SalaryTab.stats_of att "9") = 2.5%float.
Proof.
  destruct (month_days_iter 2025 9) as [days | e] eqn:Hd;
    [| vm_compute in Hd; discriminate].
  destruct (sample_storage_records days) as [Hr Hs].
  destruct (month_aggregation_counts sample_float_of_string 2025 9
              sample_storage days Hd Hr) as (att & s1 & Hg & Ht).
  { intros r Hin. destruct (Hs r Hin) as [-> | ->]; eexists; reflexivity. }
  exists att, s1. split; [exact Hg |].
  destruct (Ht "9"%string) as (Hp & _ & Ho).
  destruct (Ht "1"%string) as (_ & Ha & _).
  rewrite Hp, Ha, Ho.
  vm_compute in Hd. injection Hd as <-.
  split; [| split]; vm_compute; reflexivity.
Defined.

Lemma gather_month_totals_witness :
  exists att s1,
    SalaryTab._gather_month_attendance sample_float_of_string 2025 9 sample_storage
    = (Ok att, s1)
    /\ SalaryTab.absent (SalaryTab.stats_of att "1") = 1
    /\ SalaryTab.present (SalaryTab.stats_of att "9") = 1.
Proof.
  destruct (SalaryTab._gather_month_attendance sample_float_of_string 2025 9
              sample_storage) as [[att | e] s1] eqn:Hg.
  - exists att, s1. split; [reflexivity |].
    destruct (gather_month_totals sample_float_of_string 2025 9 sample_storage
                s1 att "1" Hg) as (_ & Ha & _).
    destruct (gather_month_totals sample_float_of_string 2025 9 sample_storage
                s1 att "9" Hg) as (Hp & _ & _).
    rewrite Ha, Hp. split; reflexivity.
  - vm_compute in Hg. discriminate.
Defined.

(** ** Bounds and failures of the month aggregation *)

Section AggregationEdges.
Import SalaryTab.
Variable float_of_string : string -> option float.

Abbreviation count_row := (count_row float_of_string).
Abbreviation count_rows := (count_rows float_of_string).
Abbreviation gather_days := (gather_days float_of_string).
Abbreviation on_calculate := (on_calculate float_of_string).
Abbreviation gather_month := (_gather_month_attendance float_of_string).

Lemma records_of_app (e : string) (p : Attendance.row -> bool)
  (l1 l2 : list Attendance.row) :
  records_of e p (l1 ++ l2) = records_of e p l1 + records_of e p l2.
Proof. unfold records_of. rewrite List.filter_app, length_app. lia. Qed.

Lemma records_of_split (e : string) (p : Attendance.row -> bool)
  (rows : list Attendance.row) :
  records_of e p rows + records_of e (fun r => negb (p r)) rows
  = records_of e (fun _ => true) rows.
Proof.
  induction rows as [| r rows IH]; [reflexivity |].
  rewrite !records_of_cons, <- IH.
  destruct (String.eqb (Attendance.emp_id r) e), (p r); cbn [andb negb]; lia.
Qed.

Lemma records_of_nonneg (e : string) (p : Attendance.row -> bool)
  (rows : list Attendance.row) : 0 <= records_of e p rows.
Proof. unfold records_of. lia. Qed.

Lemma records_of_absent_id (e : string) (p : Attendance.row -> bool)
  (rows : list Attendance.row) :
  ~ In e (map Attendance.emp_id rows) -> records_of e p rows = 0.
Proof.
  induction rows as [| r rows IH]; intros Hn; [reflexivity |].
  rewrite records_of_cons, IH by (intros Hin; apply Hn; now right).
  destruct (String.eqb_spec (Attendance.emp_id r) e) as [He | He];
    [exfalso; apply Hn; now left | reflexivity].
Qed.

(** A snapshot without a repeated id holds at most one record of an id. *)
Lemma records_of_unique (e : string) (rows : list Attendance.row) :
  NoDup (map Attendance.emp_id rows) -> records_of e (fun _ => true) rows <= 1.
Proof.
  induction rows as [| r rows IH]; intros Hn; [unfold records_of; cbn; lia |].
  cbn [map] in Hn. apply NoDup_cons in Hn. destruct Hn as [Hr Hn].
  rewrite records_of_cons.
  destruct (String.eqb_spec (Attendance.emp_id r) e) as [He | He]; cbn [andb].
  - subst e. rewrite records_of_absent_id; [lia |].
    intros Hin. apply Hr. now apply list_elem_of_In.
  - specialize (IH Hn). lia.
Qed.

Lemma records_of_days (e : string) (s : storage) (days : list string) :
  one_record_a_day s days ->
  records_of e (fun _ => true) (month_records s days)
  <= Z.of_nat (List.length days).
Proof.
  induction days as [| day days IH]; intros Hu; [unfold records_of; cbn; lia |].
  unfold month_records. cbn [flat_map]. fold (month_records s days).
  rewrite records_of_app.
  assert (H1 : records_of e (fun _ => true) (snapshot s day) <= 1)
    by (apply records_of_unique, Hu; now left).
  assert (H2 : records_of e (fun _ => true) (month_records s days)
               <= Z.of_nat (List.length days))
    by (apply IH; intros d Hd; apply Hu; now right).
  cbn [List.length]. lia.
Qed.

Lemma month_days_iter_length (y m : Z) (days : list string) :
  month_days_iter y m = Ok days ->
  Z.of_nat (List.length days) = days_in_month y m /\ days <> [].
Proof.
  intros H. unfold month_days_iter in H.
  destruct (new_date y m 1) as [d1 | e] eqn:Hn; [| discriminate].
  destruct (new_date_inv y m 1 d1 Hn) as (_ & Hy & Hm & _).
  pose proof (days_in_month_bound y m Hm) as Hb.
  assert (E : month_days_iter y m
              = Ok (map (fun k => strftime (mkdate y m (Z.of_nat k)))
                      (seq 1 (Z.to_nat (days_in_month y m)))))
    by (apply month_days_iter_days; assumption).
  unfold month_days_iter in E. rewrite Hn in E. rewrite E in H.
  inversion H; subst. rewrite length_map, length_seq. split; [lia |].
  destruct (Z.to_nat (days_in_month y m)) eqn:Ez; [lia | discriminate].
Qed.

(** X9: when no snapshot of the month holds two records of one employee,
    the days present and the days absent of an employee are not negative
    and together do not exceed the number of days of the month. *)
Theorem attendance_days_bounded (y m : Z) (s s1 : storage)
  (att : gmap string stats) (e : string) :
  gather_month y m s = (Ok att, s1) ->
  (forall days, month_days_iter y m = Ok days -> one_record_a_day s days) ->
  0 <= present (stats_of att e)
  /\ 0 <= absent (stats_of att e)
  /\ present (stats_of att e) + absent (stats_of att e) <= days_in_month y m.
Proof.
  intros Hg Hu.
  destruct (count_rows_totals float_of_string e _ ∅ att
              (gather_month_counted float_of_string y m s s1 att Hg))
    as (Hp & Ha & _).
  unfold stats_of at 2 in Hp. unfold stats_of at 2 in Ha.
  rewrite lookup_empty in Hp, Ha. cbn [default no_stats present absent] in Hp, Ha.
  destruct (gather_month_days float_of_string y m s s1 att Hg) as (days & Hd & _).
  pose proof (records_of_nonneg e marked_present (records_of_month s y m)).
  pose proof (records_of_nonneg e (fun r => negb (marked_present r))
                (records_of_month s y m)).
  pose proof (records_of_split e marked_present (records_of_month s y m)) as Hs.
  pose proof (records_of_days e s days (Hu days Hd)) as Hl.
  destruct (month_days_iter_length y m days Hd) as [Hn _].
  unfold records_of_month in *. rewrite Hd in *. lia.
Qed.

(** X10: a record without a status, or with a status that counts as false
    ([None], the empty string, 0, 0.0 or [False]), is counted as one day
    absent. *)
Theorem status_missing_counts_absent (d : gmap string stats)
  (r : Attendance.row) :
  Attendance.status r = None
  \/ (exists v, Attendance.status r = Some v /\ truthy v = false) ->
  exists d1,
    count_row d r = Ok d1
    /\ present (stats_of d1 (Attendance.emp_id r))
       = present (stats_of d (Attendance.emp_id r))
    /\ absent (stats_of d1 (Attendance.emp_id r))
       = absent (stats_of d (Attendance.emp_id r)) + 1.
Proof.
  intros H.
  assert (Hu : status_text r = Ok "A"%string).
  { unfold status_text. destruct H as [-> | (v & -> & Hv)].
    - reflexivity.
    - change (default (PStr "A") (Some v)) with v.
      unfold py_or. now rewrite Hv. }
  eexists. split; [apply (count_row_status float_of_string d r _ Hu) |].
  rewrite stats_of_insert. unfold counted. cbn. split; reflexivity.
Qed.

Lemma count_rows_raise (r : Attendance.row) (rows : list Attendance.row) :
  In r rows ->
  (forall d, exists e, count_row d r = Raise e) ->
  forall d, exists e, count_rows rows d = Raise e.
Proof.
  intros Hin Hr. induction rows as [| r0 rows IH]; intros d; [destruct Hin |].
  cbn [SalaryTab.count_rows].
  destruct (count_row d r0) as [d1 | e] eqn:H0; cbn [bind]; [| now exists e].
  destruct Hin as [-> | Hin].
  - destruct (Hr d) as [e He]. congruence.
  - now apply IH.
Qed.

Lemma raise_decidable {A : Type} (x : result A) :
  (exists e, x = Raise e) -> is_ok x = false.
Proof. now intros [e ->]. Qed.

(** X11: a record whose status counts as true and is not a string (a
    number, [True]) makes the loop body raise [AttributeError], and with it
    the aggregation and the salary computation of every month whose readable
    snapshots hold such a record. *)
Theorem status_not_text_raises (r : Attendance.row) (v : pyval) :
  Attendance.status r = Some v ->
  truthy v = true ->
  (forall t, v <> PStr t) ->
  (forall d, count_row d r = Raise AttributeError)
  /\ forall y m ev s days day,
       month_days_iter y m = Ok days -> readable s days ->
       In day days -> In r (snapshot s day) ->
       is_ok (fst (gather_month y m s)) = false
       /\ is_ok (fst (on_calculate y m ev s)) = false.
Proof.
  intros Hs Hv Hn.
  assert (Hr : forall d, count_row d r = Raise AttributeError).
  { intros d. unfold SalaryTab.count_row. rewrite Hs.
    change (default (PStr "A") (Some v)) with v.
    unfold py_or. rewrite Hv. destruct v; try reflexivity. now destruct (Hn s). }
  split; [assumption |].
  intros y m ev s days day Hd Hread Hday Hin.
  assert (Hg : is_ok (fst (gather_month y m s)) = false).
  { unfold _gather_month_attendance. rewrite Hd.
    rewrite (gather_days_records float_of_string days ∅ s Hread).
    apply raise_decidable, (count_rows_raise r).
    - unfold month_records. apply in_flat_map. now exists day.
    - intros d. exists AttributeError. apply Hr. }
  split; [assumption |].
  unfold SalaryTab.on_calculate.
  destruct (business_days_in_month y m); [| reflexivity].
  fold (gather_month y m s).
  destruct (gather_month y m s) as [[att | e] s1]; [discriminate | reflexivity].
Qed.

Lemma gather_days_malformed (days : list string) (day : string) :
  forall d s,
    In day days -> att_files s !! day = Some Malformed ->
    is_ok (fst (gather_days days d s)) = false.
Proof.
  induction days as [| day0 days IH]; intros d s Hin Hm; [destruct Hin |].
  cbn [SalaryTab.gather_days].
  destruct (load_attendance day0 s) as [[rows | e] s0] eqn:Hl; [| reflexivity].
  assert (Hs0 : s0 = ensure_dirs s).
  { unfold load_attendance in Hl.
    destruct (att_files (ensure_dirs s) !! day0) as [[| l] |]; now inversion Hl. }
  destruct Hin as [-> | Hin].
  - pose proof (load_attendance_decode_error s day Hm) as He.
    rewrite Hl in He. discriminate.
  - assert (Hnext : forall d', is_ok (fst (gather_days days d' s0)) = false).
    { intros d'. subst s0. apply IH; [assumption |].
      now rewrite ensure_dirs_att_files. }
    destruct rows as [| r rows]; [apply Hnext |].
    destruct (count_rows (r :: rows) d); [apply Hnext | reflexivity].
Qed.

(** X12: when the file of some day of the month is malformed, neither the
    aggregation nor the salary computation returns a result: an exception
    escapes and no salary table is produced. *)
Theorem malformed_day_fails_month (y m : Z) (ev : string) (s : storage)
  (days : list string) (day : string) :
  month_days_iter y m = Ok days ->
  In day days ->
  att_files s !! day = Some Malformed ->
  is_ok (fst (gather_month y m s)) = false
  /\ is_ok (fst (on_calculate y m ev s)) = false.
Proof.
  intros Hd Hin Hm.
  assert (Hg : is_ok (fst (gather_month y m s)) = false).
  { unfold _gather_month_attendance. rewrite Hd.
    now apply (gather_days_malformed days day). }
  split; [assumption |].
  unfold SalaryTab.on_calculate.
  destruct (business_days_in_month y m); [| reflexivity].
  fold (gather_month y m s).
  destruct (gather_month y m s) as [[att | e] s1]; [discriminate | reflexivity].
Qed.

End AggregationEdges.

Lemma sample_one_record_a_day (days : list string) :
  one_record_a_day sample_storage days.
Proof.
  intros day _. unfold snapshot, sample_storage. cbn [att_files].
  rewrite lookup_insert. case_decide.
  - cbn. apply NoDup_cons. split; [| apply NoDup_singleton].
    intros Hin. apply list_elem_of_In in Hin. destruct Hin as [H1 | []].
    discriminate.
  - rewrite lookup_empty. constructor.
Qed.

Lemma attendance_days_bounded_witness :
  exists att s1,
    SalaryTab._gather_month_attendance sample_float_of_string 2025 9 sample_storage
    = (Ok att, s1)
    /\ SalaryTab.present (SalaryTab.stats_of att "1")
       + SalaryTab.absent (SalaryTab.stats_of att "1") <= days_in_month 2025 9.
Proof.
  destruct (SalaryTab._gather_month_attendance sample_float_of_string 2025 9
              sample_storage) as [[att | e] s1] eqn:Hg.
  - exists att, s1. split; [reflexivity |].
    apply (attendance_days_bounded sample_float_of_string 2025 9 sample_storage
             s1 att "1" Hg).
    intros days _. apply sample_one_record_a_day.
  - vm_compute in Hg. discriminate.
Defined.

Lemma status_missing_counts_absent_witness :
  (Attendance.status no_status_row = None
   \/ exists v, Attendance.status no_status_row = Some v /\ truthy v = false)
  /\ exists d1,
       SalaryTab.count_row sample_float_of_string ∅ no_status_row = Ok d1
       /\ SalaryTab.absent (SalaryTab.stats_of d1 "3") = 1.
Proof.
  assert (H : Attendance.status no_status_row = None
              \/ exists v, Attendance.status no_status_row = Some v
                           /\ truthy v = false) by (left; reflexivity).
  split; [exact H |].
  destruct (status_missing_counts_absent sample_float_of_string ∅ no_status_row H)
    as (d1 & Hc & _ & Ha).
  exists d1. split; [exact Hc | exact Ha].
Defined.

Lemma status_not_text_raises_witness :
  Attendance.status number_status_row = Some (PInt 1)
  /\ truthy (PInt 1) = true
  /\ (forall t, PInt 1 <> PStr t)
  /\ SalaryTab.count_row sample_float_of_string ∅ number_status_row
     = Raise AttributeError.
Proof.
  assert (Hn : forall t, PInt 1 <> PStr t) by discriminate.
  split; [reflexivity | split; [reflexivity | split; [exact Hn |]]].
  apply (status_not_text_raises sample_float_of_string number_status_row (PInt 1)
           eq_refl eq_refl Hn).
Defined.

Lemma malformed_day_fails_month_witness :
  exists days,
    month_days_iter 2025 9 = Ok days
    /\ In "2025-09-02"%string days
    /\ att_files damaged_storage !! "2025-09-02"%string = Some Malformed
    /\ is_ok (fst (SalaryTab.on_calculate sample_float_of_string 2025 9 ""
                     damaged_storage)) = false.
Proof.
  destruct (month_days_iter 2025 9) as [days | e] eqn:Hd;
    [| vm_compute in Hd; discriminate].
  assert (Hin : In "2025-09-02"%string days).
  { vm_compute in Hd. inversion Hd. right. left. reflexivity. }
  exists days. split; [reflexivity | split; [exact Hin | split; [reflexivity |]]].
  apply (malformed_day_fails_month sample_float_of_string 2025 9 ""
           damaged_storage days "2025-09-02" Hd Hin eq_refl).
Defined.

(** ** The salary table, once more *)

Section SalaryTableMore.
Import SalaryTab.
Variable float_of_string : string -> option float.

Abbreviation gather_days := (gather_days float_of_string).
Abbreviation on_calculate := (on_calculate float_of_string).
Abbreviation gather_month := (_gather_month_attendance float_of_string).

Lemma load_attendance_state (day : string) (s : storage) :
  snd (load_attendance day s) = ensure_dirs s.
Proof.
  unfold load_attendance.
  now destruct (att_files (ensure_dirs s) !! day) as [[| l] |].
Qed.

Lemma load_attendance_same_files (day : string) (s s' : storage) :
  att_files s = att_files s' ->
  fst (load_attendance day s) = fst (load_attendance day s').
Proof.
  intros H. unfold load_attendance. rewrite !ensure_dirs_att_files, H.
  now destruct (att_files s' !! day) as [[| l] |].
Qed.

Lemma load_employees_state (s : storage) : snd (load_employees s) = ensure_dirs s.
Proof.
  unfold load_employees. now destruct (emp_file (ensure_dirs s)) as [[| l] |].
Qed.

(** The loop over the days leaves the files as [ensure_dirs] leaves them. *)
Lemma gather_days_state (days : list string) :
  forall d s, days <> [] -> snd (gather_days days d s) = ensure_dirs s.
Proof.
  induction days as [| day days IH]; intros d s Hne; [congruence |].
  cbn [SalaryTab.gather_days].
  pose proof (load_attendance_state day s) as Hs.
  destruct (load_attendance day s) as [[rows | e] s0]; cbn [snd] in Hs; subst s0;
    [| reflexivity].
  assert (Hnext : forall d', snd (gather_days days d' (ensure_dirs s))
                             = ensure_dirs s).
  { intros d'. destruct days as [| day1 days]; [reflexivity |].
    rewrite IH by discriminate. apply ensure_dirs_idem. }
  destruct rows as [| r rows]; [apply Hnext |].
  destruct (SalaryTab.count_rows float_of_string (r :: rows) d);
    [apply Hnext | reflexivity].
Qed.

(** The result of the loop depends on the attendance files only. *)
Lemma gather_days_same_files (days : list string) :
  forall d s s',
    att_files s = att_files s' ->
    fst (gather_days days d s) = fst (gather_days days d s').
Proof.
  induction days as [| day days IH]; intros d s s' H; [reflexivity |].
  cbn [SalaryTab.gather_days].
  pose proof (load_attendance_state day s) as Hs.
  pose proof (load_attendance_state day s') as Hs'.
  pose proof (load_attendance_same_files day s s' H) as Hf.
  destruct (load_attendance day s) as [r0 s0].
  destruct (load_attendance day s') as [r0' s0'].
  cbn [fst snd] in *. subst r0' s0 s0'.
  assert (Hnext : forall d', fst (gather_days days d' (ensure_dirs s))
                             = fst (gather_days days d' (ensure_dirs s')))
    by (intros d'; apply IH; now rewrite !ensure_dirs_att_files).
  destruct r0 as [[| r rows] | e]; [apply Hnext | | reflexivity].
  destruct (SalaryTab.count_rows float_of_string (r :: rows) d);
    [apply Hnext | reflexivity].
Qed.

Lemma gather_month_state (y m : Z) (s : storage) (days : list string) :
  month_days_iter y m = Ok days ->
  gather_month y m s = (fst (gather_days days ∅ s), ensure_dirs s)
  /\ gather_month y m (ensure_dirs s)
     = (fst (gather_days days ∅ s), ensure_dirs s).
Proof.
  intros Hd. destruct (month_days_iter_length y m days Hd) as [_ Hne].
  unfold _gather_month_attendance. rewrite Hd. split.
  - rewrite (surjective_pairing (gather_days days ∅ s)) at 1.
    now rewrite gather_days_state.
  - rewrite (surjective_pairing (gather_days days ∅ (ensure_dirs s))).
    rewrite gather_days_state, ensure_dirs_idem by assumption.
    now rewrite (gather_days_same_files days ∅ (ensure_dirs s) s)
      by apply ensure_dirs_att_files.
Qed.

Lemma business_days_month_days (y m wd : Z) :
  business_days_in_month y m = Ok wd ->
  exists days, month_days_iter y m = Ok days.
Proof.
  unfold business_days_in_month.
  destruct (month_days_iter y m) as [days | e]; [| discriminate].
  intros _. now exists days.
Qed.

(** The files after [on_calculate]. *)
Lemma on_calculate_state (y m wd : Z) (ev : string) (s : storage) :
  business_days_in_month y m = Ok wd ->
  snd (on_calculate y m ev s) = ensure_dirs s.
Proof.
  intros Hb. destruct (business_days_month_days y m wd Hb) as [days Hd].
  destruct (gather_month_state y m s days Hd) as [Hg _].
  unfold SalaryTab.on_calculate. rewrite Hb. fold (gather_month y m s).
  rewrite Hg. destruct (fst (gather_days days ∅ s)) as [att | e]; [| reflexivity].
  pose proof (load_employees_state (ensure_dirs s)) as Hl.
  destruct (load_employees (ensure_dirs s)) as [emps s2]. cbn [snd] in *.
  now rewrite Hl, ensure_dirs_idem.
Qed.

(** X13: the salary computation changes no attendance file and no record of
    the roster (it only creates an absent roster file, empty), and running
    it again on the files it leaves gives the same table or the same
    exception. *)
Theorem on_calculate_repeatable (y m : Z) (ev : string) (s : storage) :
  on_calculate y m ev (snd (on_calculate y m ev s)) = on_calculate y m ev s
  /\ att_files (snd (on_calculate y m ev s)) = att_files s
  /\ fst (load_employees (snd (on_calculate y m ev s))) = fst (load_employees s).
Proof.
  destruct (business_days_in_month y m) as [wd | e] eqn:Hb.
  - rewrite (on_calculate_state y m wd ev s Hb).
    split; [| split].
    + destruct (business_days_month_days y m wd Hb) as [days Hd].
      destruct (gather_month_state y m s days Hd) as [Hg Hg'].
      unfold SalaryTab.on_calculate. rewrite Hb.
      fold (gather_month y m s). fold (gather_month y m (ensure_dirs s)).
      rewrite Hg, Hg'.
      destruct (fst (gather_days days ∅ s)) as [att | x]; [| reflexivity].
      now rewrite load_employees_ensure_dirs.
    + apply ensure_dirs_att_files.
    + now rewrite load_employees_ensure_dirs.
  - unfold SalaryTab.on_calculate. rewrite Hb. cbn [snd]. rewrite ?Hb.
    now repeat split.
Qed.

Lemma max0_not_negative (x : float) : (0 <=? max0 x)%float = true.
Proof.
  unfold max0. destruct (0 <? x)%float eqn:E; [| reflexivity].
  rewrite FloatAxioms.ltb_spec, Prim2SF_zero in E.
  rewrite FloatAxioms.leb_spec, Prim2SF_zero.
  destruct (Prim2SF x) as [| [] | | []]; cbn in *; try reflexivity; discriminate.
Qed.

(** X14: the net pay of every row of the salary table is a number that is
    not negative (never a NaN), whatever the base salary and the overtime
    of the files are. *)
Theorem net_pay_not_negative (y m : Z) (ev : string) (s s2 : storage)
  (rows : list salary_row) (row : salary_row) :
  on_calculate y m ev s = (Ok rows, s2) ->
  In row rows ->
  (0 <=? Net_Pay row)%float = true.
Proof.
  intros Hc Hin.
  destruct (on_calculate_rows float_of_string y m ev s s2 rows Hc)
    as (wd & att & s1 & month_str & _ & _ & ->).
  apply in_map_iff in Hin. destruct Hin as (emp & <- & _).
  unfold salary_row_of, salary_model. cbn [Net_Pay net].
  apply max0_not_negative.
Qed.

End SalaryTableMore.

Lemma net_pay_not_negative_witness :
  SalaryTab.on_calculate sample_float_of_string 2025 9 "" sample_storage
  = (Ok [ann_row; bob_row], sample_storage)
  /\ In ann_row [ann_row; bob_row]
  /\ (0 <=? SalaryTab.Net_Pay ann_row)%float = true.
Proof.
  assert (Hc : SalaryTab.on_calculate sample_float_of_string 2025 9 ""
                 sample_storage = (Ok [ann_row; bob_row], sample_storage))
    by (vm_compute; reflexivity).
  assert (Hin : In ann_row [ann_row; bob_row]) by (now left).
  split; [exact Hc | split; [exact Hin |]].
  apply (net_pay_not_negative sample_float_of_string 2025 9 "" sample_storage
           sample_storage [ann_row; bob_row] ann_row Hc Hin).
Defined.

Section SalaryTableRoster.
Import SalaryTab.
Variable float_of_string : string -> option float.

Abbreviation on_calculate := (on_calculate float_of_string).

Lemma filter_all {A : Type} (p : A -> bool) (l : list A) :
  (forall x, In x l -> p x = true) -> List.filter p l = l.
Proof.
  induction l as [| a l IH]; intros H; [reflexivity |].
  cbn [List.filter]. rewrite (H a) by now left.
  f_equal. apply IH. intros x Hx. apply H. now right.
Qed.

(** The employees behind the rows of a table that was computed. *)
Lemma on_calculate_roster (y m : Z) (ev : string) (s s2 : storage)
  (rows : list salary_row) :
  on_calculate y m ev s = (Ok rows, s2) ->
  exists wd att month_str,
    rows = map (salary_row_of month_str wd att)
             (List.filter (selected (strip ev)) (fst (load_employees s))).
Proof.
  intros Hc.
  destruct (on_calculate_rows float_of_string y m ev s s2 rows Hc)
    as (wd & att & s1 & month_str & Hwd & Hg & ->).
  destruct (gather_month_days float_of_string y m s s1 att Hg) as (days & Hd & _).
  destruct (gather_month_state float_of_string y m s days Hd) as [Hs _].
  rewrite Hs in Hg. inversion Hg; subst s1.
  exists wd, att, month_str. now rewrite load_employees_ensure_dirs.
Qed.

(** X15: with a blank filter the salary table has one row for every
    employee of the roster file, in the order of the file, with the id, the
    name and the base salary of the employee; with a filter it has the rows
    of the employees whose id is the filter (stripped) and no other; an
    empty roster gives an empty table. *)
Theorem on_calculate_rows_of_roster (y m : Z) (ev : string) (s s2 : storage)
  (rows : list salary_row) :
  on_calculate y m ev s = (Ok rows, s2) ->
  let roster := fst (load_employees s) in
  (strip ev = EmptyString ->
   map Emp_Id rows = map Employee.emp_id roster
   /\ map Name rows = map Employee.name roster
   /\ map Base_Salary rows = map Employee.base_salary roster)
  /\ (strip ev <> EmptyString ->
      map Emp_Id rows
      = List.filter (String.eqb (strip ev)) (map Employee.emp_id roster))
  /\ (roster = [] -> rows = []).
Proof.
  intros Hc roster.
  destruct (on_calculate_roster y m ev s s2 rows Hc) as (wd & att & ms & ->).
  fold roster. split; [| split].
  - intros He. rewrite filter_all.
    + rewrite !map_map. repeat split; reflexivity.
    + intros e _. unfold selected. now rewrite He.
  - intros He. rewrite map_map. cbn [salary_row_of Emp_Id].
    induction roster as [| e roster IH]; [reflexivity |].
    cbn [List.filter map]. unfold selected at 1.
    destruct (String.eqb_spec (strip ev) ""); [contradiction |]. cbn [negb andb].
    rewrite (String.eqb_sym (Employee.emp_id e)).
    destruct (String.eqb (strip ev) (Employee.emp_id e)); cbn [negb map];
      now rewrite IH.
  - now intros ->.
Qed.

End SalaryTableRoster.

Lemma on_calculate_rows_of_roster_witness :
  SalaryTab.on_calculate sample_float_of_string 2025 9 "" sample_storage
  = (Ok [ann_row; bob_row], sample_storage)
  /\ map SalaryTab.Emp_Id [ann_row; bob_row]
     = map Employee.emp_id (fst (load_employees sample_storage)).
Proof.
  assert (Hc : SalaryTab.on_calculate sample_float_of_string 2025 9 ""
                 sample_storage = (Ok [ann_row; bob_row], sample_storage))
    by (vm_compute; reflexivity).
  split; [exact Hc |].
  destruct (on_calculate_rows_of_roster sample_float_of_string 2025 9 ""
              sample_storage sample_storage [ann_row; bob_row] Hc) as (H & _).
  apply H. reflexivity.
Defined.

(** ** Employees tab, once more *)

Section EmployeesTabMore.
Import EmployeesTab.
Variable float_of_string : string -> option float.

Abbreviation _read_form := (_read_form float_of_string).
Abbreviation on_save_new := (on_save_new float_of_string).
Abbreviation on_update := (on_update float_of_string).

(** What a form that [_read_form] accepts looks like. *)
Lemma _read_form_inv (f rec : form) :
  _read_form f = inr rec ->
  emp_id rec = strip (emp_id f)
  /\ isdigit (emp_id rec) = true
  /\ name rec <> EmptyString
  /\ (exists b, float_of_string (base rec) = Some b /\ (b <? 0)%float = false)
  /\ (join_date rec = EmptyString \/ valid_date (join_date rec) = true)
  /\ (email rec = EmptyString \/ EMAIL_RE (email rec) = true)
  /\ (phone rec = EmptyString \/ isdigit (phone rec) = true).
Proof.
  unfold EmployeesTab._read_form.
  set (r := mk_form _ _ _ _ _ _ _ _).
  destruct (String.eqb_spec (emp_id r) ""); [discriminate |].
  destruct (isdigit (emp_id r)) eqn:Hd; [| discriminate]. cbn [negb].
  destruct (String.eqb_spec (name r) ""); [discriminate |].
  destruct (float_of_string (base r)) as [b |] eqn:Hb; [| discriminate].
  destruct (b <? 0)%float eqn:Hn; [discriminate |].
  destruct (String.eqb_spec (join_date r) "") as [Hj | Hj]; cbn [negb andb];
    [| destruct (valid_date (join_date r)) eqn:Hv; [| discriminate]];
    (destruct (String.eqb_spec (email r) "") as [He | He]; cbn [negb andb];
     [| destruct (EMAIL_RE (email r)) eqn:Hm; [| discriminate]]);
    (destruct (String.eqb_spec (phone r) "") as [Hp | Hp]; cbn [negb andb];
     [| destruct (isdigit (phone r)) eqn:Hq; [| discriminate]]);
    intros [= <-]; repeat split; eauto.
Qed.

Lemma id_taken_false (records : list Employee.t) (rec : form) :
  id_taken records rec = false -> ~ In (emp_id rec) (roster_ids records).
Proof.
  unfold id_taken, roster_ids. intros H Hin.
  apply in_map_iff in Hin. destruct Hin as (r & Hr & Hin).
  assert (Ht : existsb (fun r0 => String.eqb (Employee.emp_id r0) (emp_id rec))
                 records = true).
  { apply existsb_exists. exists r. split; [assumption |]. now apply String.eqb_eq. }
  congruence.
Qed.

(** X16: when [on_save_new] reports success, the roster in memory is the
    old one with one entry added at the end; the entry has the stripped id
    of the form, which no older entry has, an id of digits, a name and a
    base salary that is not negative; and the roster file, loaded again,
    is the roster in memory. *)
Theorem on_save_new_saved (f : form) (records records1 : list Employee.t)
  (s s1 : storage) (title text : string) :
  on_save_new f records s = (Ok (showinfo title text), records1, s1) ->
  exists e,
    records1 = records ++ [e]
    /\ Employee.emp_id e = strip (emp_id f)
    /\ ~ In (Employee.emp_id e) (roster_ids records)
    /\ well_formed_employee e
    /\ fst (load_employees s1) = records1.
Proof.
  unfold EmployeesTab.on_save_new.
  destruct (_read_form f) as [x | rec] eqn:Hf; [discriminate |].
  destruct (_read_form_inv f rec Hf) as (Hid & Hd & Hn & (b & Hb & Hb0) & _).
  destruct (id_taken records rec) eqn:Ht; [discriminate |].
  rewrite Hb. intros [= _ _ <- <-].
  eexists. split; [reflexivity |]. cbn [Employee.emp_id].
  split; [assumption | split; [now apply id_taken_false | split]].
  - now repeat split.
  - unfold load_employees.
    now rewrite (ensure_dirs_exists _ (Content (records ++ [_]))) by reflexivity.
Qed.

Lemma first_index_None (records : list Employee.t) (id : string) :
  first_index records id = None -> ~ In id (roster_ids records).
Proof.
  induction records as [| r records IH]; intros H Hin; [destruct Hin |].
  cbn [first_index] in H.
  destruct (String.eqb_spec (Employee.emp_id r) id) as [He | He]; [discriminate |].
  destruct (first_index records id); [discriminate |].
  destruct Hin as [Hin | Hin]; [contradiction | now apply IH].
Qed.

Lemma first_index_Some (records : list Employee.t) (id : string) (idx : nat) :
  first_index records id = Some idx ->
  exists r, nth_error records idx = Some r /\ Employee.emp_id r = id.
Proof.
  revert idx. induction records as [| r records IH]; intros idx H; [discriminate |].
  cbn [first_index] in H.
  destruct (String.eqb_spec (Employee.emp_id r) id) as [He | He].
  - inversion H; subst. now exists r.
  - destruct (first_index records id) as [i |]; [| discriminate].
    inversion H; subst. cbn [nth_error]. now apply IH.
Qed.

(** Putting an entry of the same id at an index changes neither the ids
    nor the length. *)
Lemma insert_same_id (records : list Employee.t) (idx : nat) (r e : Employee.t) :
  nth_error records idx = Some r ->
  Employee.emp_id e = Employee.emp_id r ->
  roster_ids (<[idx := e]> records) = roster_ids records
  /\ nth_error (<[idx := e]> records) idx = Some e.
Proof.
  unfold roster_ids.
  revert idx. induction records as [| r0 records IH]; intros idx Hn He.
  - now destruct idx.
  - destruct idx as [| idx]; cbn in Hn |- *.
    + inversion Hn; subst. now rewrite He.
    + destruct (IH idx Hn He) as [H1 H2]. split; [| assumption].
      f_equal. exact H1.
Qed.

(** X17: when [on_update] reports success, the first roster entry with the
    stripped id of the form has been replaced by the entry of the form; the
    ids of the roster and their order are as before; the new entry has a
    name and a base salary that is not negative; and the roster file, loaded
    again, is the roster in memory. *)
Theorem on_update_replaces (f : form) (records records1 : list Employee.t)
  (s s1 : storage) (title text : string) :
  on_update f records s = (Ok (showinfo title text), records1, s1) ->
  exists idx e,
    first_index records (strip (emp_id f)) = Some idx
    /\ records1 = <[idx := e]> records
    /\ nth_error records1 idx = Some e
    /\ Employee.emp_id e = strip (emp_id f)
    /\ well_formed_employee e
    /\ roster_ids records1 = roster_ids records
    /\ fst (load_employees s1) = records1.
Proof.
  unfold EmployeesTab.on_update.
  destruct (_read_form f) as [x | rec] eqn:Hf; [discriminate |].
  destruct (_read_form_inv f rec Hf) as (Hid & Hd & Hn & (b & Hb & Hb0) & _).
  destruct (first_index records (emp_id rec)) as [idx |] eqn:Hi; [| discriminate].
  rewrite Hb. intros [= _ _ <- <-].
  destruct (first_index_Some records (emp_id rec) idx Hi) as (r & Hr & Her).
  set (e := Employee.mk _ _ _ _ _ _ _ _).
  destruct (insert_same_id records idx r e Hr) as [Hids Hnth];
    [now rewrite Her |].
  exists idx, e. rewrite <- Hid.
  repeat split; try assumption; reflexivity.
Qed.

(** X18: [on_update] with an id that no roster entry has shows an error
    dialog and changes neither the roster in memory nor the files; nothing
    is added. *)
Theorem on_update_unknown_id (f : form) (records : list Employee.t)
  (s : storage) :
  ~ In (strip (emp_id f)) (roster_ids records) ->
  exists title text,
    on_update f records s = (Ok (showerror title text), records, s).
Proof.
  intros Hn. unfold EmployeesTab.on_update.
  destruct (_read_form f) as [x | rec] eqn:Hf; [now eexists _, _ |].
  destruct (_read_form_inv f rec Hf) as (Hid & _).
  destruct (first_index records (emp_id rec)) as [idx |] eqn:Hi;
    [| now eexists _, _].
  destruct (first_index_Some records (emp_id rec) idx Hi) as (r & Hr & Her).
  exfalso. apply Hn. rewrite <- Hid, <- Her. unfold roster_ids.
  apply in_map. now apply nth_error_In with idx.
Qed.

Lemma kept_spec (ids : list string) (r : Employee.t) :
  kept ids r = true <-> ~ In (Employee.emp_id r) ids.
Proof.
  unfold kept. rewrite negb_true_iff. split.
  - intros H Hin.
    assert (Ht : existsb (String.eqb (Employee.emp_id r)) ids = true).
    { apply existsb_exists. exists (Employee.emp_id r).
      split; [assumption | apply String.eqb_refl]. }
    congruence.
  - intros H. destruct (existsb _ ids) eqn:E; [| reflexivity].
    apply existsb_exists in E. destruct E as (x & Hx & He).
    apply String.eqb_eq in He. subst. contradiction.
Qed.

(** X19: [on_delete_selected] changes nothing when the answer to the
    confirmation is no or when no selected row has an id; when the answer
    is yes, exactly the roster entries whose id is among the selected ids
    are removed, the others stay in their order, and the roster file, loaded
    again, is the roster in memory. *)
Theorem on_delete_selected_effect (sel : list (list string)) (confirmed : bool)
  (records : list Employee.t) (s : storage) :
  let out := on_delete_selected sel confirmed records s in
  let records1 := snd (fst out) in
  let s1 := snd out in
  (confirmed = false \/ selected_ids sel = [] -> records1 = records /\ s1 = s)
  /\ (confirmed = true -> selected_ids sel <> [] ->
      records1 = List.filter (kept (selected_ids sel)) records
      /\ (forall r, In r records1
                    <-> In r records
                        /\ ~ In (Employee.emp_id r) (selected_ids sel))
      /\ fst (load_employees s1) = records1).
Proof.
  cbn zeta. unfold on_delete_selected.
  destruct sel as [| vals sel].
  - cbn. split; [now intros _ | now intros _ H].
  - destruct (selected_ids (vals :: sel)) as [| id ids] eqn:Hids.
    + cbn. split; [now intros _ | now intros _ H].
    + destruct confirmed; cbn [fst snd].
      * split; [intros [H | H]; discriminate |].
        intros _ _. split; [reflexivity | split].
        -- intros r. rewrite filter_In, kept_spec. reflexivity.
        -- unfold load_employees.
           now rewrite (ensure_dirs_exists _
                          (Content (List.filter (kept (id :: ids)) records)))
             by reflexivity.
      * split; [now intros _ | discriminate].
Qed.

(** X20: a roster without a repeated id has none after [on_save_new], after
    [on_update] and after [on_delete_selected], whatever their outcome. *)
Theorem roster_ids_stay_unique (records : list Employee.t) (s : storage) :
  NoDup (roster_ids records) ->
  (forall f, NoDup (roster_ids (snd (fst (on_save_new f records s)))))
  /\ (forall f, NoDup (roster_ids (snd (fst (on_update f records s)))))
  /\ (forall sel confirmed,
        NoDup (roster_ids
                 (snd (fst (on_delete_selected sel confirmed records s))))).
Proof.
  intros Hu. split; [| split].
  - intros f. unfold EmployeesTab.on_save_new.
    destruct (_read_form f) as [x | rec] eqn:Hf; [assumption |].
    destruct (id_taken records rec) eqn:Ht; [assumption |].
    destruct (float_of_string (base rec)); [| assumption]. cbn [fst snd].
    unfold roster_ids. rewrite map_app. cbn [map Employee.emp_id].
    apply NoDup_app. split; [assumption | split; [| apply NoDup_singleton]].
    intros x Hx Hx'. apply list_elem_of_In in Hx.
    apply list_elem_of_In in Hx'. destruct Hx' as [<- | []].
    now apply (id_taken_false records rec Ht).
  - intros f. unfold EmployeesTab.on_update.
    destruct (_read_form f) as [x | rec] eqn:Hf; [assumption |].
    destruct (first_index records (emp_id rec)) as [idx |] eqn:Hi; [| assumption].
    destruct (float_of_string (base rec)) as [b |]; [| assumption].
    cbn [fst snd].
    destruct (first_index_Some records (emp_id rec) idx Hi) as (r & Hr & Her).
    destruct (insert_same_id records idx r
                (Employee.mk (emp_id rec) (name rec) (dept rec) (role rec) b
                   (join_date rec) (phone rec) (email rec)) Hr) as [Hids _];
      [now rewrite Her |].
    now rewrite Hids.
  - intros sel confirmed. unfold on_delete_selected.
    destruct sel as [| vals sel]; [assumption |].
    destruct (selected_ids (vals :: sel)) as [| id ids]; [assumption |].
    destruct confirmed; [| assumption]. cbn [fst snd].
    unfold roster_ids in *. induction records as [| r records IH]; [constructor |].
    cbn [map] in Hu. apply NoDup_cons in Hu. destruct Hu as [Hr Hu].
    cbn [List.filter]. destruct (kept (id :: ids) r); [| now apply IH].
    cbn [map]. apply NoDup_cons. split; [| now apply IH].
    intros Hin. apply Hr. apply list_elem_of_In in Hin. apply list_elem_of_In.
    apply in_map_iff in Hin. destruct Hin as (x & Hx & Hin).
    apply filter_In in Hin. rewrite <- Hx. apply in_map. tauto.
Qed.

End EmployeesTabMore.

Lemma sample_roster_unique : NoDup (roster_ids [ann; bob]).
Proof.
  cbn. apply NoDup_cons. split; [| apply NoDup_singleton].
  intros Hin. apply list_elem_of_In in Hin. destruct Hin as [H | []].
  discriminate.
Qed.

Lemma on_save_new_saved_witness :
  EmployeesTab.on_save_new sample_float_of_string new_form [ann; bob]
    sample_storage
  = (Ok (showinfo "Saved" "Employee saved."), [ann; bob; eve],
     save_employees [ann; bob; eve] sample_storage)
  /\ exists e, [ann; bob; eve] = [ann; bob] ++ [e] /\ well_formed_employee e.
Proof.
  assert (H : EmployeesTab.on_save_new sample_float_of_string new_form [ann; bob]
                sample_storage
              = (Ok (showinfo "Saved" "Employee saved."), [ann; bob; eve],
                 save_employees [ann; bob; eve] sample_storage))
    by (vm_compute; reflexivity).
  split; [exact H |].
  destruct (on_save_new_saved sample_float_of_string new_form [ann; bob]
              [ann; bob; eve] sample_storage _ _ _ H) as (e & He & _ & _ & Hw & _).
  exists e. split; [exact He | exact Hw].
Defined.

Lemma on_update_replaces_witness :
  EmployeesTab.on_update sample_float_of_string bob_form [ann; bob]
    sample_storage
  = (Ok (showinfo "Updated" "Employee updated."), [ann; robert],
     save_employees [ann; robert] sample_storage)
  /\ roster_ids [ann; robert] = roster_ids [ann; bob].
Proof.
  assert (H : EmployeesTab.on_update sample_float_of_string bob_form [ann; bob]
                sample_storage
              = (Ok (showinfo "Updated" "Employee updated."), [ann; robert],
                 save_employees [ann; robert] sample_storage))
    by (vm_compute; reflexivity).
  split; [exact H |].
  destruct (on_update_replaces sample_float_of_string bob_form [ann; bob]
              [ann; robert] sample_storage _ _ _ H)
    as (idx & e & _ & _ & _ & _ & _ & Hids & _).
  exact Hids.
Defined.

Lemma on_update_unknown_id_witness :
  ~ In (strip (EmployeesTab.emp_id new_form)) (roster_ids [ann; bob])
  /\ exists title text,
       EmployeesTab.on_update sample_float_of_string new_form [ann; bob]
         sample_storage
       = (Ok (showerror title text), [ann; bob], sample_storage).
Proof.
  assert (H : ~ In (strip (EmployeesTab.emp_id new_form)) (roster_ids [ann; bob])).
  { cbn. intros [H | [H | []]]; discriminate. }
  split; [exact H |].
  apply (on_update_unknown_id sample_float_of_string new_form [ann; bob]
           sample_storage H).
Defined.

Lemma roster_ids_stay_unique_witness :
  NoDup (roster_ids [ann; bob])
  /\ NoDup (roster_ids
              (snd (fst (EmployeesTab.on_save_new sample_float_of_string
                           new_form [ann; bob] sample_storage)))).
Proof.
  split; [exact sample_roster_unique |].
  apply (roster_ids_stay_unique sample_float_of_string [ann; bob] sample_storage
           sample_roster_unique).
Defined.

(** ** Attendance tab, once more *)

Section AttendanceTabMore.
Import AttendanceTab.
Variable float_of_string : string -> option float.
Variable gethostbyname : option string.

Abbreviation persist := (persist float_of_string).
Abbreviation persisted_row := (persisted_row float_of_string).
Abbreviation overtime_to_save := (overtime_to_save float_of_string).
Abbreviation on_save_all := (on_save_all float_of_string).
Abbreviation on_load := (on_load gethostbyname).

(** X21: [on_load] changes no attendance file and no record of the roster;
    for a date that is not valid it shows an error dialog and keeps the
    rows in memory; for a malformed file of a valid date the decoder's
    exception escapes and the rows in memory stay. *)
Theorem on_load_keeps_files (date_str : string) (rows : list view_row)
  (s : storage) :
  let out := on_load date_str rows s in
  att_files (snd out) = att_files s
  /\ fst (load_employees (snd out)) = fst (load_employees s)
  /\ (valid_date (strip date_str) = false ->
      exists title text, out = (Ok (showerror title text), rows, s))
  /\ (valid_date (strip date_str) = true ->
      att_files s !! strip date_str = Some Malformed ->
      out = (Raise JSONDecodeError, rows, ensure_dirs s)).
Proof.
  cbn zeta. unfold AttendanceTab.on_load.
  destruct (valid_date (strip date_str)) eqn:Hv; cbn [negb].
  - destruct (att_files s !! strip date_str) as [[| l] |] eqn:Hf.
    + rewrite (load_attendance_malformed_state s _ Hf). cbn [snd].
      rewrite ensure_dirs_att_files, load_employees_ensure_dirs.
      repeat split. discriminate.
    + rewrite (load_attendance_content s _ l Hf), load_employees_ensure_dirs.
      destruct (load_employees s) as [emps s2] eqn:E.
      assert (Hs : s2 = ensure_dirs s)
        by (rewrite <- (load_employees_state s), E; reflexivity).
      subst s2. cbn [fst snd].
      rewrite ensure_dirs_att_files, load_employees_ensure_dirs, E.
      split; [reflexivity | split; [reflexivity | split]];
        [discriminate | intros _ H; discriminate H].
    + rewrite (load_attendance_missing s _ Hf), load_employees_ensure_dirs.
      destruct (load_employees s) as [emps s2] eqn:E.
      assert (Hs : s2 = ensure_dirs s)
        by (rewrite <- (load_employees_state s), E; reflexivity).
      subst s2. cbn [fst snd].
      rewrite ensure_dirs_att_files, load_employees_ensure_dirs, E.
      split; [reflexivity | split; [reflexivity | split]];
        [discriminate | intros _ H; discriminate H].
  - cbn [snd]. repeat split; [now eexists _, _ | discriminate].
Qed.

Lemma persist_inv (rows : list view_row) :
  forall p,
    persist rows = Ok p ->
    map Attendance.emp_id p = map Emp_Id rows
    /\ forall i r,
         nth_error rows i = Some r ->
         exists h,
           overtime_to_save r = Ok h
           /\ nth_error p i
              = Some (Attendance.mk (Emp_Id r) (Name r) (Some (Status r))
                        (Some (IP r)) (Some (PFloat h))).
Proof.
  induction rows as [| r rows IH]; intros p H.
  - cbn in H. inversion H; subst. split; [reflexivity |].
    intros [| i] r0 Hr; discriminate.
  - cbn [AttendanceTab.persist] in H. unfold AttendanceTab.persisted_row in H.
    destruct (overtime_to_save r) as [h | e] eqn:Hh; [| discriminate].
    cbn [bind] in H.
    destruct (persist rows) as [l | e] eqn:Hl; [| discriminate].
    cbn [bind] in H. inversion H; subst.
    destruct (IH l eq_refl) as [Hids Hn]. split.
    + cbn [map Attendance.emp_id]. now rewrite Hids.
    + intros [| i] r0 Hr; cbn [nth_error] in *.
      * inversion Hr; subst. now exists h.
      * now apply Hn.
Qed.

Lemma persist_raise (rows : list view_row) (r : view_row) (e : exn) :
  In r rows -> overtime_to_save r = Raise e ->
  exists e', persist rows = Raise e'.
Proof.
  intros Hin Hr. induction rows as [| r0 rows IH]; [destruct Hin |].
  cbn [AttendanceTab.persist]. unfold AttendanceTab.persisted_row.
  destruct (overtime_to_save r0) as [h | x] eqn:H0; cbn [bind];
    [| now exists x].
  destruct Hin as [-> | Hin]; [congruence |].
  destruct (IH Hin) as [e' ->]. cbn [bind]. now exists e'.
Qed.


End AttendanceTabMore.

Section AttendanceRoundTrip.
Import AttendanceTab.
Variable float_of_string : string -> option float.
Variable gethostbyname : option string.

Abbreviation persist := (persist float_of_string).
Abbreviation on_save_all := (on_save_all float_of_string).
Abbreviation on_load := (on_load gethostbyname).

Lemma existing_of_app (saved : list Attendance.row) (a : Attendance.row) :
  existing_of (saved ++ [a]) = <[Attendance.emp_id a := a]> (existing_of saved).
Proof. unfold existing_of. now rewrite fold_left_app. Qed.

(** Among records without a repeated id the dict finds every record under
    its id. *)
Lemma existing_of_unique (saved : list Attendance.row) :
  NoDup (map Attendance.emp_id saved) ->
  forall a, In a saved -> existing_of saved !! Attendance.emp_id a = Some a.
Proof.
  induction saved as [| x saved IH] using rev_ind; intros Hn a Hin;
    [destruct Hin |].
  rewrite existing_of_app. rewrite map_app in Hn.
  apply NoDup_app in Hn. destruct Hn as (Hn1 & Hn2 & _).
  apply in_app_or in Hin. destruct Hin as [Hin | [<- | []]].
  - rewrite lookup_insert_ne; [now apply IH |].
    intros He. apply (Hn2 (Attendance.emp_id a)).
    + apply list_elem_of_In. now apply in_map.
    + rewrite <- He. cbn. apply list_elem_of_In. now left.
  - apply lookup_insert_eq.
Qed.

Lemma merged_rows_reloaded (ex : gmap string Attendance.row) :
  forall rows emps p,
    persist rows = Ok p ->
    map (fun e => (Employee.emp_id e, Employee.name e)) emps
    = map (fun r => (Emp_Id r, Name r)) rows ->
    (forall a, In a p -> ex !! Attendance.emp_id a = Some a) ->
    map (merged_row gethostbyname ex) emps = map (reloaded float_of_string) rows.
Proof.
  induction rows as [| r rows IH]; intros emps p Hp Hm Hex.
  - destruct emps; [reflexivity | discriminate].
  - destruct emps as [| e emps]; [discriminate |].
    cbn [map] in Hm. inversion Hm as [[Hid Hname Hrest]].
    cbn [AttendanceTab.persist] in Hp. unfold persisted_row in Hp.
    destruct (overtime_to_save float_of_string r) as [h | x] eqn:Hh;
      [| discriminate].
    cbn [bind] in Hp.
    destruct (persist rows) as [l | x] eqn:Hl; [| discriminate].
    cbn [bind] in Hp. inversion Hp; subst p.
    cbn [map]. f_equal.
    + unfold merged_row, carried, reloaded. rewrite Hid, Hname, Hh.
      specialize (Hex _ (or_introl eq_refl)). cbn [Attendance.emp_id] in Hex.
      now rewrite Hex.
    + apply (IH emps l eq_refl Hrest). intros a Ha. apply Hex. now right.
Qed.


(** X24: the records that [on_save_all] makes of a table after
    [mark_all(status)] all carry that status; after Mark All Present every
    one of them counts as a day present for the month aggregation, after
    Mark All Absent none does. *)
Theorem mark_all_saved (status : string) (rows : list view_row)
  (p : list Attendance.row) :
  persist (mark_all status rows) = Ok p ->
  map Attendance.emp_id p = map Emp_Id rows
  /\ forall a,
       In a p ->
       Attendance.status a = Some (PStr status)
       /\ (status = "P"%string -> marked_present a = true)
       /\ (status = "A"%string -> marked_present a = false).
Proof.
  intros Hp. destruct (persist_inv float_of_string _ p Hp) as [Hids Hn].
  split.
  - rewrite Hids. unfold mark_all. now rewrite map_map.
  - intros a Ha. apply In_nth_error in Ha. destruct Ha as [i Hi].
    destruct (nth_error (mark_all status rows) i) as [r |] eqn:Hr.
    + destruct (Hn i r Hr) as (h & _ & Hpi).
      rewrite Hi in Hpi. inversion Hpi; subst a. cbn [Attendance.status].
      unfold mark_all in Hr. rewrite nth_error_map in Hr.
      destruct (nth_error rows i) as [r0 |]; [| discriminate].
      cbn in Hr. inversion Hr; subst r. cbn [Status].
      split; [reflexivity | split; intros ->; reflexivity].
    + exfalso. apply nth_error_None in Hr.
      assert (Hlen : List.length p = List.length (mark_all status rows)).
      { rewrite <- (length_map Attendance.emp_id p), Hids. apply length_map. }
      assert (i < List.length p)%nat by (apply nth_error_Some; congruence).
      lia.
Qed.

End AttendanceRoundTrip.

Lemma sample_view_unique : NoDup (map AttendanceTab.Emp_Id sample_view).
Proof.
  cbn. apply NoDup_cons. split; [| apply NoDup_singleton].
  intros Hin. apply list_elem_of_In in Hin. destruct Hin as [H | []].
  discriminate.
Qed.


Lemma mark_all_saved_witness :
  exists p,
    AttendanceTab.persist sample_float_of_string
      (AttendanceTab.mark_all "P" sample_view) = Ok p
    /\ map Attendance.emp_id p = ["1"; "2"]%string.
Proof.
  destruct (AttendanceTab.persist sample_float_of_string
              (AttendanceTab.mark_all "P" sample_view))
    as [p | e] eqn:Hp; [| vm_compute in Hp; discriminate].
  exists p. split; [reflexivity |].
  destruct (mark_all_saved sample_float_of_string "P" sample_view p Hp)
    as [Hids _].
  rewrite Hids. reflexivity.
Defined.

(** ** Calendar picker *)

Section CalendarPickerFacts.
Import CalendarPicker.

Lemma format_0d_4_table :
  forallb (fun k => String.eqb (format_0d 4 (Z.of_nat k)) (fmt4 (Z.of_nat k)))
    (seq 0 (Z.to_nat 10000)) = true.
Proof. vm_compute. reflexivity. Qed.

Lemma format_0d_2_table :
  forallb (fun k => String.eqb (format_0d 2 (Z.of_nat k)) (fmt2 (Z.of_nat k)))
    (seq 0 (Z.to_nat 100)) = true.
Proof. vm_compute. reflexivity. Qed.

(** A number that fits the width prints as its digits of fixed width. *)
Lemma format_0d_fmt4 (n : Z) : 0 <= n <= 9999 -> format_0d 4 n = fmt4 n.
Proof.
  intros H. pose proof format_0d_4_table as T.
  rewrite forallb_forall in T. specialize (T (Z.to_nat n)).
  rewrite Z2Nat.id in T by lia. apply String.eqb_eq, T, in_seq. lia.
Qed.

Lemma format_0d_fmt2 (n : Z) : 0 <= n <= 99 -> format_0d 2 n = fmt2 n.
Proof.
  intros H. pose proof format_0d_2_table as T.
  rewrite forallb_forall in T. specialize (T (Z.to_nat n)).
  rewrite Z2Nat.id in T by lia. apply String.eqb_eq, T, in_seq. lia.
Qed.

Lemma press_month (p : picker) (b : button) :
  1 <= month p <= 12 -> 1 <= month (press p b) <= 12.
Proof.
  intros H. destruct b; cbn [press]; unfold _prev_year, _next_year,
    _prev_month, _next_month; cbn [month]; try assumption.
  - destruct (Z.ltb_spec (month p - 1) 1); cbn [month]; lia.
  - destruct (Z.ltb_spec 12 (month p + 1)); cbn [month]; lia.
Qed.

(** X25: the arrow buttons of the calendar keep the month on display
    between 1 and 12, however they are pressed; the next-month button undoes
    the previous-month button and the other way round (across the turn of
    the year too), and so do the two year buttons. *)
Theorem picker_navigation (p : picker) (bs : list button) :
  1 <= month p <= 12 ->
  1 <= month (fold_left press bs p) <= 12
  /\ _next_month (_prev_month p) = p
  /\ _prev_month (_next_month p) = p
  /\ _next_year (_prev_year p) = p
  /\ _prev_year (_next_year p) = p.
Proof.
  intros H. split.
  - revert p H. induction bs as [| b bs IH]; intros p H; [assumption |].
    cbn [fold_left]. apply IH. now apply press_month.
  - destruct p as [y m]. cbn [month] in H.
    unfold _next_month, _prev_month, _next_year, _prev_year. cbn [year month].
    repeat split.
    + destruct (Z.ltb_spec (m - 1) 1); cbn [year month].
      * destruct (Z.ltb_spec 12 (12 + 1)); [| lia]. f_equal; lia.
      * destruct (Z.ltb_spec 12 (m - 1 + 1)); [lia |]. f_equal; lia.
    + destruct (Z.ltb_spec 12 (m + 1)); cbn [year month].
      * destruct (Z.ltb_spec (1 - 1) 1); [| lia]. f_equal; lia.
      * destruct (Z.ltb_spec (m + 1 - 1) 1); [lia |]. f_equal; lia.
    + f_equal; lia.
    + f_equal; lia.
Qed.

(** X26: the string that a day button of the calendar hands to the date
    entry is the text [YYYY-MM-DD] of that day (four digits, two and two),
    and [valid_date] accepts it, for every year from 1 to 9999 reached with
    the arrow buttons and every day that the month on display has. *)
Theorem picked_date_is_valid (p : picker) (bs : list button) (d : Z) :
  1 <= month p <= 12 ->
  let q := fold_left press bs p in
  1 <= year q <= 9999 ->
  1 <= d <= days_in_month (year q) (month q) ->
  _select q d = date_text (year q) (month q) d
  /\ valid_date (_select q d) = true.
Proof.
  intros Hm q Hy Hd.
  assert (Hq : 1 <= month q <= 12).
  { unfold q. clear Hy Hd q. revert p Hm.
    induction bs as [| b bs IH]; intros p H; [assumption |].
    cbn [fold_left]. apply IH. now apply press_month. }
  pose proof (days_in_month_bound (year q) (month q) Hq) as Hb.
  assert (E : _select q d = date_text (year q) (month q) d).
  { unfold _select, date_text.
    now rewrite format_0d_fmt4, !format_0d_fmt2 by lia. }
  split; [exact E |]. rewrite E. now apply valid_date_date_text.
Qed.

End CalendarPickerFacts.

Lemma picker_navigation_witness :
  1 <= CalendarPicker.month (CalendarPicker.mk_picker 2025 1) <= 12
  /\ CalendarPicker._next_month
       (CalendarPicker._prev_month (CalendarPicker.mk_picker 2025 1))
     = CalendarPicker.mk_picker 2025 1.
Proof.
  assert (H : 1 <= CalendarPicker.month (CalendarPicker.mk_picker 2025 1) <= 12)
    by (cbn; lia).
  split; [exact H |].
  apply (picker_navigation (CalendarPicker.mk_picker 2025 1) [] H).
Defined.

Lemma picked_date_is_valid_witness :
  valid_date
    (CalendarPicker._select
       (fold_left CalendarPicker.press
          [CalendarPicker.PrevMonth; CalendarPicker.PrevYear]
          (CalendarPicker.mk_picker 2025 1)) 31) = true.
Proof.
  apply (picked_date_is_valid (CalendarPicker.mk_picker 2025 1)
           [CalendarPicker.PrevMonth; CalendarPicker.PrevYear] 31);
    vm_compute; split; discriminate.
Defined.

(** ** The entries of the employee form *)

Section FormEntries.
Import EmployeesTab.

Lemma app_cons (c : ascii) (a b : string) :
  (String c a ++ b)%string = String c (a ++ b)%string.
Proof. reflexivity. Qed.

Lemma app_nil (b : string) : (EmptyString ++ b)%string = b.
Proof. reflexivity. Qed.

Lemma app_empty_r (a : string) : (a ++ EmptyString)%string = a.
Proof.
  induction a as [| x a IH]; [reflexivity |]. now rewrite app_cons, IH.
Qed.

Lemma app_assoc_string (a b c : string) :
  ((a ++ b) ++ c)%string = (a ++ (b ++ c))%string.
Proof.
  induction a as [| x a IH]; [reflexivity |].
  now rewrite !app_cons, IH.
Qed.

Lemma all_chars_app (p : ascii -> bool) (a b : string) :
  all_chars p (a ++ b) = all_chars p a && all_chars p b.
Proof.
  induction a as [| x a IH]; [reflexivity |].
  rewrite app_cons. cbn [all_chars]. rewrite IH. apply andb_assoc.
Qed.

(** [span] cuts the string after its longest prefix in the class. *)
Lemma span_spec (p : ascii -> bool) (s : string) :
  forall a b,
    span p s = (a, b) ->
    s = (a ++ b)%string /\ all_chars p a = true
    /\ (b = EmptyString \/ exists c b', b = String c b' /\ p c = false).
Proof.
  induction s as [| x s IH]; intros a b H.
  - cbn in H. inversion H; subst. repeat split. now left.
  - cbn [span] in H. destruct (p x) eqn:Hx.
    + destruct (span p s) as [a0 b0]. inversion H; subst.
      destruct (IH a0 b eq_refl) as (-> & Ha & Hb).
      rewrite app_cons. cbn [all_chars]. rewrite Hx, Ha. now repeat split.
    + inversion H; subst. repeat split. right. now exists x, s.
Qed.

Lemma span_all (p : ascii -> bool) (a : string) :
  all_chars p a = true -> span p a = (a, EmptyString).
Proof.
  induction a as [| x a IH]; [reflexivity |].
  cbn [all_chars span]. intros H. apply andb_prop in H. destruct H as [Hx Ha].
  now rewrite Hx, (IH Ha).
Qed.

Lemma span_stop (p : ascii -> bool) (a : string) (c : ascii) (b : string) :
  all_chars p a = true -> p c = false ->
  span p (a ++ String c b) = (a, String c b).
Proof.
  induction a as [| x a IH]; intros Ha Hc.
  - rewrite app_nil. cbn [span]. now rewrite Hc.
  - cbn [all_chars] in Ha. apply andb_prop in Ha. destruct Ha as [Hx Ha].
    rewrite app_cons. cbn [span]. now rewrite Hx, (IH Ha Hc).
Qed.

Lemma dot_before_end_inv (t : string) :
  dot_before_end t = true ->
  exists x c y, t = (x ++ String "."%char (String c y))%string.
Proof.
  induction t as [| a t IH]; [discriminate |].
  destruct t as [| b t]; [discriminate |].
  cbn [dot_before_end]. intros H. apply orb_prop in H. destruct H as [H | H].
  - apply Ascii.eqb_eq in H. subst. now exists EmptyString, b, t.
  - destruct (IH H) as (x & c & y & E). exists (String a x), c, y.
    now rewrite app_cons, <- E.
Qed.

Lemma dot_before_end_app (x : string) (c : ascii) (y : string) :
  dot_before_end (x ++ String "."%char (String c y)) = true.
Proof.
  induction x as [| a x IH]; [reflexivity |].
  rewrite app_cons.
  destruct (x ++ String "."%char (String c y))%string as [| b t] eqn:E;
    [discriminate |].
  cbn [dot_before_end]. cbn [dot_before_end] in IH.
  rewrite IH. apply orb_true_r.
Qed.

(** X27: among the strings of ASCII characters, [EMAIL_RE] accepts exactly
    those of its pattern: a non-empty local part, one ["@"], then two
    non-empty parts around a ["."], all made of characters that are neither
    ["@"] nor white space, with at most one final newline. *)
Theorem EMAIL_RE_iff (s : string) :
  ascii_text s = true -> EMAIL_RE s = true <-> email_shape s.
Proof.
  intros _. unfold EMAIL_RE, email_shape. split.
  - destruct (span email_char s) as [loc r] eqn:Hs.
    destruct (span_spec _ _ _ _ Hs) as (-> & Hloc & _).
    intros H. apply andb_prop in H. destruct H as [Hne H].
    destruct r as [| at_ d]; [discriminate |].
    apply andb_prop in H. destruct H as [Hat H].
    apply Ascii.eqb_eq in Hat. subst at_.
    destruct (span email_char d) as [dom tail] eqn:Hd.
    destruct (span_spec _ _ _ _ Hd) as (-> & Hdom & _).
    apply andb_prop in H. destruct H as [Htail H].
    destruct dom as [| c0 tl]; [discriminate |].
    destruct (dot_before_end_inv tl H) as (x & c1 & y & ->).
    cbn [all_chars] in Hdom. rewrite all_chars_app in Hdom.
    cbn [all_chars] in Hdom.
    rewrite !andb_true_iff in Hdom.
    destruct Hdom as (H0 & Hx & _ & H1 & Hy).
    exists loc, (String c0 x), (String c1 y), tail.
    split; [| split; [| split; [discriminate | split; [discriminate |]]]].
    + now rewrite !app_cons, app_assoc_string, !app_cons.
    + intros ->. discriminate.
    + split; [assumption | split; [| split]].
      * cbn [all_chars]. now rewrite H0, Hx.
      * cbn [all_chars]. now rewrite H1, Hy.
      * apply orb_prop in Htail. destruct Htail as [Ht | Ht];
          apply String.eqb_eq in Ht; auto.
  - intros (loc & b & c & tail & -> & Hl & Hb & Hc & Hloc & Hbb & Hcc & Ht).
    rewrite span_stop by (assumption || reflexivity).
    destruct (String.eqb_spec loc ""); [contradiction |]. cbn [negb andb].
    rewrite Ascii.eqb_refl. cbn [andb].
    destruct b as [| c0 x]; [contradiction |].
    destruct c as [| c1 y]; [contradiction |].
    assert (Hd : span email_char
                   (String c0 x ++ String "."%char (String c1 y ++ tail))
                 = (String c0 (x ++ String "."%char (String c1 y)), tail)).
    { replace (String c0 x ++ String "." (String c1 y ++ tail))%string
        with ((String c0 (x ++ String "."%char (String c1 y))) ++ tail)%string
        by (now rewrite !app_cons, app_assoc_string, !app_cons).
      assert (Ha : all_chars email_char
                     (String c0 (x ++ String "."%char (String c1 y))) = true).
      { cbn [all_chars] in *. apply andb_prop in Hbb. destruct Hbb as [H0 Hx].
        rewrite H0, all_chars_app, Hx. cbn [all_chars andb]. exact Hcc. }
      destruct Ht as [-> | ->].
      - rewrite app_empty_r. exact (span_all _ _ Ha).
      - unfold newline. now rewrite span_stop. }
    rewrite Hd, dot_before_end_app.
    destruct Ht as [-> | ->]; reflexivity.
Qed.

(** No character that [str.isdigit] accepts is white space. *)
Lemma digit_not_space (c : ascii) : is_digit_char c = true -> is_space c = false.
Proof.
  destruct c as [[] [] [] [] [] [] [] []]; vm_compute; intros H;
    (reflexivity || discriminate H).
Qed.

Lemma rstrip_digits (t : string) :
  all_chars is_digit_char t = true -> rstrip t = t.
Proof.
  induction t as [| c t IH]; [reflexivity |].
  cbn [all_chars rstrip]. intros H. apply andb_prop in H. destruct H as [Hc Ht].
  rewrite (IH Ht), (digit_not_space c Hc). now destruct t.
Qed.

(** Digits are left alone by [strip]. *)
Lemma strip_digits (t : string) :
  all_chars is_digit_char t = true -> strip t = t.
Proof.
  intros H. unfold strip.
  assert (E : lstrip t = t).
  { destruct t as [| c t]; [reflexivity |]. cbn [all_chars] in H.
    apply andb_prop in H. destruct H as [Hc _]. cbn [lstrip].
    now rewrite (digit_not_space c Hc). }
  rewrite E. now apply rstrip_digits.
Qed.

Lemma _vc_digits_strip (t : string) :
  _vc_digits t = true -> strip t = t /\ (t = EmptyString \/ isdigit t = true).
Proof.
  unfold _vc_digits. intros H. apply orb_prop in H. destruct H as [H | H].
  - split; [| now right]. unfold isdigit in H. apply andb_prop in H.
    apply strip_digits. tauto.
  - apply String.eqb_eq in H. subst. split; [reflexivity | now left].
Qed.

(** X28: an id and a phone number that the key validators of their entries
    let through never make [_read_form] complain about a non-numeric id or
    about a phone number that is not made of digits: what is typed there is
    empty or digits, and [strip] leaves digits alone. *)
Theorem validated_entries_are_numeric (float_of_string : string -> option float)
  (f : form) :
  _vc_digits (emp_id f) = true ->
  _vc_phone (phone f) = true ->
  _read_form float_of_string f <> inl "Employee ID must be numeric."%string
  /\ _read_form float_of_string f <> inl "Phone must contain digits only."%string.
Proof.
  intros Hi Hp.
  destruct (_vc_digits_strip _ Hi) as [Ei Di].
  destruct (_vc_digits_strip _ Hp) as [Ep Dp].
  unfold _read_form. cbn [emp_id phone name base join_date email].
  rewrite Ei, Ep.
  destruct Di as [-> | ->]; [split; discriminate |].
  destruct (String.eqb (emp_id f) ""); [split; discriminate |]. cbn [negb].
  destruct (String.eqb (strip (name f)) ""); [split; discriminate |].
  destruct (match float_of_string (strip (base f)) with
            | Some bs => (bs <? 0)%float
            | None => true
            end); [split; discriminate |].
  destruct (negb (String.eqb (strip (join_date f)) "")
            && negb (valid_date (strip (join_date f))));
    [split; discriminate |].
  destruct (negb (String.eqb (strip (email f)) "")
            && negb (EMAIL_RE (strip (email f)))); [split; discriminate |].
  destruct Dp as [-> | ->]; cbn [String.eqb negb andb];
    rewrite ?andb_false_r; split; discriminate.
Qed.

End FormEntries.

Lemma EMAIL_RE_iff_witness :
  ascii_text "eve@example.org" = true /\ email_shape "eve@example.org".
Proof.
  split; [reflexivity |].
  destruct (EMAIL_RE_iff "eve@example.org" eq_refl) as [H _].
  apply H. reflexivity.
Defined.

Lemma validated_entries_are_numeric_witness :
  EmployeesTab._vc_digits (EmployeesTab.emp_id new_form) = true
  /\ EmployeesTab._vc_phone (EmployeesTab.phone new_form) = true
  /\ EmployeesTab._read_form sample_float_of_string new_form
     <> inl "Employee ID must be numeric."%string.
Proof.
  split; [reflexivity | split; [reflexivity |]].
  apply (validated_entries_are_numeric sample_float_of_string new_form);
    reflexivity.
Defined.

(** ** The JSON files *)

Section JsonStrings.
Import Json.

Lemma skip_ws_stop (c : ascii) (t : string) :
  is_ws c = false -> skip_ws (String c t) = String c t.
Proof. intros H. cbn [skip_ws]. now rewrite H. Qed.

Lemma skip_ws_spaces (n : nat) (t : string) :
  skip_ws (spaces n ++ t) = skip_ws t.
Proof.
  induction n as [| n IH]; [reflexivity |].
  cbn [spaces]. rewrite !app_cons. cbn [skip_ws].
  change (is_ws " ") with true. cbn iota. exact IH.
Qed.

Lemma skip_ws_newline_indent (n : nat) (t : string) :
  skip_ws (newline_indent n ++ t) = skip_ws t.
Proof.
  unfold newline_indent. rewrite app_cons. cbn [skip_ws].
  change (is_ws "010") with true. cbn iota. apply skip_ws_spaces.
Qed.

(** Reading an escaped character gives the character. *)
Lemma scanstring_escape (c : ascii) (t : string) :
  scanstring (escape c ++ t) = push c (scanstring t).
Proof. destruct c as [[] [] [] [] [] [] [] []]; reflexivity. Qed.

(** Reading a printed string gives the string and what follows it. *)
Lemma scanstring_escape_all (s rest : string) :
  scanstring (escape_all s ++ String quote rest) = Got s rest.
Proof.
  induction s as [| c s IH]; [reflexivity |].
  cbn [escape_all]. rewrite app_assoc_string, scanstring_escape, IH.
  reflexivity.
Qed.

Lemma encode_str_app (s rest : string) :
  (encode_str s ++ rest)%string
  = String quote (escape_all s ++ String quote rest).
Proof.
  unfold encode_str. now rewrite app_cons, app_assoc_string, app_cons.
Qed.

End JsonStrings.

Section JsonNumbers.
Import Json.

Lemma digits_closes (r : string) : closes r -> digits r = (EmptyString, r).
Proof. intros (c & t & -> & [-> | ->]); reflexivity. Qed.

Lemma digits_ext (s r a b : string) :
  closes r -> digits s = (a, b) -> digits (s ++ r) = (a, (b ++ r)%string).
Proof.
  intros Hr. revert a b. unfold digits.
  induction s as [| x s IH]; intros a b H.
  - cbn in H. injection H as <- <-. rewrite ?app_nil. now apply digits_closes.
  - rewrite app_cons. cbn [EmployeesTab.span] in *.
    destruct (is_digit x).
    + destruct (EmployeesTab.span is_digit s) as [a0 b0].
      injection H as <- <-. now rewrite (IH a0 b0 eq_refl).
    + injection H as <- <-. now rewrite ?app_nil, ?app_cons.
Qed.

Lemma digits_parts (s a b : string) :
  digits s = (a, b) -> s = (a ++ b)%string.
Proof. intros H. now destruct (span_spec _ _ _ _ H) as (-> & _). Qed.

Lemma match_frac_ext (s r a b : string) :
  closes r -> match_frac s = (a, b) ->
  match_frac (s ++ r) = (a, (b ++ r)%string).
Proof.
  intros Hr H. pose proof Hr as (c & t & -> & Hc).
  destruct s as [| x [| d s]].
  - cbn in H. injection H as <- <-. rewrite ?app_nil.
    destruct Hc as [-> | ->]; now destruct t.
  - cbn in H. injection H as <- <-. rewrite ?app_nil, ?app_cons, app_nil.
    unfold match_frac. destruct Hc as [-> | ->];
      now rewrite andb_false_r.
  - rewrite !app_cons. unfold match_frac in *.
    destruct (Ascii.eqb x "." && is_digit d).
    + destruct (digits s) as [a0 b0] eqn:E.
      rewrite (digits_ext s _ a0 b0 Hr E). now injection H as <- <-.
    + injection H as <- <-. now rewrite ?app_nil, ?app_cons.
Qed.

Lemma match_frac_parts (s a b : string) :
  match_frac s = (a, b) -> s = (a ++ b)%string.
Proof.
  unfold match_frac. destruct s as [| x [| d s]]; try (now intros [= <- <-]).
  destruct (Ascii.eqb x "." && is_digit d); [| now intros [= <- <-]].
  destruct (digits s) as [a0 b0] eqn:E. intros [= <- <-].
  now rewrite !app_cons, <- (digits_parts s a0 b0 E).
Qed.

Lemma match_exp_ext (s r a b : string) :
  closes r -> match_exp s = (a, b) ->
  match_exp (s ++ r) = (a, (b ++ r)%string).
Proof.
  intros Hr H. pose proof Hr as (c & t & -> & Hc).
  destruct s as [| e s].
  - cbn in H. injection H as <- <-. rewrite ?app_nil.
    destruct Hc as [-> | ->]; reflexivity.
  - rewrite app_cons. unfold match_exp in *.
    destruct (Ascii.eqb e "e" || Ascii.eqb e "E");
      [| inversion H; subst; now rewrite ?app_nil, ?app_cons].
    destruct s as [| x s].
    + injection H as <- <-. rewrite ?app_nil.
      destruct Hc as [-> | ->]; now rewrite ?app_cons.
    + rewrite app_cons.
      destruct (Ascii.eqb x "+" || Ascii.eqb x "-").
      * destruct s as [| d s].
        -- injection H as <- <-. rewrite ?app_nil.
           destruct Hc as [-> | ->]; now rewrite ?app_cons.
        -- rewrite app_cons. destruct (is_digit d).
           ++ destruct (digits s) as [a0 b0] eqn:E.
              rewrite (digits_ext s _ a0 b0 Hr E). now injection H as <- <-.
           ++ injection H as <- <-. now rewrite ?app_nil, ?app_cons.
      * destruct (is_digit x).
        -- destruct (digits s) as [a0 b0] eqn:E.
           rewrite (digits_ext s _ a0 b0 Hr E). now injection H as <- <-.
        -- injection H as <- <-. now rewrite ?app_nil, ?app_cons.
Qed.

Lemma match_exp_parts (s a b : string) :
  match_exp s = (a, b) -> s = (a ++ b)%string.
Proof.
  unfold match_exp. destruct s as [| e s]; [now intros [= <- <-] |].
  destruct (Ascii.eqb e "e" || Ascii.eqb e "E"); [| now intros [= <- <-]].
  destruct s as [| x s]; [now intros [= <- <-] |].
  destruct (Ascii.eqb x "+" || Ascii.eqb x "-").
  - destruct s as [| d s]; [now intros [= <- <-] |].
    destruct (is_digit d); [| now intros [= <- <-]].
    destruct (digits s) as [a0 b0] eqn:E. intros [= <- <-].
    now rewrite !app_cons, app_nil, !app_cons, <- (digits_parts s a0 b0 E).
  - destruct (is_digit x); [| now intros [= <- <-]].
    destruct (digits s) as [a0 b0] eqn:E. intros [= <- <-].
    now rewrite !app_cons, app_nil, !app_cons, <- (digits_parts s a0 b0 E).
Qed.

Lemma unsigned_part_ext (sign : string) (c : ascii) (t r a b : string) :
  closes r -> unsigned_part sign c t = Some (a, b) ->
  unsigned_part sign c (t ++ r) = Some (a, (b ++ r)%string).
Proof.
  intros Hr. unfold unsigned_part.
  destruct (Ascii.eqb c "0"); [now intros [= <- <-] |].
  destruct (is_digit c); [| discriminate].
  destruct (digits t) as [a0 b0] eqn:E.
  rewrite (digits_ext t r a0 b0 Hr E). now intros [= <- <-].
Qed.

Lemma unsigned_part_parts (sign : string) (c : ascii) (t a b : string) :
  unsigned_part sign c t = Some (a, b) ->
  (sign ++ String c t)%string = (a ++ b)%string.
Proof.
  unfold unsigned_part. destruct (Ascii.eqb_spec c "0").
  - subst. intros [= <- <-]. now rewrite app_assoc_string.
  - destruct (is_digit c); [| discriminate].
    destruct (digits t) as [a0 b0] eqn:E. intros [= <- <-].
    now rewrite app_assoc_string, app_cons, <- (digits_parts t a0 b0 E).
Qed.

Lemma match_integer_ext (s r a b : string) :
  closes r -> match_integer s = Some (a, b) ->
  match_integer (s ++ r) = Some (a, (b ++ r)%string).
Proof.
  intros Hr. unfold match_integer.
  destruct s as [| x s]; [discriminate |]. rewrite app_cons.
  destruct (Ascii.eqb x "-").
  - destruct s as [| c t]; [discriminate |]. rewrite app_cons.
    now apply unsigned_part_ext.
  - now apply unsigned_part_ext.
Qed.

Lemma match_integer_parts (s a b : string) :
  match_integer s = Some (a, b) -> s = (a ++ b)%string.
Proof.
  unfold match_integer.
  destruct s as [| x s]; [discriminate |].
  destruct (Ascii.eqb_spec x "-").
  - subst. destruct s as [| c t]; [discriminate |].
    intros H. now rewrite <- (unsigned_part_parts _ _ _ _ _ H).
  - intros H. now rewrite <- (unsigned_part_parts _ _ _ _ _ H).
Qed.

Lemma match_number_ext (s r i fe b : string) :
  closes r -> match_number s = Some (i, fe, b) ->
  match_number (s ++ r) = Some (i, fe, (b ++ r)%string).
Proof.
  intros Hr. unfold match_number.
  destruct (match_integer s) as [[i0 s1] |] eqn:Ei; [| discriminate].
  rewrite (match_integer_ext s r i0 s1 Hr Ei).
  destruct (match_frac s1) as [fr s2] eqn:Ef.
  rewrite (match_frac_ext s1 r fr s2 Hr Ef).
  destruct (match_exp s2) as [ex s3] eqn:Ee.
  rewrite (match_exp_ext s2 r ex s3 Hr Ee).
  now intros [= <- <- <-].
Qed.

Lemma match_number_parts (s i fe b : string) :
  match_number s = Some (i, fe, b) -> s = (i ++ fe ++ b)%string.
Proof.
  unfold match_number.
  destruct (match_integer s) as [[i0 s1] |] eqn:Ei; [| discriminate].
  destruct (match_frac s1) as [fr s2] eqn:Ef.
  destruct (match_exp s2) as [ex s3] eqn:Ee.
  intros [= <- <- <-].
  rewrite (match_integer_parts s i0 s1 Ei), (match_frac_parts s1 fr s2 Ef),
    (match_exp_parts s2 ex s3 Ee).
  now rewrite !app_assoc_string.
Qed.

(** A number starts with a digit or with a minus sign. *)
Lemma match_number_head (s : string) :
  match_number s <> None ->
  exists c t, s = String c t /\ (is_digit c = true \/ c = "-"%char).
Proof.
  unfold match_number, match_integer.
  destruct s as [| c t]; [now intros [] |].
  intros H. exists c, t. split; [reflexivity |].
  destruct (Ascii.eqb_spec c "-"); [now right | left].
  unfold unsigned_part in H.
  destruct (Ascii.eqb_spec c "0"); [now subst |].
  destruct (is_digit c); [reflexivity | now destruct H].
Qed.

End JsonNumbers.

Section JsonScalars.
Import Json.
Variable float_repr : float -> string.
Variable float_of_string : string -> option float.

Lemma uint_text (d : Decimal.uint) :
  all_chars is_digit (NilEmpty.string_of_uint d) = true.
Proof. induction d; cbn [NilEmpty.string_of_uint all_chars]; auto. Qed.

(** The digits of a positive number start with a digit that is not 0. *)
Lemma pos_text (p : positive) :
  exists a ds,
    NilZero.string_of_uint (Pos.to_uint p) = String a ds
    /\ is_digit a = true /\ a <> "0"%char /\ all_chars is_digit ds = true.
Proof.
  pose proof (DecimalPos.Unsigned.to_of (Pos.to_uint p)) as N.
  rewrite DecimalPos.Unsigned.of_to in N. change (N.to_uint (N.pos p))
    with (Pos.to_uint p) in N.
  pose proof (DecimalPos.Unsigned.to_uint_nonzero p) as Z0.
  pose proof (uint_text (Pos.to_uint p)) as D.
  destruct (Pos.to_uint p) as [| d | d | d | d | d | d | d | d | d | d] eqn:E;
    [now destruct (DecimalPos.Unsigned.to_uint_nonnil p) | |
     cbn in D; eexists _, _;
     (split; [reflexivity | split; [reflexivity | split; [discriminate | exact D]]]) ..].
  exfalso. unfold Decimal.unorm in N. rewrite DecimalFacts.nzhead_D0 in N.
  destruct (Decimal.nzhead d) as [| u | u | u | u | u | u | u | u | u | u] eqn:Hd;
    try discriminate.
  - injection N as ->. now apply Z0.
  - now apply (DecimalFacts.nzhead_nonzero d u).
Qed.

Lemma int_repr_cases (z : Z) :
  int_repr z = "0"%string
  \/ exists sign a ds,
       int_repr z = (sign ++ String a ds)%string
       /\ (sign = EmptyString \/ sign = "-"%string)
       /\ is_digit a = true /\ a <> "0"%char /\ all_chars is_digit ds = true.
Proof.
  unfold int_repr. destruct z as [| p | p]; [now left | right | right];
    destruct (pos_text p) as (a & ds & E & Ha & Hz & Hd); cbn [Z.to_int
      NilZero.string_of_int]; rewrite E.
  - exists EmptyString, a, ds. auto.
  - exists "-"%string, a, ds. auto.
Qed.

Lemma digit_not_minus (a : ascii) : is_digit a = true -> Ascii.eqb a "-" = false.
Proof.
  destruct a as [[] [] [] [] [] [] [] []]; vm_compute; intros H;
    (reflexivity || discriminate H).
Qed.

Lemma match_number_int (z : Z) :
  match_number (int_repr z) = Some (int_repr z, EmptyString, EmptyString).
Proof.
  destruct (int_repr_cases z) as [-> | (sign & a & ds & -> & Hs & Ha & Hz & Hd)];
    [reflexivity |].
  assert (U : forall sg, unsigned_part sg a ds
                         = Some ((sg ++ String a ds)%string, EmptyString)).
  { intros sg. unfold unsigned_part, digits.
    destruct (Ascii.eqb_spec a "0"); [contradiction |].
    now rewrite Ha, (span_all _ _ Hd). }
  unfold match_number, match_integer.
  destruct Hs as [-> | ->].
  - rewrite app_nil, (digit_not_minus a Ha), U. reflexivity.
  - rewrite app_cons, app_nil. change (Ascii.eqb "-" "-") with true.
    cbv beta iota. rewrite U. reflexivity.
Qed.

Lemma parse_int_repr (z : Z) : int_fits z = true -> parse_int (int_repr z) = Ok z.
Proof.
  unfold int_fits, parse_int. intros H.
  assert (E : match int_repr z with
              | String c t => if Ascii.eqb c "-" then t else int_repr z
              | EmptyString => int_repr z
              end = int_repr (Z.abs z)).
  { unfold int_repr. destruct z as [| p | p]; [reflexivity | |].
    - destruct (pos_text p) as (a & ds & Ep & Ha & _ & _).
      cbn [Z.to_int NilZero.string_of_int Z.abs]. rewrite Ep.
      now rewrite (digit_not_minus a Ha).
    - reflexivity. }
  rewrite E. apply Nat.leb_le in H.
  destruct (Nat.ltb_spec max_str_digits (String.length (int_repr (Z.abs z))));
    [lia |].
  unfold int_repr. rewrite NilZero.isi.
  - now rewrite DecimalZ.of_to.
  - destruct z as [| p | p]; cbn; try discriminate.
    intros [= Hp]. now apply (DecimalPos.Unsigned.to_uint_nonnil p).
  - destruct z as [| p | p]; cbn; try discriminate.
    intros [= Hp]. now apply (DecimalPos.Unsigned.to_uint_nonnil p).
Qed.

Lemma prefix_app (name r : string) : String.prefix name (name ++ r) = true.
Proof.
  induction name as [| c name IH]; [now destruct r |].
  rewrite app_cons. cbn [String.prefix].
  destruct (ascii_dec c c); [exact IH | contradiction].
Qed.

Lemma drop_app (name r : string) : drop (String.length name) (name ++ r) = r.
Proof.
  induction name as [| c name IH]; [now destruct r |].
  rewrite app_cons. exact IH.
Qed.

Lemma constant_app {A} (name : string) (v : A) (r : string) (o : parsed A) :
  constant name v (name ++ r) o = Got v r.
Proof. unfold constant. now rewrite prefix_app, drop_app. Qed.

(** The only NaN and the two infinities. *)
Lemma SFeqb_refl (x : spec_float) : x <> S754_nan -> SFeqb x x = true.
Proof.
  unfold SFeqb, SFcompare. destruct x as [[] | [] | | [] m e]; intros H;
    try reflexivity; try (now destruct H);
    now rewrite Z.compare_refl, Pos.compare_cont_refl.
Qed.

Lemma float_nan (f : float) : (f =? f)%float = false -> f = nan.
Proof.
  rewrite FloatAxioms.eqb_spec. intros H. apply Prim2SF_inj.
  change (Prim2SF nan) with S754_nan.
  destruct (Prim2SF f) as [s | s | | s m e]; try reflexivity;
    rewrite SFeqb_refl in H by discriminate; discriminate H.
Qed.

Lemma float_infinity (f : float) (s : bool) :
  SFeqb (Prim2SF f) (S754_infinity s) = true ->
  Prim2SF f = S754_infinity s.
Proof.
  unfold SFeqb, SFcompare.
  destruct (Prim2SF f) as [s0 | [] | | [] m e], s; intros H;
    try reflexivity; discriminate H.
Qed.

Lemma float_pos_infinity (f : float) : (f =? infinity)%float = true -> f = infinity.
Proof.
  rewrite FloatAxioms.eqb_spec. intros H. apply Prim2SF_inj.
  now apply float_infinity.
Qed.

Lemma float_neg_infinity (f : float) :
  (f =? neg_infinity)%float = true -> f = neg_infinity.
Proof.
  rewrite FloatAxioms.eqb_spec. intros H. apply Prim2SF_inj.
  now apply float_infinity.
Qed.

(** A text that starts with a digit or a minus sign is scanned as a
    number. *)
Lemma scan_once_number (d : nat) (c : ascii) (t : string) :
  is_digit c = true \/ c = "-"%char ->
  scan_once float_of_string (S d) (String c t)
  = and_then (scan_number float_of_string (String c t))
      (fun v r => Got (Scalar v) r).
Proof.
  intros H.
  destruct c as [[] [] [] [] [] [] [] []];
    try reflexivity; exfalso; destruct H as [H | H]; discriminate H.
Qed.

Lemma scan_number_int (z : Z) (r : string) :
  int_fits z = true -> closes r ->
  scan_number float_of_string (int_repr z ++ r) = Got (PInt z) r.
Proof.
  intros Hz Hr. unfold scan_number.
  rewrite (match_number_ext _ r _ _ _ Hr (match_number_int z)).
  cbn [String.eqb]. now rewrite (parse_int_repr z Hz), app_nil.
Qed.

Lemma scan_number_float (f : float) (r : string) :
  float_text (float_repr f) = true ->
  float_of_string (float_repr f) = Some f ->
  closes r ->
  scan_number float_of_string (float_repr f ++ r) = Got (PFloat f) r.
Proof.
  unfold float_text. intros Ht Hf Hr. unfold scan_number.
  destruct (match_number (float_repr f)) as [[[i fe] b] |] eqn:E;
    [| discriminate].
  destruct b; [| discriminate].
  rewrite (match_number_ext _ r _ _ _ Hr E), app_nil.
  apply match_number_parts in E. rewrite app_empty_r in E.
  destruct (String.eqb fe ""); [discriminate |].
  now rewrite <- E, Hf.
Qed.

Lemma scan_once_number_text (d : nat) (text r : string) :
  match_number (text ++ r) <> None ->
  scan_once float_of_string (S d) (text ++ r)
  = and_then (scan_number float_of_string (text ++ r))
      (fun v r => Got (Scalar v) r).
Proof.
  intros H. destruct (match_number_head _ H) as (c & t & -> & Hc).
  now apply scan_once_number.
Qed.

(** Reading a printed scalar gives the scalar and what follows it. *)
Lemma scan_once_scalar (d : nat) (v : pyval) (r : string) :
  prints_back float_repr float_of_string v -> closes r ->
  scan_once float_of_string (S d) (encode_scalar float_repr v ++ r)
  = Got (Scalar v) r.
Proof.
  intros Hv Hr. destruct v as [| [] | z | f | s]; cbn [encode_scalar].
  - cbn [scan_once]. rewrite !app_cons. cbn [Ascii.eqb]. cbv beta iota.
    rewrite <- !app_cons. now rewrite constant_app.
  - cbn [scan_once]. rewrite !app_cons. cbn [Ascii.eqb]. cbv beta iota.
    rewrite <- !app_cons. unfold constant at 1. cbn [String.prefix].
    now rewrite constant_app.
  - cbn [scan_once]. rewrite !app_cons. cbn [Ascii.eqb]. cbv beta iota.
    rewrite <- !app_cons. unfold constant at 1 2. cbn [String.prefix].
    now rewrite constant_app.
  - cbn in Hv. rewrite scan_once_number_text.
    + now rewrite (scan_number_int z r Hv Hr).
    + now rewrite (match_number_ext _ r _ _ _ Hr (match_number_int z)).
  - unfold encode_float. unfold prints_back, is_number in Hv.
    destruct (f =? f)%float eqn:En; cbn [negb].
    + destruct (f =? infinity)%float eqn:Ep.
      * apply float_pos_infinity in Ep. subst f.
        cbn [scan_once]. rewrite !app_cons. cbn [Ascii.eqb]. cbv beta iota.
        rewrite <- !app_cons. unfold constant at 1 2 3. cbn [String.prefix].
        unfold scan_number. rewrite !app_cons. cbn [match_number match_integer
          Ascii.eqb unsigned_part is_digit]. cbv beta iota.
        rewrite <- !app_cons. unfold constant at 1. cbn [String.prefix].
        now rewrite constant_app.
      * destruct (f =? neg_infinity)%float eqn:Em.
        -- apply float_neg_infinity in Em. subst f.
           cbn [scan_once]. rewrite !app_cons. cbn [Ascii.eqb]. cbv beta iota.
           rewrite <- !app_cons. unfold constant at 1 2 3. cbn [String.prefix].
           unfold scan_number. rewrite !app_cons. cbn [match_number
             match_integer Ascii.eqb unsigned_part is_digit]. cbv beta iota.
           rewrite <- !app_cons. unfold constant at 1 2. cbn [String.prefix].
           now rewrite constant_app.
        -- destruct (Hv eq_refl) as [Ht Hf].
           rewrite scan_once_number_text.
           ++ now rewrite (scan_number_float f r Ht Hf Hr).
           ++ unfold float_text in Ht.
              destruct (match_number (float_repr f)) as [[[i fe] b] |] eqn:E;
                [| discriminate].
              now rewrite (match_number_ext _ r _ _ _ Hr E).
    + apply float_nan in En. subst f.
      cbn [scan_once]. rewrite !app_cons. cbn [Ascii.eqb]. cbv beta iota.
      rewrite <- !app_cons. unfold constant at 1 2 3. cbn [String.prefix].
      unfold scan_number. rewrite !app_cons. cbn [match_number match_integer
        Ascii.eqb unsigned_part is_digit]. cbv beta iota.
      rewrite <- !app_cons. now rewrite constant_app.
  - rewrite encode_str_app. cbn [scan_once]. rewrite Ascii.eqb_refl.
    now rewrite scanstring_escape_all.
Qed.

End JsonScalars.

Section JsonTables.
Import Json.
Variable float_repr : float -> string.
Variable float_of_string : string -> option float.

Abbreviation member_text := (member_text float_repr).
Abbreviation good := (dict_prints_back float_repr float_of_string).

Lemma length_app (a b : string) :
  String.length (a ++ b) = (String.length a + String.length b)%nat.
Proof.
  induction a as [| c a IH]; [reflexivity |].
  rewrite app_cons. cbn [String.length]. now rewrite IH.
Qed.

Lemma join_cons (sep x : string) (y : string) (l : list string) :
  join sep (x :: y :: l) = (x ++ sep ++ join sep (y :: l))%string.
Proof. reflexivity. Qed.

Lemma length_join (sep : string) (l : list string) :
  (forall x, In x l -> (1 <= String.length x)%nat) ->
  (List.length l <= String.length (join sep l))%nat.
Proof.
  induction l as [| x [| y l] IH]; intros H.
  - cbn. lia.
  - cbn. apply (H x). now left.
  - rewrite join_cons, !length_app. cbn [List.length] in *.
    assert (1 <= String.length x)%nat by (apply H; now left).
    assert (S (List.length l) <= String.length (join sep (y :: l)))%nat
      by (apply IH; intros z Hz; apply H; now right).
    lia.
Qed.

(** A printed scalar does not start with white space. *)
Lemma skip_ws_scalar (v : pyval) (r : string) :
  prints_back float_repr float_of_string v -> closes r ->
  skip_ws (encode_scalar float_repr v ++ r) = (encode_scalar float_repr v ++ r)%string.
Proof.
  intros Hv Hr.
  pose proof (scan_once_scalar float_repr float_of_string 0 v r Hv Hr) as H.
  destruct (encode_scalar float_repr v ++ r)%string as [| c t] eqn:E;
    [reflexivity |].
  apply skip_ws_stop.
  destruct (is_ws c) eqn:W; [| reflexivity]. exfalso.
  destruct c as [[] [] [] [] [] [] [] []]; try discriminate W;
    vm_compute in H; discriminate H.
Qed.

Lemma closes_comma (t : string) : closes (String "," t).
Proof. exists ","%char, t. auto. Qed.

Lemma closes_newline_indent (n : nat) (t : string) :
  closes (newline_indent n ++ t).
Proof.
  unfold newline_indent. rewrite app_cons. eexists _, _. split; [reflexivity |].
  now right.
Qed.

(** Reading the printed members of a dict of scalars. *)
Lemma members_flat (d level : nat) (r : string) (ms : list (string * pyval)) :
  forall fuel,
    ms <> [] ->
    (List.length ms <= fuel)%nat ->
    (forall kv, In kv ms -> prints_back float_repr float_of_string (snd kv)) ->
    members (scan_once float_of_string (S d)) fuel
      (join (String "," (newline_indent (S level))) (map member_text ms)
       ++ newline_indent level ++ String "}" r)
    = Got (map (fun kv => (fst kv, Scalar (snd kv))) ms) r.
Proof.
  induction ms as [| [k v] ms IH]; intros fuel Hne Hf Hp; [contradiction |].
  destruct fuel as [| f]; [cbn in Hf; lia |].
  assert (Hv : prints_back float_repr float_of_string v)
    by (apply (Hp (k, v)); now left).
  assert (Step : forall R,
            closes R ->
            members (scan_once float_of_string (S d)) (S f)
              (member_text (k, v) ++ R)
            = match skip_ws R with
              | String c' r3 =>
                  if Ascii.eqb c' "}" then Got [(k, Scalar v)] r3
                  else if Ascii.eqb c' ","
                       then and_then
                              (members (scan_once float_of_string (S d)) f
                                 (skip_ws r3))
                              (fun kvs r4 => Got ((k, Scalar v) :: kvs) r4)
                       else Bad JSONDecodeError
              | EmptyString => Bad JSONDecodeError
              end).
  { intros R HR. unfold member_text. cbn [fst snd].
    rewrite !app_assoc_string, encode_str_app.
    cbn [members]. rewrite Ascii.eqb_refl, scanstring_escape_all.
    cbn [and_then]. rewrite !app_cons, app_nil.
    cbn [skip_ws]. change (is_ws ":") with false. cbv beta iota.
    change (Ascii.eqb ":" ":") with true. cbv beta iota.
    cbn [skip_ws]. change (is_ws " ") with true. cbv beta iota.
    rewrite (skip_ws_scalar v R Hv HR).
    rewrite (scan_once_scalar float_repr float_of_string d v R Hv HR).
    reflexivity. }
  destruct ms as [| kv2 ms].
  - cbn [map join]. rewrite Step by apply closes_newline_indent.
    rewrite skip_ws_newline_indent. cbn [skip_ws].
    change (is_ws "}") with false. cbv beta iota.
    now change (Ascii.eqb "}" "}") with true.
  - cbn [map]. rewrite join_cons, !app_assoc_string, !app_cons.
    rewrite Step by apply closes_comma.
    cbn [skip_ws]. change (is_ws ",") with false. cbv beta iota.
    change (Ascii.eqb "," "}") with false.
    change (Ascii.eqb "," ",") with true. cbv beta iota.
    rewrite skip_ws_newline_indent.
    assert (Q : forall X, skip_ws (join (String "," (newline_indent (S level)))
                                     (map member_text (kv2 :: ms)) ++ X)
                          = (join (String "," (newline_indent (S level)))
                               (map member_text (kv2 :: ms)) ++ X)%string).
    { intros X. cbn [map]. destruct (map member_text ms);
        [cbn [join] | rewrite join_cons, !app_assoc_string];
        unfold member_text; rewrite !app_assoc_string, encode_str_app;
        now apply skip_ws_stop. }
    rewrite Q.
    rewrite (IH f); [reflexivity | discriminate | cbn in Hf |- *; lia |].
    intros kv Hin. apply Hp. now right.
Qed.


Lemma set_item_new (k : string) (v : value) (d : list (string * value)) :
  ~ In k (map fst d) -> set_item k v d = d ++ [(k, v)].
Proof.
  induction d as [| [k' v'] d IH]; intros H; [reflexivity |].
  cbn [set_item]. destruct (String.eqb_spec k' k) as [E | E].
  - exfalso. apply H. now left.
  - cbn [app]. rewrite IH; [reflexivity |]. intros Hin. apply H. now right.
Qed.

Lemma dict_of_pairs (kvs acc : list (string * value)) :
  List.NoDup (map fst (acc ++ kvs)) ->
  fold_left (fun d kv => set_item (fst kv) (snd kv) d) kvs acc = acc ++ kvs.
Proof.
  revert acc. induction kvs as [| [k v] kvs IH]; intros acc H.
  - cbn. now rewrite app_nil_r.
  - cbn [fold_left fst snd]. rewrite set_item_new.
    + rewrite IH; rewrite <- app_assoc; [reflexivity | exact H].
    + rewrite map_app in H. apply List.NoDup_remove_2 in H.
      intros Hin. apply H. apply in_or_app. now left.
Qed.

(** A dict with pairwise different keys is the dict of its pairs. *)
Lemma dict_of_nodup (kvs : list (string * value)) :
  List.NoDup (map fst kvs) -> dict_of kvs = kvs.
Proof. intros H. unfold dict_of. now rewrite dict_of_pairs. Qed.

Lemma encode_flat (level : nat) (ms : list (string * pyval)) :
  encode float_repr level (flat ms)
  = block "{" "}" level (map member_text ms).
Proof.
  unfold flat. cbn [encode]. f_equal. rewrite map_map.
  apply map_ext. now intros [k v].
Qed.

Lemma member_text_length (kv : string * pyval) :
  (1 <= String.length (member_text kv))%nat.
Proof.
  unfold member_text, encode_str. rewrite app_cons. cbn [String.length]. lia.
Qed.

(** Reading a printed dict of scalars gives the dict and what follows
    it. *)
Lemma scan_once_flat (d level : nat) (r : string) (ms : list (string * pyval)) :
  (forall kv, In kv ms -> prints_back float_repr float_of_string (snd kv)) ->
  List.NoDup (map fst ms) ->
  scan_once float_of_string (S (S d)) (encode float_repr level (flat ms) ++ r)
  = Got (flat ms) r.
Proof.
  intros Hp Hk. rewrite encode_flat.
  destruct ms as [| kv ms]; [reflexivity |].
  set (texts := map member_text (kv :: ms)).
  replace (block "{" "}" level texts ++ r)%string
    with (String "{" (newline_indent (S level)
                      ++ join (String "," (newline_indent (S level))) texts
                      ++ newline_indent level ++ String "}" r))
    by (unfold texts; cbn [map block];
        now rewrite !app_cons, !app_assoc_string, !app_cons, app_nil).
  set (body := (join (String "," (newline_indent (S level))) texts
                ++ newline_indent level ++ String "}" r)%string).
  assert (Hb : exists t, body = String quote t).
  { unfold body, texts. cbn [map].
    destruct (map member_text ms);
      [cbn [join] | rewrite join_cons, !app_assoc_string];
      unfold member_text; rewrite !app_assoc_string, encode_str_app;
      eexists; reflexivity. }
  assert (Hs : skip_ws (newline_indent (S level) ++ body) = body).
  { rewrite skip_ws_newline_indent. destruct Hb as (t & ->).
    now apply skip_ws_stop. }
  assert (Hl : (List.length (kv :: ms)
                <= String.length (newline_indent (S level) ++ body))%nat).
  { rewrite length_app. unfold body. rewrite length_app.
    pose proof (length_join (String "," (newline_indent (S level))) texts) as L.
    assert (H : forall x, In x texts -> (1 <= String.length x)%nat).
    { intros y Hy. unfold texts in Hy. apply in_map_iff in Hy.
      destruct Hy as (kv0 & <- & _). apply member_text_length. }
    specialize (L H). unfold texts in L at 1. rewrite length_map in L. lia. }
  cbn [scan_once]. change (Ascii.eqb "{" quote) with false.
  change (Ascii.eqb "{" "{") with true. cbv beta iota. rewrite Hs.
  destruct Hb as (t & Hb). rewrite Hb.
  change (Ascii.eqb quote "}") with false. cbv beta iota. rewrite <- Hb.
  unfold body, texts.
  rewrite (members_flat d level r (kv :: ms)); [| discriminate | | exact Hp].
  - cbn [and_then]. rewrite dict_of_nodup; [reflexivity |].
    rewrite map_map. cbn [fst]. exact Hk.
  - exact Hl.
Qed.

Lemma flat_text_head (level : nat) (ms : list (string * pyval)) :
  exists t, encode float_repr level (flat ms) = String "{" t.
Proof.
  rewrite encode_flat. unfold block.
  destruct (map member_text ms); eexists; reflexivity.
Qed.

Lemma joined_head (level : nat) (sep : string)
  (ms : list (string * pyval)) (t : list (list (string * pyval))) (X : string) :
  exists u,
    (join sep (map (fun ms => encode float_repr level (flat ms)) (ms :: t)) ++ X)%string
    = String "{" u.
Proof.
  destruct (flat_text_head level ms) as (u & Hu). cbn [map].
  destruct (map (fun ms => encode float_repr level (flat ms)) t);
    [cbn [join] | rewrite join_cons]; rewrite Hu, app_cons;
    eexists; reflexivity.
Qed.

(** Reading the printed items of a list of dicts of scalars. *)
Lemma items_table (d level : nat) (r : string) (t : list (list (string * pyval))) :
  forall fuel,
    t <> [] ->
    (List.length t <= fuel)%nat ->
    (forall ms, In ms t -> good ms) ->
    items (scan_once float_of_string (S (S d))) fuel
      (join (String "," (newline_indent (S level)))
         (map (fun ms => encode float_repr (S level) (flat ms)) t)
       ++ newline_indent level ++ String "]" r)
    = Got (map flat t) r.
Proof.
  induction t as [| ms t IH]; intros fuel Hne Hf Hg; [contradiction |].
  destruct fuel as [| f]; [cbn in Hf; lia |].
  destruct (Hg ms (or_introl eq_refl)) as [Hp Hk].
  destruct t as [| ms2 t].
  - cbn [map join items].
    rewrite (scan_once_flat d (S level) _ ms Hp Hk). cbn [and_then].
    rewrite skip_ws_newline_indent. cbn [skip_ws].
    change (is_ws "]") with false. cbv beta iota.
    now change (Ascii.eqb "]" "]") with true.
  - cbn [map]. rewrite join_cons, !app_assoc_string, !app_cons. cbn [items].
    rewrite (scan_once_flat d (S level) _ ms Hp Hk). cbn [and_then].
    cbn [skip_ws]. change (is_ws ",") with false. cbv beta iota.
    change (Ascii.eqb "," "]") with false.
    change (Ascii.eqb "," ",") with true. cbv beta iota.
    rewrite skip_ws_newline_indent.
    change (encode float_repr (S level) (flat ms2)
            :: map (fun ms0 => encode float_repr (S level) (flat ms0)) t)
      with (map (fun ms0 => encode float_repr (S level) (flat ms0)) (ms2 :: t)).
    destruct (joined_head (S level) (String "," (newline_indent (S level))) ms2 t
                (newline_indent level ++ String "]" r)) as (u & Hu).
    rewrite Hu. rewrite skip_ws_stop by reflexivity. rewrite <- Hu.
    rewrite (IH f); [reflexivity | discriminate | cbn in Hf |- *; lia |].
    intros ms0 Hin. apply Hg. now right.
Qed.

(** Reading a printed list of dicts of scalars gives the list. *)
Lemma scan_once_table (d level : nat) (r : string)
  (t : list (list (string * pyval))) :
  (forall ms, In ms t -> good ms) ->
  scan_once float_of_string (S (S (S d))) (encode float_repr level (table t) ++ r)
  = Got (table t) r.
Proof.
  intros Hg. unfold table. cbn [encode]. rewrite map_map.
  destruct t as [| ms t]; [reflexivity |].
  set (texts := map (fun ms0 => encode float_repr (S level) (flat ms0)) (ms :: t)).
  replace (block "[" "]" level texts ++ r)%string
    with (String "[" (newline_indent (S level)
                      ++ join (String "," (newline_indent (S level))) texts
                      ++ newline_indent level ++ String "]" r))
    by (unfold texts; cbn [map block];
        now rewrite !app_cons, !app_assoc_string, !app_cons, app_nil).
  set (body := (join (String "," (newline_indent (S level))) texts
                ++ newline_indent level ++ String "]" r)%string).
  destruct (joined_head (S level) (String "," (newline_indent (S level))) ms t
              (newline_indent level ++ String "]" r)) as (u & Hu).
  fold texts in Hu. fold body in Hu.
  assert (Hs : skip_ws (newline_indent (S level) ++ body) = body).
  { rewrite skip_ws_newline_indent, Hu. now apply skip_ws_stop. }
  assert (Hl : (List.length (ms :: t)
                <= String.length (newline_indent (S level) ++ body))%nat).
  { rewrite length_app. unfold body. rewrite length_app.
    pose proof (length_join (String "," (newline_indent (S level))) texts) as L.
    assert (H : forall x, In x texts -> (1 <= String.length x)%nat).
    { intros y Hy. unfold texts in Hy. apply in_map_iff in Hy.
      destruct Hy as (ms0 & <- & _).
      destruct (flat_text_head (S level) ms0) as (w & ->).
      cbn [String.length]. lia. }
    specialize (L H). unfold texts in L at 1. rewrite length_map in L. lia. }
  cbn [scan_once]. change (Ascii.eqb "[" quote) with false.
  change (Ascii.eqb "[" "{") with false.
  change (Ascii.eqb "[" "[") with true. cbv beta iota. rewrite Hs.
  rewrite Hu. change (Ascii.eqb "{" "]") with false. cbv beta iota.
  rewrite <- Hu. unfold body, texts.
  rewrite (items_table d level r (ms :: t)); [reflexivity | discriminate | | exact Hg].
  exact Hl.
Qed.

(** [json.load] of what [json.dump] writes for a list of dicts of scalars
    is that list. *)
Lemma load_dump_table (t : list (list (string * pyval))) :
  (forall ms, In ms t -> good ms) ->
  dump float_repr (table t) = Ok (encode float_repr 0 (table t))
  /\ load float_of_string (encode float_repr 0 (table t)) = Got (table t) EmptyString.
Proof.
  intros Hg. split.
  - unfold dump. replace (ints_fit (table t)) with true; [reflexivity |].
    symmetry. unfold table. cbn [ints_fit]. apply forallb_forall.
    intros v Hv. apply in_map_iff in Hv. destruct Hv as (ms & <- & Hms).
    unfold flat. cbn [ints_fit]. apply forallb_forall.
    intros kv Hkv. apply in_map_iff in Hkv. destruct Hkv as ([k x] & <- & Hx).
    cbn [snd]. destruct (Hg ms Hms) as [Hp _]. specialize (Hp (k, x) Hx).
    destruct x; try reflexivity. exact Hp.
  - unfold load.
    assert (Hh : exists c u, encode float_repr 0 (table t) = String c u
                             /\ is_ws c = false).
    { unfold table. cbn [encode]. unfold block.
      destruct (map _ _); eexists _, _; split; reflexivity. }
    destruct Hh as (c & u & Hh & Hc).
    rewrite Hh, (skip_ws_stop c u Hc), <- Hh.
    rewrite <- (app_empty_r (encode float_repr 0 (table t))).
    change depth_limit with (S (S (S 61))).
    now rewrite (scan_once_table 61 0 EmptyString t Hg).
Qed.

End JsonTables.

Section JsonRecords.
Import Json Records.
Variable float_repr : float -> string.
Variable float_of_string : string -> option float.

Lemma of_row_flat (r : Attendance.row) : of_row r = flat (row_members r).
Proof.
  unfold of_row, row_members, flat.
  now destruct (Attendance.status r), (Attendance.ip r), (Attendance.overtime r).
Qed.

Lemma of_rows_table (rows : list Attendance.row) :
  of_rows rows = table (map row_members rows).
Proof.
  unfold of_rows, table. f_equal. rewrite map_map.
  apply map_ext. apply of_row_flat.
Qed.

Lemma of_employees_table (records : list Employee.t) :
  of_employees records = table (map employee_members records).
Proof. unfold of_employees, table. now rewrite map_map. Qed.

Lemma row_members_good (r : Attendance.row) :
  row_prints_back float_repr float_of_string r ->
  dict_prints_back float_repr float_of_string (row_members r).
Proof.
  intros H. unfold row_prints_back in H. split.
  - intros [k v] Hin. unfold row_members in Hin. cbn [snd].
    destruct Hin as [[= <- <-] | [[= <- <-] | Hin]]; try exact I.
    destruct (Attendance.status r) as [st |] eqn:Es,
             (Attendance.ip r) as [i |] eqn:Ei,
             (Attendance.overtime r) as [o |] eqn:Eo;
      cbn in Hin;
      repeat match goal with
             | Hq : _ \/ _ |- _ => destruct Hq as [Hq | Hq]
             | Hq : (_, _) = (_, _) |- _ => injection Hq as <- <-
             | Hq : False |- _ => destruct Hq
             end;
      apply H; cbn; auto.
  - unfold row_members.
    destruct (Attendance.status r), (Attendance.ip r), (Attendance.overtime r);
      cbn; repeat constructor; cbn; intuition discriminate.
Qed.

Lemma employee_members_good (e : Employee.t) :
  prints_back float_repr float_of_string (PFloat (Employee.base_salary e)) ->
  dict_prints_back float_repr float_of_string (employee_members e).
Proof.
  intros H. split.
  - intros [k v] Hin. unfold employee_members in Hin. cbn [snd].
    repeat match goal with
           | Hq : In _ (_ :: _) |- _ => destruct Hq as [Hq | Hq]
           | Hq : (_, _) = (_, _) |- _ => injection Hq as <- <-
           | Hq : In _ [] |- _ => destruct Hq
           end; try exact I. exact H.
  - cbn. repeat constructor; cbn; intuition discriminate.
Qed.

Lemma to_row_of_row (r : Attendance.row) : to_row (of_row r) = Some r.
Proof.
  destruct r as [e n [st |] [i |] [o |]]; reflexivity.
Qed.

Lemma to_employee_of_employee (e : Employee.t) :
  to_employee (of_employee e) = Some e.
Proof. now destruct e. Qed.

Lemma all_some_map {A B} (f : A -> option B) (g : B -> A) (l : list B) :
  (forall b, f (g b) = Some b) -> all_some (map f (map g l)) = Some l.
Proof.
  intros H. induction l as [| b l IH]; [reflexivity |].
  cbn [map all_some]. now rewrite H, IH.
Qed.

(** The records that the text of a dumped list of records stands for. *)
Lemma file_of_dumped_rows (rows : list Attendance.row) :
  (forall r, In r rows -> row_prints_back float_repr float_of_string r) ->
  dump float_repr (of_rows rows) = Ok (encode float_repr 0 (of_rows rows))
  /\ file_of_text float_of_string to_row (encode float_repr 0 (of_rows rows))
     = Some (Content rows).
Proof.
  intros H. rewrite of_rows_table.
  destruct (load_dump_table float_repr float_of_string (map row_members rows))
    as [Hd Hl].
  { intros ms Hin. apply in_map_iff in Hin. destruct Hin as (r & <- & Hr).
    apply row_members_good. now apply H. }
  split; [exact Hd |]. unfold file_of_text. rewrite Hl.
  rewrite <- of_rows_table. unfold of_rows, to_list.
  now rewrite (all_some_map to_row of_row rows to_row_of_row).
Qed.

Lemma file_of_dumped_employees (records : list Employee.t) :
  (forall e, In e records ->
             prints_back float_repr float_of_string
               (PFloat (Employee.base_salary e))) ->
  dump float_repr (of_employees records)
  = Ok (encode float_repr 0 (of_employees records))
  /\ file_of_text float_of_string to_employee
       (encode float_repr 0 (of_employees records))
     = Some (Content records).
Proof.
  intros H. rewrite of_employees_table.
  destruct (load_dump_table float_repr float_of_string
              (map employee_members records)) as [Hd Hl].
  { intros ms Hin. apply in_map_iff in Hin. destruct Hin as (e & <- & He).
    apply employee_members_good. now apply H. }
  split; [exact Hd |]. unfold file_of_text. rewrite Hl.
  rewrite <- of_employees_table. unfold of_employees, to_list.
  now rewrite (all_some_map to_employee of_employee records
                 to_employee_of_employee).
Qed.

(** The storage after [save_attendance] and after [save_employees]. *)
Lemma save_attendance_lookup (day : string) (rows : list Attendance.row)
  (s : storage) :
  att_files (save_attendance day rows s) !! day = Some (Content rows).
Proof. rewrite save_attendance_files. cbn [att_files]. apply lookup_insert_eq. Qed.

Lemma load_saved_attendance (day : string) (rows : list Attendance.row)
  (s : storage) :
  load_attendance day (save_attendance day rows s)
  = (Ok rows, save_attendance day rows s).
Proof.
  rewrite (load_attendance_content _ day rows (save_attendance_lookup day rows s)).
  f_equal. rewrite save_attendance_files. reflexivity.
Qed.

(** C9: for a date that [valid_date] accepts and records whose scalars can
    be printed and read back, [json.dump] writes a text of which
    [json.load] makes exactly the records that were saved; this is what the
    file of the day holds after [save_attendance], and [load_attendance]
    of that day returns those records, unchanged and in their order. *)
Theorem save_load_attendance (day : string) (rows : list Attendance.row)
  (s : storage) :
  valid_date day = true ->
  (forall r, In r rows -> row_prints_back float_repr float_of_string r) ->
  exists text,
    dump float_repr (of_rows rows) = Ok text
    /\ file_of_text float_of_string to_row text = Some (Content rows)
    /\ att_files (save_attendance day rows s) !! day
       = file_of_text float_of_string to_row text
    /\ load_attendance day (save_attendance day rows s)
       = (Ok rows, save_attendance day rows s).
Proof.
  intros _ Hp. destruct (file_of_dumped_rows rows Hp) as [Hd Hf].
  exists (encode float_repr 0 (of_rows rows)).
  split; [exact Hd | split; [exact Hf | split]].
  - rewrite Hf. apply save_attendance_lookup.
  - apply load_saved_attendance.
Qed.

(** X1: for roster entries whose base salary can be printed and read
    back, [json.dump] writes a text of which [json.load] makes exactly the
    entries that were saved; this is what the roster file holds after
    [save_employees], [load_employees] returns those entries, and the
    attendance of every day loads as before the save. *)
Theorem save_load_employees (records : list Employee.t) (s : storage) :
  (forall e, In e records ->
             prints_back float_repr float_of_string
               (PFloat (Employee.base_salary e))) ->
  exists text,
    dump float_repr (of_employees records) = Ok text
    /\ file_of_text float_of_string to_employee text = Some (Content records)
    /\ emp_file (save_employees records s)
       = file_of_text float_of_string to_employee text
    /\ load_employees (save_employees records s)
       = (records, save_employees records s)
    /\ forall day,
         fst (load_attendance day (save_employees records s))
         = fst (load_attendance day s).
Proof.
  intros Hp. destruct (file_of_dumped_employees records Hp) as [Hd Hf].
  exists (encode float_repr 0 (of_employees records)).
  split; [exact Hd | split; [exact Hf | split; [| split]]].
  - rewrite Hf. reflexivity.
  - unfold load_employees.
    rewrite (ensure_dirs_exists (save_employees records s) (Content records))
      by reflexivity.
    reflexivity.
  - intros day. unfold load_attendance.
    rewrite !ensure_dirs_att_files. unfold save_employees. cbn [att_files].
    rewrite ensure_dirs_att_files.
    now destruct (att_files s !! day) as [[| l] |].
Qed.

End JsonRecords.

Lemma save_load_attendance_witness :
  valid_date "2025-09-01" = true
  /\ exists text,
       Json.dump sample_float_repr (Records.of_rows monday_rows) = Ok text
       /\ Records.file_of_text sample_float Records.to_row text
          = Some (Content monday_rows).
Proof.
  split; [reflexivity |].
  destruct (save_load_attendance sample_float_repr sample_float "2025-09-01"
              monday_rows sample_storage eq_refl) as (text & Hd & Hf & _).
  - intros r [<- | [<- | []]] v Hv; cbn in Hv;
      repeat match goal with
             | Hq : _ \/ _ |- _ => destruct Hq as [Hq | Hq]
             | Hq : Some _ = Some _ |- _ => injection Hq as <-
             | Hq : None = Some _ |- _ => discriminate Hq
             | Hq : False |- _ => destruct Hq
             end; try exact I.
    intros _. split; reflexivity.
  - exists text. split; [exact Hd | exact Hf].
Defined.

Lemma save_load_employees_witness :
  exists text,
    Json.dump sample_float_repr (Records.of_employees [ann; bob]) = Ok text
    /\ Records.file_of_text sample_float Records.to_employee text
       = Some (Content [ann; bob]).
Proof.
  destruct (save_load_employees sample_float_repr sample_float [ann; bob]
              sample_storage) as (text & Hd & Hf & _).
  - intros e [<- | [<- | []]] _; split; reflexivity.
  - exists text. split; [exact Hd | exact Hf].
Defined.
